(** * polymarket-analytics: paginated collection and portfolio aggregation

    A shallow embedding of [polymarket_api.py] (the offset-paginated fetch
    loops and the leaderboard snapshot collector) and of
    [polymarket_portfolioAnalyzer.py] (position loading, deduplication and the
    portfolio ratios), with the properties of the specification stated over
    it.

    Conventions of the embedding:
    - Python integers are [Z]; money and price columns, which are floats in
      the source, are exact rationals [Q];
    - an HTTP endpoint is a function from the request to its response; a
      response is a page of records or an exception;
    - [while True] loops take a fuel argument and answer [OutOfFuel] when it
      is spent; [print] and [time.sleep] calls are recorded in an event trace.
*)

From Stdlib Require Import String ZArith QArith List Bool Lia Arith Permutation.
Import ListNotations.

Local Open Scope Z_scope.

(* ================================================================== *)
(** ** Exceptions, results, traces *)

(** The exceptions the modelled code raises or lets through. *)
Inductive exn : Type :=
| HTTPError (status_code : Z)     (* requests.exceptions.HTTPError *)
| OtherError                      (* any other exception of a request *)
| QualityError (failed total : Z) (* "Scrape quality too low: f/t failed" *)
| KeyError (key : string)         (* a column that a frame does not have *)
| EmptyDataError                  (* pd.read_csv: "No columns to parse" *).

(** A Python call either returns a value or raises. *)
Inductive result (A : Type) : Type :=
| Ok (a : A)
| Raise (e : exn).
Arguments Ok {A} a.
Arguments Raise {A} e.

(** How a call of a [while True] fetch loop ends. *)
Inductive outcome (A : Type) : Type :=
| Returned (records : list A)
| Raised (e : exn)
| OutOfFuel.
Arguments Returned {A} records.
Arguments Raised {A} e.
Arguments OutOfFuel {A}.

(** Observable steps of a fetch loop, in program order. *)
Inductive event : Type :=
| Request (limit offset : Z)     (* one HTTP GET of a page *)
| Sleep (seconds : Q)            (* time.sleep *)
| RateLimited (offset : Z)       (* "Rate limited at offset ..." *)
| Warning (offset : Z)           (* "Warning: Reached API pagination limit" *)
| EarlyStop                      (* "No relevant positions in last 5 batches" *).

Definition is_request (e : event) : bool :=
  match e with Request _ _ => true | _ => false end.

Definition is_warning (e : event) : bool :=
  match e with Warning _ => true | _ => false end.

Definition request_count (tr : list event) : Z :=
  Z.of_nat (length (filter is_request tr)).

Definition warning_count (tr : list event) : Z :=
  Z.of_nat (length (filter is_warning tr)).

(** A paged endpoint ([requests.get], [raise_for_status], [json]): the
    answer to the [n]-th request of a walk (counted from 0), which asks for
    [limit] records from [offset].  The other query parameters are the same
    for every page of a walk and are part of the endpoint. *)
Definition endpoint (A : Type) : Type := nat -> Z -> Z -> result (list A).

(** Python's [len]. *)
Definition len {A : Type} (l : list A) : Z := Z.of_nat (length l).

(** Python's [l[:m]]: a negative [m] counts from the end. *)
Definition slice_to {A : Type} (m : Z) (l : list A) : list A :=
  if m <? 0 then firstn (Z.to_nat (len l + m)) l else firstn (Z.to_nat m) l.

(** Truthiness of an [Optional[int]]: [None] and [0] are false. *)
Definition truthy (m : option Z) : bool :=
  match m with Some v => negb (v =? 0) | None => false end.

(** The mock endpoint of the specification: a server that holds [data] and
    answers every request with the slice it asks for. *)
Definition serve {A : Type} (data : list A) : endpoint A :=
  fun _ limit offset =>
    Ok (firstn (Z.to_nat limit) (skipn (Z.to_nat offset) data)).

(* ================================================================== *)
(** ** [PolymarketAPI.get_all_user_trades] *)

Definition trades_limit : Z := 500.      (* limit = 500  # Maximum per request *)
Definition api_offset_max : Z := 10000.  (* API max is 10,000 *)

(** [max_results and len(all_trades) >= max_results] *)
Definition reached (max_results : option Z) (n : Z) : bool :=
  match max_results with
  | Some m => negb (m =? 0) && (m <=? n)
  | None => false
  end.

(** [all_trades[:max_results]], evaluated only when [reached] holds. *)
Definition truncate {A : Type} (max_results : option Z) (l : list A) : list A :=
  match max_results with
  | Some m => slice_to m l
  | None => l
  end.

Section Trades.
Context {A : Type}.
Variable get_user_trades : endpoint A.
Variable max_results : option Z.
Variable rate_limit_delay : Q.

(** The body of [while True:], with [n] requests already issued.  There is
    no [try] around the request: every exception leaves the loop. *)
Fixpoint trades_loop (fuel : nat) (n : nat) (offset : Z) (all_trades : list A)
         (tr : list event) : outcome A * list event :=
  match fuel with
  | O => (OutOfFuel, tr)
  | S fuel' =>
    let tr := tr ++ [Request trades_limit offset] in
    match get_user_trades n trades_limit offset with
    | Raise e => (Raised e, tr)
    | Ok batch =>
      let all_trades := all_trades ++ batch in
      if len batch <? trades_limit then (Returned all_trades, tr)
      else if reached max_results (len all_trades)
      then (Returned (truncate max_results all_trades), tr)
      else if api_offset_max <=? offset + trades_limit
      then (Returned all_trades, tr ++ [Warning (offset + trades_limit)])
      else trades_loop fuel' (S n) (offset + trades_limit) all_trades
                       (tr ++ [Sleep rate_limit_delay])
    end
  end.

Definition get_all_user_trades (fuel : nat) : outcome A * list event :=
  trades_loop fuel 0%nat 0 [] [].
End Trades.

(* ================================================================== *)
(** ** [PolymarketAPI.get_all_user_positions] *)

Definition positions_limit : Z := 500.
Definition closed_limit : Z := 25.
Definition cooldown : Q := 5.            (* time.sleep(5) on a 429 *)

Section OpenPositions.
Context {A : Type}.
Variable get_user_positions : endpoint A.
Variable delay : Q.

(** The body of [while True: try: ... except HTTPError]: a 429 goes round
    the loop again with [offset] as it is, any other exception leaves. *)
Fixpoint positions_loop (fuel : nat) (n : nat) (offset : Z)
         (all_positions : list A) (tr : list event)
  : outcome A * list event :=
  match fuel with
  | O => (OutOfFuel, tr)
  | S fuel' =>
    let tr := tr ++ [Request positions_limit offset] in
    match get_user_positions n positions_limit offset with
    | Raise (HTTPError status_code) =>
      if status_code =? 429
      then positions_loop fuel' (S n) offset all_positions
                          (tr ++ [RateLimited offset; Sleep cooldown])
      else (Raised (HTTPError status_code), tr)
    | Raise e => (Raised e, tr)
    | Ok [] => (Returned all_positions, tr)
    | Ok batch =>
      let all_positions := all_positions ++ batch in
      if len batch <? positions_limit then (Returned all_positions, tr)
      else positions_loop fuel' (S n) (offset + positions_limit)
                          all_positions (tr ++ [Sleep delay])
    end
  end.

Definition get_all_user_positions (fuel : nat) : outcome A * list event :=
  positions_loop fuel 0%nat 0 [] [].
End OpenPositions.

(* ================================================================== *)
(** ** [PolymarketAPI.get_all_closed_positions] *)

(** [(not start or ts >= start) and (not end or ts <= end)] *)
Definition in_range (start_timestamp end_timestamp : option Z) (ts : Z) : bool :=
  (negb (truthy start_timestamp)
   || match start_timestamp with Some s => s <=? ts | None => true end)
  && (negb (truthy end_timestamp)
      || match end_timestamp with Some e => ts <=? e | None => true end).

Section ClosedPositions.
Context {A : Type}.
Variable timestamp_of : A -> Z.        (* pos.get('timestamp', 0) *)
Variable get_closed_positions : endpoint A.
Variables start_timestamp end_timestamp : option Z.
Variable delay : Q.

Definition use_early_stopping : bool :=
  truthy start_timestamp || truthy end_timestamp.

Definition batch_has_valid (batch : list A) : bool :=
  existsb (fun pos => in_range start_timestamp end_timestamp (timestamp_of pos))
          batch.

Fixpoint closed_loop (fuel : nat) (n : nat) (offset : Z)
         (consecutive_old_batches : Z) (all_positions : list A)
         (tr : list event) : outcome A * list event :=
  match fuel with
  | O => (OutOfFuel, tr)
  | S fuel' =>
    let tr := tr ++ [Request closed_limit offset] in
    match get_closed_positions n closed_limit offset with
    | Raise (HTTPError status_code) =>
      if status_code =? 429
      then closed_loop fuel' (S n) offset consecutive_old_batches
                       all_positions
                       (tr ++ [RateLimited offset; Sleep cooldown])
      else (Raised (HTTPError status_code), tr)
    | Raise e => (Raised e, tr)
    | Ok [] => (Returned all_positions, tr)
    | Ok batch =>
      let all_positions := all_positions ++ batch in
      let old :=
        if use_early_stopping
        then if batch_has_valid batch then 0 else consecutive_old_batches + 1
        else consecutive_old_batches in
      if use_early_stopping && negb (batch_has_valid batch) && (5 <=? old)
      then (Returned all_positions, tr ++ [EarlyStop])
      else if len batch <? closed_limit then (Returned all_positions, tr)
      else closed_loop fuel' (S n) (offset + closed_limit) old
                       all_positions (tr ++ [Sleep delay])
    end
  end.

(** The walk, then the client-side date filter. *)
Definition get_all_closed_positions (fuel : nat) : outcome A * list event :=
  match closed_loop fuel 0%nat 0 0 [] [] with
  | (Returned all_positions, tr) =>
    if use_early_stopping
    then (Returned
            (filter (fun pos =>
                       in_range start_timestamp end_timestamp (timestamp_of pos))
                    all_positions), tr)
    else (Returned all_positions, tr)
  | other => other
  end.
End ClosedPositions.

(* ================================================================== *)
(** ** [PolymarketAPI.scrape_leaderboard] *)

Definition batch_size : Z := 20.
Definition courtesy_pause : Q := 3 # 10.   (* time.sleep(0.3) *)

Section Leaderboard.
Context {A : Type}.
Variable get_leaderboard : endpoint A.

(** [for i in range(num_batches)], with [remaining] iterations to go. *)
Fixpoint leaderboard_loop (remaining : nat) (n : nat) (i : Z)
         (all_users : list A) (tr : list event)
  : result (list A) * list event :=
  match remaining with
  | O => (Ok all_users, tr)
  | S remaining' =>
    let offset := i * batch_size in
    let tr := tr ++ [Request batch_size offset] in
    match get_leaderboard n batch_size offset with
    | Raise e => (Raise e, tr)
    | Ok users =>
      let all_users := all_users ++ users in
      if len users <? batch_size then (Ok all_users, tr)
      else leaderboard_loop remaining' (S n) (i + 1) all_users
                            (tr ++ [Sleep courtesy_pause])
    end
  end.

Definition num_batches (total : Z) : Z := (total + batch_size - 1) / batch_size.

Definition scrape_leaderboard (total : Z) : result (list A) * list event :=
  leaderboard_loop (Z.to_nat (num_batches total)) 0%nat 0 [] [].
End Leaderboard.

(* ================================================================== *)
(** ** [PolymarketAPI.scrape_leaderboard_snapshot] *)

(** A leaderboard entry, with the defaults of [user.get] already applied and
    [rank], [pnl], [vol] already numbers. *)
Record user : Type := {
  rank : Z;
  proxyWallet : string;
  pnl : Q;
  vol : Q;
  userName : string
}.

Record snapshot_row : Type := {
  row_timestamp : string;
  row_timeframe : string;
  row_category : string;
  row_rank : Z;
  row_address : string;
  row_pnl : Q;
  row_volume : Q;
  row_userName : string
}.

Definition categories : list string :=
  ["overall"; "politics"; "sports"; "crypto"; "finance";
   "culture"; "mentions"; "weather"; "economics"; "tech"]%string.

(** The leaderboard service as the collector sees it: the endpoint that
    answers attempt [attempt] of scrape number [current_scrape], queried
    with [timePeriod] and [category]. *)
Definition leaderboard_api : Type := Z -> Z -> string -> string -> endpoint user.

Inductive scrape_event : Type :=
| Attempt (current_scrape attempt : Z)
| RetrySleep (current_scrape : Z) (seconds : Q).

Record scrape_state : Type := {
  all_data : list snapshot_row;
  failed_scrapes : list string;
  current_scrape : Z;
  scrape_log : list scrape_event
}.

Definition is_attempt_of (s : Z) (e : scrape_event) : bool :=
  match e with Attempt s' _ => s' =? s | RetrySleep _ _ => false end.

Definition attempts_of (s : Z) (log : list scrape_event) : Z :=
  len (filter (is_attempt_of s) log).

Section Snapshot.
Variable api : leaderboard_api.
Variable timestamp : string.            (* now.strftime(...) *)
Variable limit : Z.
Variable max_retries : Z.
Variable retry_delay : Q.

Definition to_row (timeframe category : string) (u : user) : snapshot_row :=
  {| row_timestamp := timestamp;
     row_timeframe := timeframe;
     row_category := category;
     row_rank := rank u;
     row_address := proxyWallet u;
     row_pnl := pnl u;
     row_volume := vol u;
     row_userName := userName u |}.

(** [f"{timeframe}/{category}"] *)
Definition scrape_name (timeframe category : string) : string :=
  (timeframe ++ "/" ++ category)%string.

(** [for attempt in range(max_retries): try: ... except Exception] *)
Fixpoint retry_loop (remaining : nat) (attempt : Z)
         (timeframe category : string) (st : scrape_state) : scrape_state :=
  match remaining with
  | O => st
  | S remaining' =>
    let s := current_scrape st in
    let log :=
      scrape_log st
      ++ (if 0 <? attempt then [RetrySleep s retry_delay] else [])
      ++ [Attempt s attempt] in
    match fst (scrape_leaderboard (api s attempt timeframe category) limit) with
    | Ok users =>
      {| all_data := all_data st ++ map (to_row timeframe category) users;
         failed_scrapes := failed_scrapes st;
         current_scrape := s;
         scrape_log := log |}
    | Raise _ =>
      retry_loop remaining' (attempt + 1) timeframe category
        {| all_data := all_data st;
           failed_scrapes :=
             if attempt =? max_retries - 1
             then failed_scrapes st ++ [scrape_name timeframe category]
             else failed_scrapes st;
           current_scrape := s;
           scrape_log := log |}
    end
  end.

(** The body of [for category in categories]. *)
Definition scrape_category (timeframe : string) (st : scrape_state)
           (category : string) : scrape_state :=
  retry_loop (Z.to_nat max_retries) 0 timeframe category
    {| all_data := all_data st;
       failed_scrapes := failed_scrapes st;
       current_scrape := current_scrape st + 1;
       scrape_log := scrape_log st |}.

(** The body of [for timeframe in timeframes]. *)
Definition scrape_timeframe (st : scrape_state) (timeframe : string)
  : scrape_state :=
  fold_left (scrape_category timeframe) categories st.

Definition initial_state : scrape_state :=
  {| all_data := []; failed_scrapes := []; current_scrape := 0;
     scrape_log := [] |}.

Definition scrape_all (timeframes : list string) : scrape_state :=
  fold_left scrape_timeframe timeframes initial_state.

Record snapshot_run : Type := {
  final : scrape_state;
  total_scrapes : Z;
  store_after : option (list snapshot_row);   (* the rows of the daily CSV *)
  headed_after : bool;                        (* it begins with the header *)
  returned : result (list snapshot_row)
}.

(** A cell of the row is the text [timestamp].  The cells of [rank], [pnl]
    and [volume] are numerals and never are. *)
Definition names_timestamp (r : snapshot_row) : bool :=
  existsb (String.eqb "timestamp")
          [row_timestamp r; row_timeframe r; row_category r; row_address r;
           row_userName r].

(** [full_df = pd.read_csv(filename); full_df['timestamp']] (lines 179-180)
    on a daily file with these data rows.  A file that begins with the
    header line is read as written.  In a file without it the first data
    row is taken for the header, so the column [timestamp] is missing
    unless a cell of that row happens to be that text; a file without any
    row has no columns to parse. *)
Definition read_back (headed : bool) (rows : list snapshot_row) : option exn :=
  if headed then None
  else match rows with
       | [] => Some EmptyDataError
       | first :: _ =>
         if names_timestamp first then None else Some (KeyError "timestamp")
       end.

(** The exception of the cumulative statistics, if any: they are computed
    only when the file existed before the run. *)
Definition file_error (store : option (list snapshot_row)) (headed : bool)
           (snapshot_df : list snapshot_row) : option exn :=
  match store with
  | Some rows => read_back headed (rows ++ snapshot_df)
  | None => None
  end.

(** [len(failed_scrapes) > total_scrapes * 0.3].  The product is a float in
    the source; it is exact for every multiple of ten up to 20000, so the
    test is the integer one. *)
Definition quality_too_low (failed total : Z) : bool :=
  3 * total <? 10 * failed.

(** [store] holds the data rows of the daily file before the run ([None]:
    the file does not exist) and [headed] says whether the file begins with
    the header line.  A new file is written with [header=True], which gives
    a header line only when the frame has columns, that is, at least one
    row; an existing file is appended to with [header=False] and then read
    back for the cumulative statistics, before the quality test. *)
Definition scrape_leaderboard_snapshot (store : option (list snapshot_row))
           (headed : bool) (timeframes : option (list string)) : snapshot_run :=
  let timeframes :=
    match timeframes with Some t => t | None => ["day"%string] end in
  let total := len categories * len timeframes in
  let st := scrape_all timeframes in
  let snapshot_df := all_data st in
  let store' :=
    match store with
    | Some rows => Some (rows ++ snapshot_df)     (* mode='a' *)
    | None => Some snapshot_df                    (* mode='w' *)
    end in
  {| final := st;
     total_scrapes := total;
     store_after := store';
     headed_after :=
       match store with
       | Some _ => headed
       | None => 0 <? len snapshot_df
       end;
     returned :=
       match file_error store headed snapshot_df with
       | Some e => Raise e
       | None =>
         if quality_too_low (len (failed_scrapes st)) total
         then Raise (QualityError (len (failed_scrapes st)) total)
         else Ok snapshot_df
       end |}.
End Snapshot.

(* ================================================================== *)
(** ** [PortfolioAnalyzer]: tables *)

(** A position as the API returns it.  [api_timestamp] is the closing time of
    a closed position; [api_endDate] is the resolution date, [None] when the
    field is empty or cannot be parsed ([NaT]).  Times are epoch seconds. *)
Record api_position : Type := {
  api_asset : string;
  api_title : string;
  api_eventSlug : string;
  api_avgPrice : Q;
  api_totalBought : Q;
  api_timestamp : Z;
  api_endDate : option Z;
  api_realizedPnl : Q;
  api_cashPnl : Q;
  api_curPrice : Q
}.

(** A row of [self.df].  Every column is populated. *)
Record position : Type := {
  asset : string;
  title : string;
  eventSlug : string;
  avgPrice : Q;
  totalBought : Q;
  value : Q;
  realizedPnl : Q;
  curPrice : Q;
  closed : bool;
  timestamp : Z;
  endDate : option Z
}.

Inductive side : Type := BUY | SELL.

Definition side_eqb (a b : side) : bool :=
  match a, b with BUY, BUY => true | SELL, SELL => true | _, _ => false end.

(** A trade as the API returns it. *)
Record api_trade : Type := {
  api_t_asset : string;
  api_t_side : side;
  api_t_size : Q;
  api_t_price : Q;
  api_t_timestamp : Z;
  api_t_title : string;
  api_t_eventSlug : string
}.

(** A row of [self.all_trades_df]; a column that comes from a lookup by
    asset is [None] where the asset has no position. *)
Record trade : Type := {
  t_asset : string;
  t_side : side;
  t_size : Q;
  t_price : Q;
  t_timestamp : Z;
  t_title : string;
  t_eventSlug : string;
  t_value : Q;
  t_closed : option bool;
  t_curPrice : option Q;
  t_current_value : option Q;
  t_trade_pnl : option Q
}.

(** [pd.Timestamp('2099-12-31')] in epoch seconds. *)
Definition far_future : Z := 4102358400.

Definition Qlt_bool (a b : Q) : bool := negb (Qle_bool b a).

(** Python's [a / b] on numbers: [None] stands for the [ZeroDivisionError] of
    Python numbers and for the [inf]/[NaN] numpy gives. *)
Definition py_div (a b : Q) : option Q :=
  if Qeq_bool b 0 then None else Some (a / b)%Q.

Definition Qabs (a : Q) : Q := if Qle_bool 0 a then a else (- a)%Q.

Definition Qsum (l : list Q) : Q := fold_left Qplus l 0%Q.

(** [sort_values(by='timestamp', ascending=False)], as an insertion sort that
    keeps rows of equal timestamp in their input order: pandas does so on
    the short columns numpy sorts by insertion.  On longer columns the order
    among equal timestamps is that of numpy's quicksort and is not
    modelled. *)
Section SortDesc.
Context {A : Type}.
Variable ts : A -> Z.

Fixpoint insert_desc (x : A) (l : list A) : list A :=
  match l with
  | [] => [x]
  | y :: l' => if ts y <=? ts x then x :: y :: l' else y :: insert_desc x l'
  end.

Definition sort_desc (l : list A) : list A :=
  fold_right insert_desc [] l.
End SortDesc.

(** [df = df[df['timestamp'] >= start]; df = df[df['timestamp'] <= end]],
    each under [if start] / [if end]. *)
Definition filter_window {A : Type} (ts : A -> Z)
           (start_date end_date : option Z) (df : list A) : list A :=
  let df :=
    match start_date with
    | Some s => filter (fun r => s <=? ts r) df
    | None => df
    end in
  match end_date with
  | Some e => filter (fun r => ts r <=? e) df
  | None => df
  end.

Definition is_some {A : Type} (o : option A) : bool :=
  match o with Some _ => true | None => false end.

(* ================================================================== *)
(** ** [PortfolioAnalyzer.load_positions] *)

Definition closed_row (p : api_position) : position :=
  {| asset := api_asset p;
     title := api_title p;
     eventSlug := api_eventSlug p;
     avgPrice := api_avgPrice p;
     totalBought := api_totalBought p;
     value := (api_avgPrice p * api_totalBought p)%Q;
     realizedPnl := api_realizedPnl p;
     curPrice := api_curPrice p;
     closed := true;
     timestamp := api_timestamp p;
     endDate := api_endDate p |}.

Definition open_row (p : api_position) : position :=
  {| asset := api_asset p;
     title := api_title p;
     eventSlug := api_eventSlug p;
     avgPrice := api_avgPrice p;
     totalBought := api_totalBought p;
     value := (api_avgPrice p * api_totalBought p)%Q;
     realizedPnl := api_cashPnl p;
     curPrice := api_curPrice p;
     closed := false;
     timestamp :=
       match api_endDate p with Some d => d | None => far_future end;
     endDate :=
       match api_endDate p with Some d => Some d | None => Some far_future end |}.

(** The client-side block of [load_positions] (lines 117-122). *)
Definition window_positions (start_date end_date : option Z)
           (df : list position) : list position :=
  if (is_some start_date || is_some end_date) && (0 <? len df)
  then filter_window timestamp start_date end_date df
  else df.

(** [load_positions] after the two fetches: [closed_positions] is what
    [get_all_closed_positions] returned, [open_positions] what
    [get_all_user_positions] returned.  When both are empty the two frames
    have no columns, and [sort_values(by='timestamp')] on their concat
    (lines 112-114) raises [KeyError] before the "No positions found"
    branch is reached. *)
Definition load_positions (start_date end_date : option Z)
           (closed_positions open_positions : list api_position)
  : result (list position) :=
  let df_closed := sort_desc timestamp (map closed_row closed_positions) in
  let df_open := sort_desc timestamp (map open_row open_positions) in
  match closed_positions, open_positions with
  | [], [] => Raise (KeyError "timestamp")
  | _, _ =>
    let df := sort_desc timestamp (df_closed ++ df_open) in
    Ok (window_positions start_date end_date df)
  end.

(* ================================================================== *)
(** ** [PortfolioAnalyzer.load_trades] *)

(** [df.set_index('asset')[col].to_dict()] then [.map]: the last row of an
    asset wins. *)
Fixpoint lookup_last {B : Type} (col : position -> B) (a : string)
         (df : list position) : option B :=
  match df with
  | [] => None
  | p :: df' =>
    match lookup_last col a df' with
    | Some b => Some b
    | None => if String.eqb (asset p) a then Some (col p) else None
    end
  end.

Definition trade_row (df : list position) (t : api_trade) : trade :=
  let v := (api_t_size t * api_t_price t)%Q in
  let cur := lookup_last curPrice (api_t_asset t) df in
  let current_value := option_map (fun c => (c * api_t_size t)%Q) cur in
  {| t_asset := api_t_asset t;
     t_side := api_t_side t;
     t_size := api_t_size t;
     t_price := api_t_price t;
     t_timestamp := api_t_timestamp t;
     t_title := api_t_title t;
     t_eventSlug := api_t_eventSlug t;
     t_value := v;
     t_closed := lookup_last closed (api_t_asset t) df;
     t_curPrice := cur;
     t_current_value := current_value;
     t_trade_pnl := option_map (fun c => (c - v)%Q) current_value |}.

(** The date block of [load_trades] (lines 238-247). *)
Definition window_trades (start_date end_date : option Z)
           (all_trades_df : list trade) : list trade :=
  if is_some start_date || is_some end_date
  then filter_window t_timestamp start_date end_date all_trades_df
  else all_trades_df.

(** [load_trades] after the per-event fetches, which gave [all_trades]. *)
Definition load_trades (start_date end_date : option Z)
           (df : list position) (all_trades : list api_trade) : list trade :=
  match df, all_trades with
  | [], _ => []
  | _, [] => []
  | _, _ =>
    sort_desc t_timestamp
      (window_trades start_date end_date (map (trade_row df) all_trades))
  end.

(* ================================================================== *)
(** ** [PortfolioAnalyzer.process_trades]: deduplication by asset *)

(** A row of [df_aggregated]. *)
Record aggregated : Type := {
  agg_title : string;
  agg_eventSlug : string;
  agg_asset : string;
  agg_realizedPnl : Q;
  agg_closed : bool;
  agg_timestamp : Z
}.

(** [groupby('asset')]: one pass puts each row at the end of the group of
    its asset; the groups then come out in key order. *)
Fixpoint add_to_group (r : position) (groups : list (string * list position))
  : list (string * list position) :=
  match groups with
  | [] => [(asset r, [r])]
  | (k, rows) :: rest =>
    if String.eqb k (asset r) then (k, rows ++ [r]) :: rest
    else (k, rows) :: add_to_group r rest
  end.

Definition group_rows (df : list position) : list (string * list position) :=
  fold_left (fun groups r => add_to_group r groups) df [].

Fixpoint insert_group (g : string * list position)
         (l : list (string * list position)) : list (string * list position) :=
  match l with
  | [] => [g]
  | h :: l' =>
    if String.leb (fst g) (fst h) then g :: h :: l' else h :: insert_group g l'
  end.

Definition sort_groups (l : list (string * list position))
  : list (string * list position) :=
  fold_right insert_group [] l.

Definition groupby_asset (df : list position) : list (string * list position) :=
  sort_groups (group_rows df).

(** ['max'] over a group that starts with [t]. *)
Definition max_from (t : Z) (l : list Z) : Z := fold_left Z.max l t.

(** [.agg({'title': 'first', 'eventSlug': 'first', 'asset': 'first',
    'realizedPnl': 'sum', 'closed': lambda x: all(x), 'timestamp': 'max'})]
    on one group. *)
Definition agg_group (rows : list position) : list aggregated :=
  match rows with
  | [] => []
  | r :: rows' =>
    [ {| agg_title := title r;
         agg_eventSlug := eventSlug r;
         agg_asset := asset r;
         agg_realizedPnl := Qsum (map realizedPnl rows);
         agg_closed := forallb closed rows;
         agg_timestamp := max_from (timestamp r) (map timestamp rows') |} ]
  end.

Definition aggregate (df : list position) : list aggregated :=
  flat_map (fun g => agg_group (snd g)) (groupby_asset df).

(** [trade_dfs]: the key [trade{i}] as its index [i], and the trades of the
    asset, for the aggregated rows that have trades. *)
Fixpoint number_from {A : Type} (i : Z) (l : list A) : list (Z * A) :=
  match l with
  | [] => []
  | x :: l' => (i, x) :: number_from (i + 1) l'
  end.

Definition trades_of (a : string) (all_trades_df : list trade) : list trade :=
  filter (fun t => String.eqb (t_asset t) a) all_trades_df.

Definition process_trades (df : list position) (all_trades_df : list trade)
  : list (Z * list trade) :=
  match df, all_trades_df with
  | [], _ => []
  | _, [] => []
  | _, _ =>
    flat_map
      (fun ir =>
         match trades_of (agg_asset (snd ir)) all_trades_df with
         | [] => []
         | position_trades => [(fst ir, position_trades)]
         end)
      (number_from 1 (aggregate df))
  end.

(* ================================================================== *)
(** ** [PortfolioAnalyzer.create_summary] *)

Record summary_row : Type := {
  s_position : Z;
  s_title : string;
  s_eventSlug : string;
  s_first_timestamp : Z;
  s_totalBought : Q;
  s_realizedPnl : Q;
  s_total_invested : Q;
  s_total_sells : Q;
  s_net_invested : Q;
  s_roi_pct : option Q;
  s_num_trades : Z;
  s_has_sells : bool;
  s_closed : bool;
  s_asset : string
}.

Definition side_value (s : side) (trades : list trade) : Q :=
  Qsum (map t_value (filter (fun t => side_eqb (t_side t) s) trades)).

(** [(api_pnl / total_invested * 100) if total_invested > 0 else 0] *)
Definition roi_total_capital (api_pnl total_invested : Q) : option Q :=
  if Qlt_bool 0 total_invested
  then option_map (fun q => (q * 100)%Q) (py_div api_pnl total_invested)
  else Some 0%Q.

(** One pass of the loop over [trade_dfs]; [None] is the [IndexError] of
    [.iloc[0]] on an asset that has no row in [self.df]. *)
Definition summarize (df : list position) (key : Z) (trades : list trade)
  : option (list summary_row) :=
  match trades with
  | [] => Some []
  | t0 :: _ =>
    let asset_id := t_asset t0 in
    match filter (fun p => String.eqb (asset p) asset_id) df with
    | [] => None
    | position_data :: _ =>
      let api_pnl := realizedPnl position_data in
      let total_invested := side_value BUY trades in
      let total_sells := side_value SELL trades in
      Some [ {| s_position := key;
                s_title := t_title t0;
                s_eventSlug := t_eventSlug t0;
                s_first_timestamp := t_timestamp (last trades t0);
                s_totalBought := totalBought position_data;
                s_realizedPnl := api_pnl;
                s_total_invested := total_invested;
                s_total_sells := total_sells;
                s_net_invested := (total_invested - total_sells)%Q;
                s_roi_pct := roi_total_capital api_pnl total_invested;
                s_num_trades := len trades;
                s_has_sells :=
                  existsb (fun t => side_eqb (t_side t) SELL) trades;
                s_closed := closed position_data;
                s_asset := asset_id |} ]
    end
  end.

Fixpoint summarize_all (df : list position) (trade_dfs : list (Z * list trade))
  : option (list summary_row) :=
  match trade_dfs with
  | [] => Some []
  | (key, trades) :: rest =>
    match summarize df key trades, summarize_all df rest with
    | Some rows, Some rows' => Some (rows ++ rows')
    | _, _ => None
    end
  end.

Definition create_summary (df : list position) (trade_dfs : list (Z * list trade))
  : option (list summary_row) :=
  match df with
  | [] => Some []
  | _ => summarize_all df trade_dfs
  end.

(* ================================================================== *)
(** ** [PortfolioAnalyzer.portfolio_summary] *)

Record portfolio : Type := {
  realized_pnl : Q;
  unrealized_pnl : Q;
  total_pnl : Q;
  total_invested : Q;
  overall_roi : option Q;
  win_rate : option Q;
  avg_win : option Q;
  avg_loss : option Q;
  profit_factor : option Q
}.

Definition Qlen {A : Type} (l : list A) : Q := inject_Z (len l).

(** [series.mean() if len(series) > 0 else 0] *)
Definition mean_or_zero (l : list Q) : option Q :=
  if 0 <? len l then py_div (Qsum l) (Qlen l) else Some 0%Q.

Definition closed_rows (summary_df : list summary_row) : list summary_row :=
  filter s_closed summary_df.

Definition winning_rows (rows : list summary_row) : list summary_row :=
  filter (fun r => Qlt_bool 0 (s_realizedPnl r)) rows.

Definition losing_rows (rows : list summary_row) : list summary_row :=
  filter (fun r => Qlt_bool (s_realizedPnl r) 0) rows.

(** [(total_pnl / total_invested * 100) if total_invested > 0 else 0] *)
Definition overall_roi_of (total_pnl total_invested : Q) : option Q :=
  if Qlt_bool 0 total_invested
  then option_map (fun q => (q * 100)%Q) (py_div total_pnl total_invested)
  else Some 0%Q.

(** [(len(winning) / len(closed_positions) * 100)
     if len(closed_positions) > 0 else 0] *)
Definition win_rate_of (winning closed_positions : list summary_row)
  : option Q :=
  if 0 <? len closed_positions
  then option_map (fun q => (q * 100)%Q)
                  (py_div (Qlen winning) (Qlen closed_positions))
  else Some 0%Q.

(** [abs((avg_win * len(winning)) / (avg_loss * len(losing)))
     if len(losing) > 0 and avg_loss != 0 else 0] *)
Definition profit_factor_of (avg_win avg_loss : Q)
           (winning losing : list summary_row) : option Q :=
  if (0 <? len losing) && negb (Qeq_bool avg_loss 0)
  then option_map Qabs
                  (py_div (avg_win * Qlen winning) (avg_loss * Qlen losing))
  else Some 0%Q.

(** [None]: the early [return] on an empty [df] or [summary_df]. *)
Definition portfolio_summary (df : list position)
           (summary_df : list summary_row) : option portfolio :=
  match df, summary_df with
  | [], _ => None
  | _, [] => None
  | _, _ =>
    let total_pnl := Qsum (map realizedPnl df) in
    let total_invested := Qsum (map s_total_invested summary_df) in
    let closed_positions := closed_rows summary_df in
    let winning := winning_rows closed_positions in
    let losing := losing_rows closed_positions in
    let avg_win := mean_or_zero (map s_realizedPnl winning) in
    let avg_loss := mean_or_zero (map s_realizedPnl losing) in
    Some {| realized_pnl := Qsum (map realizedPnl (filter closed df));
            unrealized_pnl :=
              Qsum (map realizedPnl (filter (fun p => negb (closed p)) df));
            total_pnl := total_pnl;
            total_invested := total_invested;
            overall_roi := overall_roi_of total_pnl total_invested;
            win_rate := win_rate_of winning closed_positions;
            avg_win := avg_win;
            avg_loss := avg_loss;
            profit_factor :=
              match avg_win, avg_loss with
              | Some w, Some l => profit_factor_of w l winning losing
              | _, _ => None
              end |}
  end.

(* ================================================================== *)
(** ** [PolymarketAPI.get_all_user_activity] *)

Definition activity_limit : Z := 500.    (* limit = 500  # Maximum per request *)

Section Activity.
Context {A : Type}.
Variable get_user_activity : endpoint A.
Variable max_results : option Z.

(** The body of [while True:].  The loop is the one of
    [get_all_user_trades] with the pause commented out. *)
Fixpoint activity_loop (fuel : nat) (n : nat) (offset : Z)
         (all_activities : list A) (tr : list event)
  : outcome A * list event :=
  match fuel with
  | O => (OutOfFuel, tr)
  | S fuel' =>
    let tr := tr ++ [Request activity_limit offset] in
    match get_user_activity n activity_limit offset with
    | Raise e => (Raised e, tr)
    | Ok batch =>
      let all_activities := all_activities ++ batch in
      if len batch <? activity_limit then (Returned all_activities, tr)
      else if reached max_results (len all_activities)
      then (Returned (truncate max_results all_activities), tr)
      else if api_offset_max <=? offset + activity_limit
      then (Returned all_activities, tr ++ [Warning (offset + activity_limit)])
      else activity_loop fuel' (S n) (offset + activity_limit) all_activities tr
    end
  end.

Definition get_all_user_activity (fuel : nat) : outcome A * list event :=
  activity_loop fuel 0%nat 0 [] [].
End Activity.

(* ================================================================== *)
(** ** [PolymarketAPI.get_user_trades]: the query *)

(** The [params] dictionary of one GET of [/trades]; an absent key is
    [None]. *)
Record trade_query : Type := {
  q_limit : Z;
  q_offset : Z;
  q_takerOnly : bool;
  q_user : option string;
  q_market : option string;
  q_eventId : option Z;
  q_makerAddress : option string;
  q_side : option string;
  q_filterType : option string;
  q_filterAmount : option Q
}.

(** [if s:] on an [Optional[str]]: [None] and the empty string are false. *)
Definition given_str (s : option string) : option string :=
  match s with
  | Some EmptyString => None
  | other => other
  end.

(** [if v:] on an [Optional[int]]. *)
Definition given_int (v : option Z) : option Z :=
  match v with
  | Some i => if i =? 0 then None else Some i
  | None => None
  end.

(** What a call of [get_user_trades] comes to: the answer of the server, or
    the [ValueError] raised while the query is built. *)
Inductive call (A : Type) : Type :=
| Answer (r : result A)
| ValueError (message : string).
Arguments Answer {A} r.
Arguments ValueError {A} message.

Definition filter_message : string :=
  "filter_type and filter_amount must be provided together".

(** The query of a call, [None] when the filter pair is rejected. *)
Definition trade_params (address : option string) (limit offset : Z)
           (takerOnly : bool) (market : option string) (event_id : option Z)
           (maker_address side filter_type : option string)
           (filter_amount : option Q) : option trade_query :=
  let q (ft : option string) (fa : option Q) :=
    {| q_limit := limit;
       q_offset := offset;
       q_takerOnly := takerOnly;
       q_user := given_str address;
       q_market := given_str market;
       q_eventId := given_int event_id;
       q_makerAddress := given_str maker_address;
       q_side := given_str side;
       q_filterType := ft;
       q_filterAmount := fa |} in
  if is_some (given_str filter_type) && is_some filter_amount
  then Some (q filter_type filter_amount)
  else if is_some (given_str filter_type) || is_some filter_amount
  then None
  else Some (q None None).

(** [get_user_trades], with the queries it sent to [http]. *)
Definition get_user_trades {A : Type} (http : trade_query -> result (list A))
           (address : option string) (limit offset : Z)
           (takerOnly : bool) (market : option string) (event_id : option Z)
           (maker_address side filter_type : option string)
           (filter_amount : option Q) : call (list A) * list trade_query :=
  match trade_params address limit offset takerOnly market event_id
                     maker_address side filter_type filter_amount with
  | None => (ValueError filter_message, [])
  | Some q => (Answer (http q), [q])
  end.

(* ================================================================== *)
(** ** [PolymarketAPI.get_user_pnl] *)

(** The three keys [get_user_pnl] reads from a position; [None]: the key is
    not in the dictionary. *)
Record pnl_position : Type := {
  p_cashPnl : option Q;
  p_initialValue : option Q;
  p_currentValue : option Q
}.

Record user_pnl : Type := {
  total_cash_pnl : Q;
  total_initial_value : Q;
  total_current_value : Q;
  percent_pnl : option Q
}.

(** [if key in position: total += float(position.get(key, 0))] *)
Definition add_if_present (total : Q) (v : option Q) : Q :=
  match v with Some x => (total + x)%Q | None => total end.

Definition pnl_totals (positions : list pnl_position) : Q * Q * Q :=
  fold_left
    (fun '(total_pnl, total_initial_value, total_current_value) position =>
       (add_if_present total_pnl (p_cashPnl position),
        add_if_present total_initial_value (p_initialValue position),
        add_if_present total_current_value (p_currentValue position)))
    positions (0%Q, 0%Q, 0%Q).

Definition pnl_of (positions : list pnl_position) : user_pnl :=
  let '(total_pnl, total_initial_value, total_current_value) :=
    pnl_totals positions in
  {| total_cash_pnl := total_pnl;
     total_initial_value := total_initial_value;
     total_current_value := total_current_value;
     percent_pnl :=
       if Qlt_bool 0 total_initial_value
       then option_map (fun q => (q * 100)%Q)
                       (py_div total_pnl total_initial_value)
       else Some 0%Q |}.

(** [get_user_pnl] asks [get_user_positions] once, with the default
    [limit = 500] and [offset = 0]. *)
Definition get_user_pnl (get_user_positions : endpoint pnl_position)
  : result user_pnl * list event :=
  let tr := [Request positions_limit 0] in
  match get_user_positions 0%nat positions_limit 0 with
  | Ok positions => (Ok (pnl_of positions), tr)
  | Raise e => (Raise e, tr)
  end.

(* ================================================================== *)
(** ** [scrape_daily_1200.scrape_with_retry] *)

Inductive daily_event : Type :=
| ScrapeStarting (attempt : Z)   (* "12:00 Daily scrape starting" *)
| LowRecordCount (records : Z)   (* "Low record count" *)
| ScrapeFailed (attempt : Z)     (* "12:00 Daily scrape attempt ... failed" *)
| FullRetryWait (seconds : Q)    (* time.sleep(delay) *)
| GaveUp                         (* "failed after ... full attempts" *).

Definition is_start (e : daily_event) : bool :=
  match e with ScrapeStarting _ => true | _ => false end.

Definition is_wait (e : daily_event) : bool :=
  match e with FullRetryWait _ => true | _ => false end.

(** How a call of [scrape_with_retry] ends; [daily_result] is [None] when
    the [for] loop runs out and the function returns nothing. *)
Record daily_run : Type := {
  daily_result : option (result (list snapshot_row));
  daily_store : option (list snapshot_row);
  daily_headed : bool;
  daily_log : list daily_event
}.

Section Daily.
(** The leaderboard service and the clock as full attempt [attempt] sees
    them. *)
Variable apis : Z -> leaderboard_api.
Variable timestamps : Z -> string.
Variable max_retries : Z.
Variable delay : Q.

(** [api.scrape_leaderboard_snapshot(limit=100, timeframes=['day'],
    max_retries=3, retry_delay=5)] *)
Definition daily_snapshot (attempt : Z) (store : option (list snapshot_row))
           (headed : bool) : snapshot_run :=
  scrape_leaderboard_snapshot (apis attempt) (timestamps attempt) 100 3 5
                              store headed (Some ["day"%string]).

(** [for attempt in range(max_retries): try: ... except Exception] *)
Fixpoint daily_loop (remaining : nat) (attempt : Z)
         (store : option (list snapshot_row)) (headed : bool)
         (log : list daily_event) : daily_run :=
  match remaining with
  | O => {| daily_result := None; daily_store := store;
            daily_headed := headed; daily_log := log |}
  | S remaining' =>
    let log := log ++ [ScrapeStarting attempt] in
    let run := daily_snapshot attempt store headed in
    match returned run with
    | Ok snapshot_df =>
      {| daily_result := Some (Ok snapshot_df);
         daily_store := store_after run;
         daily_headed := headed_after run;
         daily_log :=
           log ++ (if len snapshot_df <? 800
                   then [LowRecordCount (len snapshot_df)] else []) |}
    | Raise e =>
      let log := log ++ [ScrapeFailed attempt] in
      if attempt <? max_retries - 1
      then daily_loop remaining' (attempt + 1) (store_after run)
                      (headed_after run) (log ++ [FullRetryWait delay])
      else {| daily_result := Some (Raise e);
              daily_store := store_after run;
              daily_headed := headed_after run;
              daily_log := log ++ [GaveUp] |}
    end
  end.

(** [store] and [headed] describe the daily file when the job starts. *)
Definition scrape_with_retry (store : option (list snapshot_row))
           (headed : bool) : daily_run :=
  daily_loop (Z.to_nat max_retries) 0 store headed [].
End Daily.

(* ================================================================== *)
(** ** [PortfolioAnalyzer.fetch_event_ids] and the fetch of [load_trades] *)

(** [Series.unique()]: the values in order of first appearance. *)
Fixpoint unique {K : Type} (eqb : K -> K -> bool) (l : list K) : list K :=
  match l with
  | [] => []
  | x :: l' => x :: filter (fun y => negb (eqb x y)) (unique eqb l')
  end.

Inductive lookup_event : Type :=
| EventLookup (slug : string)    (* api.get_event_by_slug(slug) *)
| LookupPause                    (* time.sleep(0.1) every tenth slug *).

(** [dict.get]: the value stored last under the key. *)
Fixpoint dict_get {V : Type} (k : string) (d : list (string * V)) : option V :=
  match d with
  | [] => None
  | (k', v) :: d' =>
    match dict_get k d' with
    | Some v' => Some v'
    | None => if String.eqb k' k then Some v else None
    end
  end.

Section EventIds.
(** [api.get_event_by_slug(slug)['id']] *)
Variable get_event_id : string -> result Z.

(** [for i, slug in enumerate(unique_slugs, 1)]; entries of [slug_to_id] are
    appended in the order they are set. *)
Fixpoint slug_loop (i : Z) (slugs : list string)
         (slug_to_id : list (string * option Z)) (tr : list lookup_event)
  : list (string * option Z) * list lookup_event :=
  match slugs with
  | [] => (slug_to_id, tr)
  | slug :: rest =>
    let tr := tr ++ [EventLookup slug] in
    match get_event_id slug with
    | Ok id =>
      slug_loop (i + 1) rest (slug_to_id ++ [(slug, Some id)])
                (tr ++ (if i mod 10 =? 0 then [LookupPause] else []))
    | Raise _ =>
      slug_loop (i + 1) rest (slug_to_id ++ [(slug, None)]) tr
    end
  end.

(** The [eventId] column set by [fetch_event_ids], row by row ([None]: a
    null), and the lookups made.  On an empty [df] nothing is done. *)
Definition fetch_event_ids (df : list position)
  : list (option Z) * list lookup_event :=
  match df with
  | [] => ([], [])
  | _ =>
    let unique_slugs := unique String.eqb (map eventSlug df) in
    let '(slug_to_id, tr) := slug_loop 1 unique_slugs [] [] in
    (map (fun p => match dict_get (eventSlug p) slug_to_id with
                   | Some (Some id) => Some id
                   | _ => None
                   end) df,
     tr)
  end.

(** [df['eventId'].dropna().unique()] *)
Definition unique_event_ids (eventId : list (option Z)) : list Z :=
  unique Z.eqb (flat_map (fun o => match o with Some id => [id] | None => [] end)
                         eventId).

(** The [for] loop of [load_trades]: the trades of every event, except the
    events whose fetch raised.  [event_trades id] is what
    [get_all_user_trades(address, event_id=id)] comes to. *)
Definition collect_trades {T : Type} (event_trades : Z -> result (list T))
           (ids : list Z) : list T :=
  flat_map (fun id => match event_trades id with
                      | Ok trades => trades
                      | Raise _ => []
                      end) ids.
End EventIds.

(* ================================================================== *)
(** * Properties *)

(** ** Lists *)

Lemma filter_all_true {A : Type} (f : A -> bool) (l : list A) :
  Forall (fun x => f x = true) l -> filter f l = l.
Proof.
  induction 1 as [| x l Hx _ IH]; simpl; [reflexivity|].
  now rewrite Hx, IH.
Qed.

Lemma filter_Forall {A : Type} (f : A -> bool) (l : list A) :
  Forall (fun x => f x = true) (filter f l).
Proof.
  apply Forall_forall. intros x Hx. now apply filter_In in Hx.
Qed.

Lemma Forall_filter_keeps {A : Type} (P : A -> Prop) (f : A -> bool) (l : list A) :
  Forall P l -> Forall P (filter f l).
Proof.
  rewrite !Forall_forall. intros H x Hx. apply H. now apply filter_In in Hx.
Qed.

Lemma len_nil_iff {A : Type} (l : list A) : (0 <? len l) = false <-> l = [].
Proof.
  unfold len. destruct l; simpl; split; intro H; try reflexivity;
    discriminate.
Qed.

(** ** The time window *)

Definition in_window (start_date end_date : option Z) (t : Z) : Prop :=
  match start_date with Some s => s <= t | None => True end
  /\ match end_date with Some e => t <= e | None => True end.

Lemma filter_window_In {A : Type} (ts : A -> Z) s e (df : list A) (r : A) :
  In r (filter_window ts s e df) <-> In r df /\ in_window s e (ts r).
Proof.
  unfold filter_window, in_window.
  destruct s as [s|], e as [e|]; rewrite ?filter_In, ?Z.leb_le; tauto.
Qed.

Lemma filter_window_fixed {A : Type} (ts : A -> Z) s e (df : list A) :
  Forall (fun r => in_window s e (ts r)) df -> filter_window ts s e df = df.
Proof.
  intro H. unfold filter_window.
  assert (Hs : match s with
               | Some s' => filter (fun r => s' <=? ts r) df
               | None => df
               end = df).
  { destruct s as [s'|]; [|reflexivity].
    apply filter_all_true. eapply Forall_impl; [|exact H].
    intros r [Hr _]. now apply Z.leb_le. }
  rewrite Hs. destruct e as [e'|]; [|reflexivity].
  apply filter_all_true. eapply Forall_impl; [|exact H].
  intros r [_ Hr]. now apply Z.leb_le.
Qed.

Lemma filter_window_idem {A : Type} (ts : A -> Z) s e (df : list A) :
  filter_window ts s e (filter_window ts s e df) = filter_window ts s e df.
Proof.
  apply filter_window_fixed, Forall_forall.
  intros r Hr. now apply filter_window_In in Hr.
Qed.

(** C8: the [start, end] filter of the position table and of the trade table
    is idempotent: applied to a table it has already filtered, with the same
    window, it gives that table back. *)
Theorem window_filter_idempotent :
  forall (start_date end_date : option Z)
         (df : list position) (all_trades_df : list trade),
    window_positions start_date end_date
                     (window_positions start_date end_date df)
    = window_positions start_date end_date df
    /\ window_trades start_date end_date
                     (window_trades start_date end_date all_trades_df)
       = window_trades start_date end_date all_trades_df.
Proof.
  intros s e df trades. split.
  - unfold window_positions.
    destruct (is_some s || is_some e); simpl; [|reflexivity].
    destruct (0 <? len df) eqn:Hn; [|now rewrite Hn].
    destruct (0 <? len (filter_window timestamp s e df)).
    + apply filter_window_idem.
    + reflexivity.
  - unfold window_trades.
    destruct (is_some s || is_some e); [|reflexivity].
    apply filter_window_idem.
Qed.

(** ** Sorting keeps the rows *)

Lemma insert_desc_In {A : Type} (ts : A -> Z) (x y : A) (l : list A) :
  In y (insert_desc ts x l) <-> y = x \/ In y l.
Proof.
  induction l as [|z l IH]; simpl.
  - intuition congruence.
  - destruct (ts z <=? ts x); simpl; rewrite ?IH; intuition congruence.
Qed.

Lemma sort_desc_In {A : Type} (ts : A -> Z) (y : A) (l : list A) :
  In y (sort_desc ts l) <-> In y l.
Proof.
  induction l as [|x l IH]; simpl; [tauto|].
  rewrite insert_desc_In, IH. intuition congruence.
Qed.

Lemma window_positions_In s e (df : list position) (r : position) :
  In r (window_positions s e df)
  <-> In r df /\ (is_some s || is_some e = true -> in_window s e (timestamp r)).
Proof.
  unfold window_positions.
  destruct (is_some s || is_some e) eqn:Hd; simpl.
  - destruct (0 <? len df) eqn:Hn.
    + rewrite filter_window_In. tauto.
    + apply len_nil_iff in Hn. subst df. simpl. tauto.
  - intuition discriminate.
Qed.

(** The table of [load_positions]: the two fetches normalised, merged,
    sorted and cut to the window. *)
Definition merged_positions (s e : option Z)
           (closed_positions open_positions : list api_position)
  : list position :=
  window_positions s e
    (sort_desc timestamp
       (sort_desc timestamp (map closed_row closed_positions)
        ++ sort_desc timestamp (map open_row open_positions))).

(** [load_positions] returns that table unless both fetches are empty. *)
Lemma load_positions_returns s e closed_positions open_positions :
  closed_positions <> [] \/ open_positions <> [] ->
  load_positions s e closed_positions open_positions
  = Ok (merged_positions s e closed_positions open_positions).
Proof.
  unfold load_positions, merged_positions.
  destruct closed_positions, open_positions; try reflexivity.
  intros [H|H]; contradiction.
Qed.

(** The merged table holds exactly the normalised rows that lie in the
    window. *)
Lemma load_positions_In s e closed_positions open_positions (r : position) :
  In r (merged_positions s e closed_positions open_positions)
  <-> (In r (map closed_row closed_positions)
       \/ In r (map open_row open_positions))
      /\ in_window s e (timestamp r).
Proof.
  unfold merged_positions.
  rewrite window_positions_In, sort_desc_In, in_app_iff, !sort_desc_In.
  split.
  - intros [Hin Hw]. split; [exact Hin|].
    destruct s, e; simpl in *; try (apply Hw; reflexivity).
    unfold in_window; tauto.
  - tauto.
Qed.

(** C9: an open position whose endDate is missing gets the sentinel
    timestamp 2099-12-31, and with an end_date before the sentinel no such
    position is in the merged table; the rows that are in the window stay. *)
Theorem open_without_end_date_is_filtered :
  forall (start_date : option Z) (end_date : Z)
         (closed_positions open_positions : list api_position)
         (o : api_position),
    end_date < far_future ->
    In o open_positions ->
    api_endDate o = None ->
    exists df,
      load_positions start_date (Some end_date)
                     closed_positions open_positions = Ok df
      /\ timestamp (open_row o) = far_future
      /\ ~ In (open_row o) df
      /\ (forall r, In r df -> timestamp r <= end_date)
      /\ (forall o',
             In o' open_positions ->
             in_window start_date (Some end_date) (timestamp (open_row o')) ->
             In (open_row o') df).
Proof.
  intros s e cl op o He Ho Hnone.
  assert (Hts : timestamp (open_row o) = far_future).
  { unfold open_row; simpl. now rewrite Hnone. }
  exists (merged_positions s (Some e) cl op).
  split.
  { apply load_positions_returns. right. intro E. now rewrite E in Ho. }
  repeat split.
  - exact Hts.
  - intro Hin. apply load_positions_In in Hin.
    destruct Hin as [_ [_ Hle]]. rewrite Hts in Hle. lia.
  - intros r Hin. apply load_positions_In in Hin. now destruct Hin as [_ [_ Hle]].
  - intros o' Ho' Hw. apply load_positions_In. split; [|exact Hw].
    right. now apply in_map.
Qed.

Definition sample_open_position : api_position :=
  {| api_asset := "B"; api_title := "Will it rain"; api_eventSlug := "rain";
     api_avgPrice := 1 # 2; api_totalBought := 10; api_timestamp := 0;
     api_endDate := None; api_realizedPnl := 0; api_cashPnl := 5;
     api_curPrice := 1 # 2 |}.

Lemma open_without_end_date_is_filtered_witness :
  1700000000 < far_future
  /\ In sample_open_position [sample_open_position]
  /\ api_endDate sample_open_position = None
  /\ exists df,
       load_positions None (Some 1700000000) [] [sample_open_position] = Ok df
       /\ ~ In (open_row sample_open_position) df.
Proof.
  assert (H1 : 1700000000 < far_future) by reflexivity.
  assert (H2 : In sample_open_position [sample_open_position])
    by (left; reflexivity).
  split; [exact H1|]. split; [exact H2|]. split; [reflexivity|].
  destruct (open_without_end_date_is_filtered
              None 1700000000 [] [sample_open_position]
              sample_open_position H1 H2 eq_refl) as (df & Hdf & _ & Hout & _).
  exists df. split; [exact Hdf|exact Hout].
Defined.

(* ================================================================== *)
(** ** Ratios *)

Lemma Qlt_bool_true (a b : Q) : Qlt_bool a b = true -> (a < b)%Q.
Proof.
  unfold Qlt_bool. intro H. apply negb_true_iff in H.
  apply Qnot_le_lt. intro Hle. apply Qle_bool_iff in Hle. congruence.
Qed.

Lemma Qlt_bool_zero_false (a : Q) : (a == 0)%Q -> Qlt_bool 0 a = false.
Proof.
  intro H. unfold Qlt_bool. apply negb_false_iff, Qle_bool_iff.
  rewrite H. apply Qle_refl.
Qed.

Lemma py_div_defined (a b : Q) :
  ~ (b == 0)%Q -> py_div a b = Some (a / b)%Q.
Proof.
  intro H. unfold py_div. destruct (Qeq_bool b 0) eqn:E; [|reflexivity].
  apply Qeq_bool_iff in E. contradiction.
Qed.

Lemma Qlen_nonzero {A : Type} (l : list A) :
  (0 <? len l) = true -> ~ (Qlen l == 0)%Q.
Proof.
  intros H E. apply Z.ltb_lt in H. unfold Qlen, Qeq in E. simpl in E. lia.
Qed.

Lemma mean_or_zero_defined (l : list Q) : exists m, mean_or_zero l = Some m.
Proof.
  unfold mean_or_zero. destruct (0 <? len l) eqn:E.
  - rewrite py_div_defined by now apply Qlen_nonzero. eauto.
  - eauto.
Qed.

Lemma roi_total_capital_defined (api_pnl invested : Q) :
  exists q, roi_total_capital api_pnl invested = Some q.
Proof.
  unfold roi_total_capital. destruct (Qlt_bool 0 invested) eqn:E.
  - apply Qlt_bool_true in E. rewrite py_div_defined; [simpl; eauto|].
    intro H. rewrite H in E. now apply Qlt_irrefl in E.
  - eauto.
Qed.

Lemma overall_roi_of_defined (pnl invested : Q) :
  exists q, overall_roi_of pnl invested = Some q.
Proof. exact (roi_total_capital_defined pnl invested). Qed.

Lemma win_rate_of_defined (winning closed_positions : list summary_row) :
  exists q, win_rate_of winning closed_positions = Some q.
Proof.
  unfold win_rate_of. destruct (0 <? len closed_positions) eqn:E.
  - rewrite py_div_defined by now apply Qlen_nonzero. simpl. eauto.
  - eauto.
Qed.

Lemma profit_factor_of_value (w l : Q) (winning losing : list summary_row) :
  profit_factor_of w l winning losing
  = if (0 <? len losing) && negb (Qeq_bool l 0)
    then Some (Qabs ((w * Qlen winning) / (l * Qlen losing)))
    else Some 0%Q.
Proof.
  unfold profit_factor_of.
  destruct (0 <? len losing) eqn:E; simpl; [|reflexivity].
  destruct (Qeq_bool l 0) eqn:El; simpl; [reflexivity|].
  rewrite py_div_defined; [reflexivity|].
  intro H. apply Qmult_integral in H. destruct H as [H|H].
  - apply Qeq_bool_iff in H. congruence.
  - now apply Qlen_nonzero in E.
Qed.

(** C7: the derived ratios are numbers for every input (the guarded
    divisions never divide by zero), and they are exactly 0 when their
    denominator is zero or empty: roi_pct and overall_roi when
    total_invested is 0, win_rate when no position is closed, profit_factor
    when no position loses or avg_loss is 0; otherwise profit_factor is
    |avg_win * win_count / (avg_loss * loss_count)|. *)
Theorem ratios_are_zero_without_denominator :
  forall (df : list position) (summary_df : list summary_row) (p : portfolio),
    portfolio_summary df summary_df = Some p ->
    let closed_positions := closed_rows summary_df in
    let winning := winning_rows closed_positions in
    let losing := losing_rows closed_positions in
    (forall api_pnl invested,
        (exists q, roi_total_capital api_pnl invested = Some q)
        /\ ((invested == 0)%Q -> roi_total_capital api_pnl invested = Some 0%Q))
    /\ (exists q, overall_roi p = Some q)
    /\ ((total_invested p == 0)%Q -> overall_roi p = Some 0%Q)
    /\ (exists q, win_rate p = Some q)
    /\ (closed_positions = [] -> win_rate p = Some 0%Q)
    /\ exists w l,
        avg_win p = Some w /\ avg_loss p = Some l
        /\ (losing = [] \/ (l == 0)%Q -> profit_factor p = Some 0%Q)
        /\ (losing <> [] -> ~ (l == 0)%Q ->
            profit_factor p
            = Some (Qabs ((w * Qlen winning) / (l * Qlen losing)))).
Proof.
  intros df summary_df p Hp. cbv zeta.
  split.
  { intros api_pnl invested. split.
    - apply roi_total_capital_defined.
    - intro H. unfold roi_total_capital. now rewrite Qlt_bool_zero_false. }
  unfold portfolio_summary in Hp.
  destruct df as [|d df']; [discriminate|].
  destruct summary_df as [|r summary']; [discriminate|].
  cbv zeta in Hp.
  apply (f_equal (fun o => match o with Some x => x | None => p end)) in Hp.
  cbv beta iota in Hp. subst p.
  cbv beta iota delta [overall_roi win_rate avg_win avg_loss profit_factor
                       total_invested].
  set (closed_positions := closed_rows (r :: summary')).
  set (winning := winning_rows closed_positions).
  set (losing := losing_rows closed_positions).
  split; [apply overall_roi_of_defined|].
  split.
  { intro H. unfold overall_roi_of. now rewrite Qlt_bool_zero_false. }
  split; [apply win_rate_of_defined|].
  split.
  { intro H. unfold win_rate_of. now rewrite H. }
  destruct (mean_or_zero_defined (map s_realizedPnl winning)) as [w Hw].
  destruct (mean_or_zero_defined (map s_realizedPnl losing)) as [l Hl].
  exists w, l. rewrite Hw, Hl, profit_factor_of_value.
  repeat split.
  - intros [H|H].
    + now rewrite H.
    + apply Qeq_bool_iff in H. rewrite H. now rewrite andb_false_r.
  - intros Hne Hl0.
    assert (E1 : (0 <? len losing) = true).
    { destruct (0 <? len losing) eqn:E; [reflexivity|].
      apply len_nil_iff in E. contradiction. }
    assert (E2 : Qeq_bool l 0 = false).
    { destruct (Qeq_bool l 0) eqn:E; [|reflexivity].
      apply Qeq_bool_iff in E. contradiction. }
    now rewrite E1, E2.
Qed.

Lemma portfolio_summary_returns (df : list position) (summary_df : list summary_row) :
  df <> [] -> summary_df <> [] ->
  exists p, portfolio_summary df summary_df = Some p.
Proof.
  intros Hd Hs. destruct df; [contradiction|].
  destruct summary_df; [contradiction|]. simpl. eauto.
Qed.

Definition sample_summary_row : summary_row :=
  {| s_position := 1; s_title := "Will it rain"; s_eventSlug := "rain";
     s_first_timestamp := 1700000000; s_totalBought := 10;
     s_realizedPnl := 5; s_total_invested := 0; s_total_sells := 3;
     s_net_invested := -3; s_roi_pct := Some 0%Q; s_num_trades := 1;
     s_has_sells := true; s_closed := false; s_asset := "B" |}.

Definition sample_portfolio : option portfolio :=
  Eval vm_compute in
    portfolio_summary [open_row sample_open_position] [sample_summary_row].

Lemma ratios_are_zero_without_denominator_witness :
  match sample_portfolio with
  | Some p =>
    portfolio_summary [open_row sample_open_position] [sample_summary_row]
    = Some p
    /\ overall_roi p = Some 0%Q
    /\ win_rate p = Some 0%Q
    /\ profit_factor p = Some 0%Q
  | None => False
  end.
Proof.
  unfold sample_portfolio. cbv beta iota.
  match goal with |- ?lhs = Some ?p /\ _ =>
    assert (H : lhs = Some p) by (vm_compute; reflexivity);
    pose proof (ratios_are_zero_without_denominator_witness_aux := 
                  ratios_are_zero_without_denominator _ _ p H)
  end.
  cbv zeta in ratios_are_zero_without_denominator_witness_aux.
  destruct ratios_are_zero_without_denominator_witness_aux
    as (_ & _ & Hroi & _ & Hwin & w & l & _ & _ & Hpf & _).
  split; [exact H|]. split; [|split].
  - apply Hroi. reflexivity.
  - apply Hwin. reflexivity.
  - apply Hpf. left. reflexivity.
Defined.

(* ================================================================== *)
(** ** Deduplication by asset *)

(** The rows of the first group whose key is [k]. *)
Fixpoint rows_of (k : string) (groups : list (string * list position))
  : list position :=
  match groups with
  | [] => []
  | (k', rows) :: rest => if String.eqb k' k then rows else rows_of k rest
  end.

Definition same_asset (k : string) (p : position) : bool :=
  String.eqb (asset p) k.

Lemma rows_of_add (k : string) (r : position) groups :
  rows_of k (add_to_group r groups)
  = if same_asset k r then rows_of k groups ++ [r] else rows_of k groups.
Proof.
  unfold same_asset. induction groups as [|[k' rows] rest IH]; simpl.
  - rewrite String.eqb_sym. now destruct (String.eqb k (asset r)).
  - destruct (String.eqb k' (asset r)) eqn:E1; simpl.
    + apply String.eqb_eq in E1. subst k'.
      destruct (String.eqb (asset r) k) eqn:E2; [reflexivity|].
      reflexivity.
    + destruct (String.eqb k' k) eqn:E2.
      * apply String.eqb_eq in E2. subst k'.
        rewrite String.eqb_sym, E1. reflexivity.
      * exact IH.
Qed.

Lemma keys_add (r : position) groups (k : string) :
  In k (map fst (add_to_group r groups))
  <-> k = asset r \/ In k (map fst groups).
Proof.
  induction groups as [|[k' rows] rest IH]; simpl.
  - intuition congruence.
  - destruct (String.eqb k' (asset r)) eqn:E; simpl.
    + apply String.eqb_eq in E. subst k'. intuition congruence.
    + rewrite IH. intuition congruence.
Qed.

Lemma keys_add_NoDup (r : position) groups :
  NoDup (map fst groups) -> NoDup (map fst (add_to_group r groups)).
Proof.
  induction groups as [|[k' rows] rest IH]; simpl; intro H.
  - constructor; [intros []|constructor].
  - inversion H as [|? ? Hnin Hnd]; subst.
    destruct (String.eqb k' (asset r)) eqn:E; simpl.
    + constructor; assumption.
    + constructor; [|now apply IH].
      rewrite keys_add. intros [Heq|Hin]; [|contradiction].
      subst k'. now rewrite String.eqb_refl in E.
Qed.

Lemma groups_nonempty_add (r : position) groups :
  Forall (fun g => snd g <> []) groups ->
  Forall (fun g => snd g <> []) (add_to_group r groups).
Proof.
  induction 1 as [|[k' rows] rest Hg Hrest IH]; simpl.
  - constructor; [discriminate|constructor].
  - destruct (String.eqb k' (asset r)); constructor; simpl in *; auto.
    intro E. apply app_eq_nil in E. destruct E. discriminate.
Qed.

Lemma rows_of_In (k : string) rows groups :
  NoDup (map fst groups) -> In (k, rows) groups -> rows_of k groups = rows.
Proof.
  induction groups as [|[k' rows'] rest IH]; simpl; intros Hnd Hin; [easy|].
  inversion Hnd as [|? ? Hnin Hnd']; subst.
  destruct Hin as [Heq|Hin].
  - injection Heq as -> ->. now rewrite String.eqb_refl.
  - destruct (String.eqb k' k) eqn:E; [|now apply IH].
    apply String.eqb_eq in E. subst k'.
    exfalso. apply Hnin. now apply (in_map fst) in Hin.
Qed.

(** What one pass over the table leaves in the groups. *)
Lemma group_fold_spec (df : list position) groups :
  NoDup (map fst groups) ->
  Forall (fun g => snd g <> []) groups ->
  let groups' := fold_left (fun gs r => add_to_group r gs) df groups in
  NoDup (map fst groups')
  /\ Forall (fun g => snd g <> []) groups'
  /\ (forall k, rows_of k groups' = rows_of k groups ++ filter (same_asset k) df)
  /\ (forall k, In k (map fst groups')
                <-> In k (map fst groups) \/ In k (map asset df)).
Proof.
  revert groups. induction df as [|r df IH]; intros groups Hnd Hne; simpl.
  - repeat split; auto; try tauto. intro k. now rewrite app_nil_r.
  - destruct (IH (add_to_group r groups)
                 (keys_add_NoDup r groups Hnd)
                 (groups_nonempty_add r groups Hne)) as (H1 & H2 & H3 & H4).
    repeat split; auto.
    + intro k. rewrite H3, rows_of_add.
      destruct (same_asset k r); [now rewrite <- app_assoc|reflexivity].
    + rewrite H4, keys_add. intuition congruence.
    + rewrite H4, keys_add. intuition congruence.
Qed.

Lemma insert_group_perm g l : Permutation (insert_group g l) (g :: l).
Proof.
  induction l as [|h l IH]; simpl; [reflexivity|].
  destruct (String.leb (fst g) (fst h)); [reflexivity|].
  rewrite IH. apply perm_swap.
Qed.

Lemma sort_groups_perm l : Permutation (sort_groups l) l.
Proof.
  induction l as [|g l IH]; simpl; [reflexivity|].
  rewrite insert_group_perm. now constructor.
Qed.

(** The groups of a table: one per asset, each holding the rows of its
    asset in table order. *)
Lemma groupby_asset_spec (df : list position) :
  NoDup (map fst (groupby_asset df))
  /\ (forall k rows, In (k, rows) (groupby_asset df) ->
                     rows <> [] /\ rows = filter (same_asset k) df)
  /\ (forall k, In k (map fst (groupby_asset df)) <-> In k (map asset df)).
Proof.
  destruct (group_fold_spec df [] (NoDup_nil _) (Forall_nil _))
    as (H1 & H2 & H3 & H4).
  fold (group_rows df) in H1, H2, H3, H4.
  pose proof (sort_groups_perm (group_rows df)) as Hp.
  unfold groupby_asset. repeat split.
  - eapply Permutation_NoDup; [|exact H1].
    apply Permutation_map. now symmetry.
  - eapply Permutation_in in H; [|exact Hp].
    rewrite Forall_forall in H2. exact (H2 _ H).
  - eapply Permutation_in in H; [|exact Hp].
    rewrite <- (rows_of_In k rows (group_rows df) H1 H). apply H3.
  - intro H.
    assert (H' : In k (map fst (group_rows df))).
    { eapply Permutation_in; [|exact H]. now apply Permutation_map. }
    apply H4 in H'. destruct H' as [[]|H']. exact H'.
  - intro H. eapply Permutation_in.
    + apply Permutation_map. symmetry. exact Hp.
    + apply H4. now right.
Qed.

Lemma max_from_ge (l : list Z) (t : Z) :
  t <= max_from t l /\ Forall (fun x => x <= max_from t l) l.
Proof.
  unfold max_from. revert t. induction l as [|x l IH]; intro t; simpl.
  - split; [lia|constructor].
  - destruct (IH (Z.max t x)) as [H1 H2]. split; [lia|].
    constructor; [lia|exact H2].
Qed.

Lemma max_from_In (l : list Z) (t : Z) : In (max_from t l) (t :: l).
Proof.
  unfold max_from. revert t. induction l as [|x l IH]; intro t; simpl.
  - now left.
  - destruct (IH (Z.max t x)) as [H|H]; [|now right; right].
    rewrite <- H. destruct (Z.max_spec t x) as [[_ E]|[_ E]]; rewrite E; auto.
Qed.

Lemma aggregate_keys (df : list position) (l : list (string * list position)) :
  (forall k rows, In (k, rows) l ->
                  rows <> [] /\ rows = filter (same_asset k) df) ->
  map agg_asset (flat_map (fun g => agg_group (snd g)) l) = map fst l.
Proof.
  induction l as [|[k rows] l IH]; intro H; simpl; [reflexivity|].
  rewrite map_app, IH by (intros k' rows' Hin; apply H; now right).
  destruct (H k rows (or_introl eq_refl)) as [Hne Hrows].
  destruct rows as [|first rest]; [contradiction|]. simpl. f_equal.
  assert (Hin : In first (filter (same_asset k) df))
    by (rewrite <- Hrows; now left).
  apply filter_In in Hin. destruct Hin as [_ Hk].
  now apply String.eqb_eq in Hk.
Qed.

Definition collapsed (p1 p2 : position) : aggregated :=
  {| agg_title := title p1;
     agg_eventSlug := eventSlug p1;
     agg_asset := asset p1;
     agg_realizedPnl := 7;
     agg_closed := closed p1 && closed p2;
     agg_timestamp := Z.max (timestamp p1) (timestamp p2) |}.

(** C2: deduplication leaves one row per asset id; the row of an asset sums
    realizedPnl over the rows of that asset, its closed flag is the AND of
    theirs, its timestamp their maximum, its title and eventSlug those of
    the first of them.  Two rows of one asset with realizedPnl 10 and -3
    collapse to one row with realizedPnl 7 and the AND of the two flags. *)
Theorem dedup_aggregates_by_asset :
  forall df : list position,
    NoDup (map agg_asset (aggregate df))
    /\ (forall a, In a (map agg_asset (aggregate df)) <-> In a (map asset df))
    /\ (forall row,
           In row (aggregate df) ->
           exists first rest,
             filter (same_asset (agg_asset row)) df = first :: rest
             /\ agg_realizedPnl row = Qsum (map realizedPnl (first :: rest))
             /\ agg_closed row = forallb closed (first :: rest)
             /\ agg_timestamp row
                = max_from (timestamp first) (map timestamp rest)
             /\ Forall (fun p => timestamp p <= agg_timestamp row)
                       (first :: rest)
             /\ In (agg_timestamp row) (map timestamp (first :: rest))
             /\ agg_title row = title first
             /\ agg_eventSlug row = eventSlug first)
    /\ (forall p1 p2,
           asset p1 = asset p2 ->
           realizedPnl p1 = 10%Q ->
           realizedPnl p2 = (-3)%Q ->
           aggregate [p1; p2] = [collapsed p1 p2]).
Proof.
  intro df.
  destruct (groupby_asset_spec df) as (Hnd & Hrows & Hkeys).
  assert (Hmap : map agg_asset (aggregate df) = map fst (groupby_asset df))
    by (apply (aggregate_keys df); exact Hrows).
  split; [now rewrite Hmap|].
  split; [intro a; rewrite Hmap; apply Hkeys|].
  split.
  - intros row Hin. unfold aggregate in Hin.
    apply in_flat_map in Hin. destruct Hin as ([k rows] & Hg & Hrow).
    destruct (Hrows k rows Hg) as [Hne Heq]. simpl in Hrow.
    destruct rows as [|first rest]; [contradiction|].
    destruct Hrow as [Hrow|[]]. subst row. cbn [agg_asset agg_realizedPnl
      agg_closed agg_timestamp agg_title agg_eventSlug].
    assert (Hk : asset first = k).
    { assert (Hin : In first (filter (same_asset k) df))
        by (rewrite <- Heq; now left).
      apply filter_In in Hin. destruct Hin as [_ Hk].
      now apply String.eqb_eq in Hk. }
    exists first, rest. rewrite Hk, <- Heq.
    destruct (max_from_ge (map timestamp rest) (timestamp first)) as [Hge1 Hge2].
    repeat split; try reflexivity.
    + constructor; [exact Hge1|].
      now rewrite Forall_map in Hge2.
    + apply (max_from_In (map timestamp rest) (timestamp first)).
  - intros p1 p2 Ha H1 H2.
    unfold aggregate, groupby_asset, group_rows, collapsed. simpl.
    rewrite Ha, String.eqb_refl. simpl.
    rewrite <- Ha, H1, H2, andb_true_r. reflexivity.
Qed.

Definition sample_entry (pnl : Q) (is_closed : bool) (ts : Z) : position :=
  {| asset := "A"; title := "Will it rain"; eventSlug := "rain";
     avgPrice := 1 # 2; totalBought := 100; value := 50;
     realizedPnl := pnl; curPrice := 1; closed := is_closed;
     timestamp := ts; endDate := None |}.

Lemma dedup_aggregates_by_asset_witness :
  asset (sample_entry 10 true 100) = asset (sample_entry (-3) false 200)
  /\ realizedPnl (sample_entry 10 true 100) = 10%Q
  /\ realizedPnl (sample_entry (-3) false 200) = (-3)%Q
  /\ aggregate [sample_entry 10 true 100; sample_entry (-3) false 200]
     = [ {| agg_title := "Will it rain"; agg_eventSlug := "rain";
            agg_asset := "A"; agg_realizedPnl := 7; agg_closed := false;
            agg_timestamp := 200 |} ].
Proof.
  split; [reflexivity|]. split; [reflexivity|]. split; [reflexivity|].
  exact (proj2 (proj2 (proj2 (dedup_aggregates_by_asset [])))
               (sample_entry 10 true 100) (sample_entry (-3) false 200)
               eq_refl eq_refl eq_refl).
Defined.

(* ================================================================== *)
(** ** The snapshot collector *)

(** Numbered from 1 in the order of the two loops. *)
Definition pairs (timeframes : list string) : list (string * string) :=
  flat_map (fun tf => map (pair tf) categories) timeframes.

Section SnapshotFacts.
Variable api : leaderboard_api.
Variable timestamp : string.
Variables limit max_retries : Z.
Variable retry_delay : Q.

(** What attempt [a] of scrape [s] gives. *)
Definition attempt_result (s a : Z) (tf cat : string) : result (list user) :=
  fst (scrape_leaderboard (api s a tf cat) limit).

(** Attempts [a], [a+1], ..., [a+r-1] all raise. *)
Fixpoint all_raise (r : nat) (a s : Z) (tf cat : string) : bool :=
  match r with
  | O => true
  | S r' =>
    match attempt_result s a tf cat with
    | Raise _ => all_raise r' (a + 1) s tf cat
    | Ok _ => false
    end
  end.

(** The rows of the first of these attempts that returns. *)
Fixpoint first_success (r : nat) (a s : Z) (tf cat : string)
  : list snapshot_row :=
  match r with
  | O => []
  | S r' =>
    match attempt_result s a tf cat with
    | Ok users => map (to_row timestamp tf cat) users
    | Raise _ => first_success r' (a + 1) s tf cat
    end
  end.

(** How many of these attempts are made: up to the first that returns. *)
Fixpoint attempts_made (r : nat) (a s : Z) (tf cat : string) : Z :=
  match r with
  | O => 0
  | S r' =>
    1 + match attempt_result s a tf cat with
        | Ok _ => 0
        | Raise _ => attempts_made r' (a + 1) s tf cat
        end
  end.

(** A pair has exhausted its retries: there was a last attempt, and it
    and all before it raised. *)
Definition exhausted (s : Z) (tf cat : string) : bool :=
  (0 <? max_retries) && all_raise (Z.to_nat max_retries) 0 s tf cat.

Definition failure_of (sp : Z * (string * string)) : list string :=
  let '(s, (tf, cat)) := sp in
  if exhausted s tf cat then [scrape_name tf cat] else [].

Definition rows_of_pair (sp : Z * (string * string)) : list snapshot_row :=
  let '(s, (tf, cat)) := sp in
  first_success (Z.to_nat max_retries) 0 s tf cat.

Lemma attempts_made_bound r a s tf cat :
  0 <= attempts_made r a s tf cat <= Z.of_nat r.
Proof.
  revert a. induction r as [|r IH]; intro a; cbn [attempts_made]; [lia|].
  rewrite Nat2Z.inj_succ.
  destruct (attempt_result s a tf cat); [lia|].
  specialize (IH (a + 1)). lia.
Qed.

Lemma attempts_of_app s log1 log2 :
  attempts_of s (log1 ++ log2) = attempts_of s log1 + attempts_of s log2.
Proof.
  unfold attempts_of, len. rewrite filter_app, length_app. lia.
Qed.

Lemma attempts_of_step s s' a :
  attempts_of s
    ((if 0 <? a then [RetrySleep s' retry_delay] else []) ++ [Attempt s' a])
  = if s =? s' then 1 else 0.
Proof.
  rewrite attempts_of_app. unfold attempts_of, len.
  destruct (0 <? a); simpl; rewrite (Z.eqb_sym s' s);
    destruct (s =? s'); reflexivity.
Qed.

Lemma retry_loop_spec tf cat :
  forall r a st,
    (r <> O -> a + Z.of_nat r = max_retries) ->
    let s := current_scrape st in
    let st' := retry_loop api timestamp limit max_retries retry_delay
                          r a tf cat st in
    current_scrape st' = s
    /\ failed_scrapes st'
       = failed_scrapes st
         ++ (if (0 <? Z.of_nat r) && all_raise r a s tf cat
             then [scrape_name tf cat] else [])
    /\ all_data st' = all_data st ++ first_success r a s tf cat
    /\ forall s',
        attempts_of s' (scrape_log st')
        = attempts_of s' (scrape_log st)
          + (if s' =? s then attempts_made r a s tf cat else 0).
Proof.
  induction r as [|r IH]; intros a st Hr; cbv zeta.
  - simpl. rewrite !app_nil_r. repeat split; try reflexivity.
    intro s'. destruct (s' =? current_scrape st); lia.
  - specialize (Hr (Nat.neq_succ_0 r)).
    cbn [retry_loop all_raise first_success attempts_made].
    fold (attempt_result (current_scrape st) a tf cat).
    destruct (attempt_result (current_scrape st) a tf cat) as [users|e].
    + cbn [current_scrape failed_scrapes all_data scrape_log].
      rewrite andb_false_r, app_nil_r. repeat split; try reflexivity.
      intro s'. rewrite attempts_of_app, attempts_of_step.
      destruct (s' =? current_scrape st); lia.
    + match goal with |- context [retry_loop _ _ _ _ _ r (a + 1) tf cat ?st2] =>
        destruct (IH (a + 1) st2) as (H1 & H2 & H3 & H4)
      end.
      { intro Hne. lia. }
      cbn [current_scrape failed_scrapes all_data scrape_log] in H1, H2, H3, H4.
      rewrite H1, H2, H3. repeat split; try reflexivity.
      * destruct r as [|r'].
        -- assert (E : (a =? max_retries - 1) = true) by (apply Z.eqb_eq; lia).
           rewrite E. simpl. now rewrite app_nil_r.
        -- assert (E : (a =? max_retries - 1) = false) by (apply Z.eqb_neq; lia).
           rewrite E. reflexivity.
      * intro s'. rewrite H4, attempts_of_app, attempts_of_step.
        destruct (s' =? current_scrape st); lia.
Qed.
End SnapshotFacts.

Section SnapshotRun.
Variable api : leaderboard_api.
Variable timestamp : string.
Variables limit max_retries : Z.
Variable retry_delay : Q.

Let category_step :=
  scrape_category api timestamp limit max_retries retry_delay.

(** The two loops as one loop over the pairs. *)
Definition scrape_pairs (st : scrape_state) (l : list (string * string))
  : scrape_state :=
  fold_left (fun st p => category_step (fst p) st (snd p)) l st.

(** Attempts made for scrape number [s] among the numbered pairs. *)
Fixpoint made_in (s : Z) (numbered : list (Z * (string * string))) : Z :=
  match numbered with
  | [] => 0
  | (s', (tf, cat)) :: rest =>
    (if s =? s'
     then attempts_made api limit (Z.to_nat max_retries) 0 s' tf cat
     else 0)
    + made_in s rest
  end.

Lemma scrape_category_spec tf cat st :
  let s := current_scrape st + 1 in
  let st' := category_step tf st cat in
  current_scrape st' = s
  /\ failed_scrapes st'
     = failed_scrapes st ++ failure_of api limit max_retries (s, (tf, cat))
  /\ all_data st'
     = all_data st
       ++ rows_of_pair api timestamp limit max_retries (s, (tf, cat))
  /\ forall s',
      attempts_of s' (scrape_log st')
      = attempts_of s' (scrape_log st) + made_in s' [(s, (tf, cat))].
Proof.
  cbv zeta. unfold category_step, scrape_category.
  match goal with |- context [retry_loop _ _ _ _ _ ?r 0 tf cat ?st0] =>
    destruct (retry_loop_spec api timestamp limit max_retries retry_delay
                              tf cat r 0 st0) as (H1 & H2 & H3 & H4)
  end.
  { intro Hne. rewrite Z2Nat.id; lia. }
  cbn [current_scrape failed_scrapes all_data scrape_log] in H1, H2, H3, H4.
  rewrite H1, H2, H3. repeat split; try reflexivity.
  - unfold failure_of, exhausted.
    assert (E : (0 <? Z.of_nat (Z.to_nat max_retries)) = (0 <? max_retries)).
    { destruct (0 <? max_retries) eqn:E.
      - apply Z.ltb_lt in E. apply Z.ltb_lt. lia.
      - apply Z.ltb_ge in E. apply Z.ltb_ge. lia. }
    now rewrite E.
  - intro s'. rewrite H4. cbn [made_in]. lia.
Qed.

Lemma scrape_timeframe_pairs st tf :
  scrape_timeframe api timestamp limit max_retries retry_delay st tf
  = scrape_pairs st (map (pair tf) categories).
Proof. reflexivity. Qed.

Lemma scrape_pairs_app st l1 l2 :
  scrape_pairs st (l1 ++ l2) = scrape_pairs (scrape_pairs st l1) l2.
Proof. unfold scrape_pairs. apply fold_left_app. Qed.

Lemma scrape_all_pairs timeframes :
  scrape_all api timestamp limit max_retries retry_delay timeframes
  = scrape_pairs initial_state (pairs timeframes).
Proof.
  unfold scrape_all. generalize initial_state.
  induction timeframes as [|tf tfs IH]; intro st; [reflexivity|].
  cbn [fold_left pairs flat_map]. rewrite IH, scrape_pairs_app.
  now rewrite scrape_timeframe_pairs.
Qed.

Lemma number_from_app {A : Type} (i : Z) (l1 l2 : list A) :
  number_from i (l1 ++ l2)
  = number_from i l1 ++ number_from (i + len l1) l2.
Proof.
  revert i. induction l1 as [|x l1 IH]; intro i; simpl.
  - f_equal. unfold len. simpl. lia.
  - rewrite IH. do 3 f_equal. unfold len. simpl length. lia.
Qed.

Lemma scrape_pairs_spec :
  forall l st,
    let st' := scrape_pairs st l in
    let numbered := number_from (current_scrape st + 1) l in
    current_scrape st' = current_scrape st + len l
    /\ failed_scrapes st'
       = failed_scrapes st
         ++ flat_map (failure_of api limit max_retries) numbered
    /\ all_data st'
       = all_data st
         ++ flat_map (rows_of_pair api timestamp limit max_retries) numbered
    /\ forall s,
        attempts_of s (scrape_log st')
        = attempts_of s (scrape_log st) + made_in s numbered.
Proof.
  induction l as [|[tf cat] l IH]; intro st; cbv zeta.
  - simpl. rewrite !app_nil_r. unfold len. simpl.
    repeat split; try reflexivity; try lia; intro; lia.
  - cbn [scrape_pairs fold_left fst snd number_from flat_map].
    fold (scrape_pairs (category_step tf st cat) l).
    destruct (scrape_category_spec tf cat st) as (C1 & C2 & C3 & C4).
    cbv zeta in C1, C2, C3, C4.
    destruct (IH (category_step tf st cat)) as (H1 & H2 & H3 & H4).
    cbv zeta in H1, H2, H3, H4. rewrite C1 in H1, H2, H3, H4.
    rewrite H1, H2, H3, C2, C3, <- !app_assoc.
    repeat split; try reflexivity.
    + unfold len. simpl length. lia.
    + intro s. rewrite H4, C4. cbn [made_in]. lia.
Qed.

Lemma made_in_bound (l : list (string * string)) :
  forall i s,
    (s < i -> made_in s (number_from i l) = 0)
    /\ 0 <= made_in s (number_from i l) <= Z.max 0 max_retries.
Proof.
  induction l as [|[tf cat] l IH]; intros i s; cbn [number_from made_in].
  - lia.
  - destruct (IH (i + 1) s) as [Hz Hb].
    pose proof (attempts_made_bound api limit (Z.to_nat max_retries)
                                    0 i tf cat) as Hm.
    destruct (s =? i) eqn:E.
    + apply Z.eqb_eq in E. subst s. rewrite Hz by lia. lia.
    + apply Z.eqb_neq in E. split; [intro; apply Hz; lia|lia].
Qed.
End SnapshotRun.

Definition raises {A : Type} (r : result A) : Prop := exists e, r = Raise e.

Definition default_timeframes (timeframes : option (list string)) : list string :=
  match timeframes with Some t => t | None => ["day"%string] end.

Lemma len_pairs (timeframes : list string) :
  len (pairs timeframes) = len categories * len timeframes.
Proof.
  unfold len. induction timeframes as [|tf tfs IH]; [reflexivity|].
  cbn [pairs flat_map]. rewrite length_app, length_map. fold (pairs tfs).
  cbn [length]. lia.
Qed.

(** The whole run, in terms of the numbered pairs. *)
Lemma snapshot_run_spec api timestamp limit max_retries retry_delay store
      headed timeframes :
  let run := scrape_leaderboard_snapshot api timestamp limit max_retries
                                         retry_delay store headed
                                         timeframes in
  let numbered := number_from 1 (pairs (default_timeframes timeframes)) in
  failed_scrapes (final run)
  = flat_map (failure_of api limit max_retries) numbered
  /\ all_data (final run)
     = flat_map (rows_of_pair api timestamp limit max_retries) numbered
  /\ current_scrape (final run) = total_scrapes run
  /\ total_scrapes run = len categories * len (default_timeframes timeframes)
  /\ (forall s, attempts_of s (scrape_log (final run))
                = made_in api limit max_retries s numbered)
  /\ store_after run
     = Some (match store with
             | Some rows => rows ++ all_data (final run)
             | None => all_data (final run)
             end)
  /\ returned run
     = match file_error store headed (all_data (final run)) with
       | Some e => Raise e
       | None =>
         if quality_too_low (len (failed_scrapes (final run)))
                            (total_scrapes run)
         then Raise (QualityError (len (failed_scrapes (final run)))
                                  (total_scrapes run))
         else Ok (all_data (final run))
       end
  /\ headed_after run
     = match store with
       | Some _ => headed
       | None => 0 <? len (all_data (final run))
       end.
Proof.
  cbv zeta. unfold scrape_leaderboard_snapshot.
  fold (default_timeframes timeframes).
  cbn [final total_scrapes store_after returned headed_after].
  rewrite scrape_all_pairs.
  destruct (scrape_pairs_spec api timestamp limit max_retries retry_delay
                              (pairs (default_timeframes timeframes))
                              initial_state) as (H1 & H2 & H3 & H4).
  cbv zeta in H1, H2, H3, H4. cbn [initial_state current_scrape failed_scrapes
    all_data scrape_log app] in H1, H2, H3, H4.
  rewrite Z.add_0_l in *. rewrite len_pairs in H1.
  repeat split; try assumption.
  - now destruct store.
Qed.

(** A leaderboard service that is down for the categories in [down] and
    serves [users] for the others. *)
Definition api_down (down : list string) (users : list user) : leaderboard_api :=
  fun _ _ _ category =>
    if existsb (String.eqb category) down
    then fun _ _ _ => Raise (HTTPError 503)
    else serve users.

Definition two_users : list user :=
  [ {| rank := 1; proxyWallet := "0xaa"; pnl := 120; vol := 900;
       userName := "alice" |};
    {| rank := 2; proxyWallet := "0xbb"; pnl := 75; vol := 300;
       userName := "bob" |} ]%string.

(** A run that finds no daily file. *)
Definition run_with (down : list string) : snapshot_run :=
  scrape_leaderboard_snapshot (api_down down two_users)
                              "2026-01-01 12:00:00" 100 3 5 None false None.

Example three_failures_return :
  len (failed_scrapes (final (run_with ["politics"; "sports"; "tech"]%string)))
  = 3
  /\ returned (run_with ["politics"; "sports"; "tech"]%string)
     = Ok (all_data (final (run_with ["politics"; "sports"; "tech"]%string)))
  /\ len (all_data (final (run_with ["politics"; "sports"; "tech"]%string)))
     = 14.
Proof. vm_compute. repeat split. Qed.

(** A run with every category up that finds the daily file an earlier run
    left when it collected no row: no header line, no rows. *)
Definition run_on_empty_file : snapshot_run :=
  scrape_leaderboard_snapshot (api_down [] two_users)
                              "2026-01-01 12:00:00" 100 3 5 (Some []) false
                              None.

(** C3 on the code: each (category, timeframe) pair is attempted at most
    max_retries times, stopping at the first attempt that returns, and a
    pair whose max_retries attempts all raise is recorded as failed while
    the run goes on.  But the run does not end as the claim says on every
    daily file: when the file exists, the rows are appended and the file is
    read back before the quality test, and on a file without header line
    that read-back raises.  With no pair failed and the empty, header-less
    file of an earlier run the code raises [KeyError] where the claim
    promises the data; the same run returns the data when the file does not
    exist.  Where the read-back passes (also: no file), the run raises the
    quality error exactly when the failed pairs are more than 30% of all
    pairs: for 10 categories and one timeframe up to 3 failures return the
    data, 4 or more raise. *)
Theorem snapshot_retries_and_quality_gate :
  (failed_scrapes (final run_on_empty_file) = []
   /\ len (all_data (final run_on_empty_file)) = 20
   /\ store_after run_on_empty_file = Some (all_data (final run_on_empty_file))
   /\ returned run_on_empty_file = Raise (KeyError "timestamp")
   /\ returned (run_with []) = Ok (all_data (final run_on_empty_file)))
  /\ forall api timestamp limit max_retries retry_delay store headed timeframes,
    let run := scrape_leaderboard_snapshot api timestamp limit max_retries
                                           retry_delay store headed
                                           timeframes in
    let tfs := default_timeframes timeframes in
    let numbered := number_from 1 (pairs tfs) in
    let failed := len (failed_scrapes (final run)) in
    (forall s, attempts_of s (scrape_log (final run))
               = made_in api limit max_retries s numbered
               /\ 0 <= attempts_of s (scrape_log (final run))
                  <= Z.max 0 max_retries)
    /\ failed_scrapes (final run)
       = flat_map (failure_of api limit max_retries) numbered
    /\ all_data (final run)
       = flat_map (rows_of_pair api timestamp limit max_retries) numbered
    /\ current_scrape (final run) = total_scrapes run
    /\ total_scrapes run = len categories * len tfs
    /\ (forall e, file_error store headed (all_data (final run)) = Some e ->
                  returned run = Raise e)
    /\ (file_error store headed (all_data (final run)) = None ->
        (raises (returned run) <-> 3 * total_scrapes run < 10 * failed)
        /\ (raises (returned run) ->
            returned run = Raise (QualityError failed (total_scrapes run)))
        /\ (~ raises (returned run) ->
            returned run = Ok (all_data (final run)))
        /\ (len tfs = 1 ->
            (failed <= 3 -> returned run = Ok (all_data (final run)))
            /\ (4 <= failed -> raises (returned run)))).
Proof.
  split; [vm_compute; repeat split|].
  intros api timestamp limit max_retries retry_delay store headed timeframes.
  destruct (snapshot_run_spec api timestamp limit max_retries retry_delay
                              store headed timeframes)
    as (F1 & F2 & F3 & F4 & F5 & _ & F7 & _).
  cbv zeta in *.
  set (run := scrape_leaderboard_snapshot api timestamp limit max_retries
                                          retry_delay store headed
                                          timeframes) in *.
  split.
  { intro s. split; [apply F5|]. rewrite F5.
    apply (made_in_bound api limit max_retries). }
  repeat (split; [assumption|]).
  split.
  { intros e He. rewrite F7, He. reflexivity. }
  intro Hread. rewrite Hread in F7.
  assert (Hgate : raises (returned run)
                  <-> 3 * total_scrapes run
                      < 10 * len (failed_scrapes (final run))).
  { rewrite F7. unfold quality_too_low, raises.
    destruct (3 * total_scrapes run <? 10 * len (failed_scrapes (final run)))
             eqn:E.
    - apply Z.ltb_lt in E. split; [intros _; exact E|eauto].
    - apply Z.ltb_ge in E. split; [intros [e He]; discriminate|lia]. }
  assert (Hok : ~ raises (returned run)
                -> returned run = Ok (all_data (final run))).
  { intro Hn. rewrite F7 in *. unfold raises in Hn.
    destruct (quality_too_low _ _); [exfalso; eauto|reflexivity]. }
  split; [exact Hgate|].
  split.
  { intros [e He]. rewrite F7 in *.
    destruct (quality_too_low _ _); [reflexivity|discriminate]. }
  split; [exact Hok|].
  intro H1. rewrite F4, H1 in Hgate. change (len categories) with 10 in Hgate.
  split.
  - intro H3. apply Hok. rewrite Hgate. lia.
  - intro H4. apply Hgate. lia.
Qed.

(** C10: when the run raises the quality error, the daily store already
    holds every row of the pairs that succeeded, appended to what it held
    before (or as a new file): the store changes although the run fails. *)
Theorem quality_failure_leaves_store_mutated :
  forall api timestamp limit max_retries retry_delay store headed timeframes e,
    let run := scrape_leaderboard_snapshot api timestamp limit max_retries
                                           retry_delay store headed
                                           timeframes in
    let numbered := number_from 1 (pairs (default_timeframes timeframes)) in
    returned run = Raise e ->
    store_after run
    = Some (match store with
            | Some rows => rows ++ all_data (final run)
            | None => all_data (final run)
            end)
    /\ all_data (final run)
       = flat_map (rows_of_pair api timestamp limit max_retries) numbered
    /\ (forall sp row,
           In sp numbered ->
           In row (rows_of_pair api timestamp limit max_retries sp) ->
           exists rows, store_after run = Some rows /\ In row rows)
    /\ (all_data (final run) <> [] -> store_after run <> store).
Proof.
  intros api timestamp limit max_retries retry_delay store headed timeframes e.
  destruct (snapshot_run_spec api timestamp limit max_retries retry_delay
                              store headed timeframes)
    as (_ & F2 & _ & _ & _ & F6 & _).
  cbv zeta in *. intros _.
  split; [exact F6|]. split; [exact F2|]. split.
  - intros sp row Hsp Hrow. rewrite F6. eexists. split; [reflexivity|].
    assert (Hin : In row (all_data
                            (final (scrape_leaderboard_snapshot
                                      api timestamp limit max_retries
                                      retry_delay store headed
                                      timeframes)))).
    { rewrite F2. apply in_flat_map. eauto. }
    destruct store; [apply in_or_app; now right|exact Hin].
  - intros Hne. rewrite F6. destruct store as [rows|]; [|discriminate].
    intro E. injection E as E.
    apply (f_equal (@length _)) in E. rewrite length_app in E.
    destruct (all_data _); [contradiction|simpl in E; lia].
Qed.

Lemma snapshot_retries_and_quality_gate_witness :
  len (default_timeframes None) = 1
  /\ file_error None false
                (all_data
                   (final (run_with ["politics"; "sports"; "crypto";
                                     "tech"]%string))) = None
  /\ 4 <= len (failed_scrapes
                 (final (run_with ["politics"; "sports"; "crypto"; "tech"]%string)))
  /\ raises (returned (run_with ["politics"; "sports"; "crypto"; "tech"]%string)).
Proof.
  assert (H1 : len (default_timeframes None) = 1) by reflexivity.
  assert (H4 : 4 <= len (failed_scrapes
                 (final (run_with ["politics"; "sports"; "crypto"; "tech"]%string))))
    by (vm_compute; discriminate).
  split; [exact H1|]. split; [reflexivity|]. split; [exact H4|].
  pose proof (proj2 snapshot_retries_and_quality_gate) as H.
  specialize (H (api_down ["politics"; "sports"; "crypto"; "tech"]%string
                          two_users)
                "2026-01-01 12:00:00"%string 100 3 5%Q None false None).
  cbv zeta in H.
  destruct H as (_ & _ & _ & _ & _ & _ & H).
  destruct (H eq_refl) as (_ & _ & _ & Hone).
  exact (proj2 (Hone H1) H4).
Defined.

Lemma quality_failure_leaves_store_mutated_witness :
  returned (run_with ["politics"; "sports"; "crypto"; "tech"]%string)
  = Raise (QualityError 4 10)
  /\ store_after (run_with ["politics"; "sports"; "crypto"; "tech"]%string)
     <> None
  /\ store_after (run_with ["politics"; "sports"; "crypto"; "tech"]%string)
     = Some (all_data
               (final (run_with ["politics"; "sports"; "crypto"; "tech"]%string))).
Proof.
  assert (H : returned (run_with ["politics"; "sports"; "crypto"; "tech"]%string)
              = Raise (QualityError 4 10)) by (vm_compute; reflexivity).
  pose proof (quality_failure_leaves_store_mutated
                (api_down ["politics"; "sports"; "crypto"; "tech"]%string
                          two_users)
                "2026-01-01 12:00:00" 100 3 5 None false None
                (QualityError 4 10) H) as (Hs & _ & _ & Hm).
  split; [exact H|]. split; [|exact Hs].
  apply Hm. vm_compute. discriminate.
Defined.

(* ================================================================== *)
(** ** Pages of the mock endpoint *)

Lemma firstn_firstn_skipn {A : Type} (a b : nat) (l : list A) :
  firstn a l ++ firstn b (skipn a l) = firstn (a + b) l.
Proof.
  revert l. induction a as [|a IH]; intro l; [reflexivity|].
  destruct l as [|x l]; simpl; [now rewrite firstn_nil|].
  now rewrite IH.
Qed.

Lemma firstn_cut {A : Type} (n : nat) (l : list A) :
  firstn n l = firstn (Nat.min n (length l)) l.
Proof.
  destruct (Nat.le_ge_cases n (length l)) as [H|H].
  - now rewrite Nat.min_l.
  - rewrite Nat.min_r by exact H. now rewrite !firstn_all2.
Qed.

Section Pages.
Context {A : Type}.
Variable data : list A.

(** The first [n] records the server holds. *)
Definition prefix (n : Z) : list A := firstn (Z.to_nat n) data.

Definition page (limit offset : Z) : list A :=
  firstn (Z.to_nat limit) (skipn (Z.to_nat offset) data).

Lemma serve_page n limit offset : serve data n limit offset = Ok (page limit offset).
Proof. reflexivity. Qed.

Lemma len_page limit offset :
  0 <= limit -> 0 <= offset ->
  len (page limit offset) = Z.min limit (Z.max 0 (len data - offset)).
Proof.
  intros Hl Ho. unfold page, len. rewrite length_firstn, length_skipn. lia.
Qed.

Lemma prefix_page limit offset :
  0 <= limit -> 0 <= offset ->
  prefix offset ++ page limit offset = prefix (offset + limit).
Proof.
  intros Hl Ho. unfold prefix, page.
  rewrite firstn_firstn_skipn. f_equal. lia.
Qed.

Lemma prefix_eq a b :
  Z.min (len data) (Z.max 0 a) = Z.min (len data) (Z.max 0 b) ->
  prefix a = prefix b.
Proof.
  unfold prefix, len. intro H.
  rewrite (firstn_cut (Z.to_nat a)), (firstn_cut (Z.to_nat b)). f_equal. lia.
Qed.

Lemma len_prefix a : len (prefix a) = Z.min (len data) (Z.max 0 a).
Proof. unfold prefix, len. rewrite length_firstn. lia. Qed.

Lemma prefix_prefix a b :
  firstn (Z.to_nat a) (prefix b) = prefix (Z.min a b).
Proof.
  unfold prefix. rewrite firstn_firstn. f_equal. lia.
Qed.

Lemma prefix_0 : prefix 0 = [].
Proof. reflexivity. Qed.
End Pages.

Lemma request_count_app (tr1 tr2 : list event) :
  request_count (tr1 ++ tr2) = request_count tr1 + request_count tr2.
Proof. unfold request_count. rewrite filter_app, length_app. lia. Qed.

Lemma warning_count_app (tr1 tr2 : list event) :
  warning_count (tr1 ++ tr2) = warning_count tr1 + warning_count tr2.
Proof. unfold warning_count. rewrite filter_app, length_app. lia. Qed.

(* ================================================================== *)
(** ** The trade walk *)

Lemma trades_loop_unfold {A : Type} (ep : endpoint A) m d fuel n offset all tr :
  trades_loop ep m d (S fuel) n offset all tr
  = match ep n trades_limit offset with
    | Raise e => (Raised e, tr ++ [Request trades_limit offset])
    | Ok batch =>
      if len batch <? trades_limit
      then (Returned (all ++ batch), tr ++ [Request trades_limit offset])
      else if reached m (len (all ++ batch))
      then (Returned (truncate m (all ++ batch)),
            tr ++ [Request trades_limit offset])
      else if api_offset_max <=? offset + trades_limit
      then (Returned (all ++ batch),
            (tr ++ [Request trades_limit offset])
            ++ [Warning (offset + trades_limit)])
      else trades_loop ep m d fuel (S n) (offset + trades_limit) (all ++ batch)
                       ((tr ++ [Request trades_limit offset]) ++ [Sleep d])
    end.
Proof. reflexivity. Qed.

(** The walk ends within twenty requests whatever the endpoint answers: the
    offset grows by 500 a page and stops short of 10000. *)
Lemma trades_loop_total {A : Type} (ep : endpoint A) m d :
  forall fuel n offset all tr,
    0 <= offset ->
    (Z.to_nat ((api_offset_max - offset + trades_limit - 1) / trades_limit)
     <= fuel)%nat ->
    offset < api_offset_max ->
    fst (trades_loop ep m d fuel n offset all tr) <> OutOfFuel.
Proof.
  unfold api_offset_max, trades_limit.
  induction fuel as [|fuel IH]; intros n offset all tr Ho Hf Hlt.
  - exfalso.
    assert (0 < (10000 - offset + 500 - 1) / 500)
      by (apply Z.div_str_pos; lia).
    lia.
  - rewrite trades_loop_unfold. unfold api_offset_max, trades_limit.
    destruct (ep n 500 offset) as [batch|e]; [|discriminate].
    destruct (len batch <? 500); [discriminate|].
    destruct (reached m _); [discriminate|].
    destruct (10000 <=? offset + 500) eqn:E; [discriminate|].
    apply Z.leb_gt in E. apply IH; try lia.
    replace (10000 - (offset + 500) + 500 - 1)
      with ((10000 - offset + 500 - 1) + (-1) * 500) by lia.
    rewrite Z.div_add by lia. lia.
Qed.

Lemma get_all_user_trades_total {A : Type} (ep : endpoint A) m d (fuel : nat) :
  (20 <= fuel)%nat -> fst (get_all_user_trades ep m d fuel) <> OutOfFuel.
Proof.
  intro H. apply trades_loop_total; try reflexivity; try lia.
  unfold api_offset_max, trades_limit.
  change ((10000 - 0 + 500 - 1) / 500) with 20. lia.
Qed.

(** The most records a walk with this [max_results] returns: the caller's
    maximum when there is one, and never more than the API's 10000. *)
Definition bound (max_results : option Z) : Z :=
  match max_results with
  | Some m => if m =? 0 then api_offset_max else Z.min m api_offset_max
  | None => api_offset_max
  end.

(** [max_results] is absent ([None] or [0]), or it is a positive count that
    is either not below the total or reached at the end of a full page. *)
Definition full_pages_cover (total : Z) (max_results : option Z) : Prop :=
  match max_results with
  | None => True
  | Some m =>
    m = 0 \/ (0 < m /\ (total <= m \/ exists k, m <= trades_limit * k <= total))
  end.

Section TradesOnMock.
Context {A : Type}.
Variable data : list A.
Variable max_results : option Z.
Variable rate_limit_delay : Q.
Hypothesis Hcover : full_pages_cover (len data) max_results.

Let walk := trades_loop (serve data) max_results rate_limit_delay.

Lemma trades_walk_result :
  forall fuel k n offset tr,
    offset = trades_limit * k ->
    0 <= k < 20 ->
    offset <= len data ->
    (forall m, max_results = Some m -> m <> 0 -> offset < m) ->
    (Z.to_nat (20 - k) <= fuel)%nat ->
    fst (walk fuel n offset (prefix data offset) tr)
    = Returned (prefix data (Z.min (len data) (bound max_results))).
Proof.
  unfold walk.
  induction fuel as [|fuel IH]; intros k n offset tr Ho Hk Hle Hm Hf; [lia|].
  rewrite trades_loop_unfold, serve_page.
  assert (H500 : trades_limit = 500) by reflexivity.
  assert (H10k : api_offset_max = 10000) by reflexivity.
  rewrite prefix_page by lia.
  rewrite len_page, len_prefix by lia.
  destruct (Z.min trades_limit (Z.max 0 (len data - offset)) <? trades_limit)
           eqn:Eshort.
  { (* a short page: the end of the data *)
    apply Z.ltb_lt in Eshort. cbn [fst]. f_equal. apply prefix_eq.
    assert (len data <= bound max_results).
    { unfold bound, full_pages_cover in *.
      destruct max_results as [m|]; [|lia].
      destruct (m =? 0) eqn:E0; [lia|]. apply Z.eqb_neq in E0.
      specialize (Hm m eq_refl E0).
      destruct Hcover as [?|[Hpos [?|[k' Hk']]]]; lia. }
    lia. }
  apply Z.ltb_ge in Eshort.
  destruct (reached max_results
                    (Z.min (len data) (Z.max 0 (offset + trades_limit))))
           eqn:Ereach.
  { (* the caller's maximum is reached on a full page *)
    unfold reached in Ereach. destruct max_results as [m|]; [|discriminate].
    apply andb_true_iff in Ereach. destruct Ereach as [E0 Em].
    apply negb_true_iff, Z.eqb_neq in E0. apply Z.leb_le in Em.
    assert (0 < m) by (specialize (Hm m eq_refl E0); lia).
    cbn [fst truncate]. unfold slice_to.
    assert (Eneg : (m <? 0) = false) by (apply Z.ltb_ge; lia).
    rewrite Eneg, prefix_prefix. f_equal. apply prefix_eq.
    unfold bound. rewrite (proj2 (Z.eqb_neq m 0) E0). lia. }
  assert (Hnext : forall m, max_results = Some m -> m <> 0 ->
                            offset + trades_limit < m).
  { intros m Hmv E0. unfold reached in Ereach. rewrite Hmv in Ereach.
    apply andb_false_iff in Ereach. destruct Ereach as [E|E].
    - apply negb_false_iff, Z.eqb_eq in E. contradiction.
    - apply Z.leb_gt in E. lia. }
  destruct (api_offset_max <=? offset + trades_limit) eqn:Ecap.
  { (* the API's pagination limit *)
    apply Z.leb_le in Ecap. cbn [fst]. f_equal. apply prefix_eq.
    assert (bound max_results = 10000).
    { unfold bound. destruct max_results as [m|]; [|lia].
      destruct (m =? 0) eqn:E0; [lia|]. apply Z.eqb_neq in E0.
      specialize (Hnext m eq_refl E0). lia. }
    lia. }
  apply Z.leb_gt in Ecap.
  apply (IH (k + 1)); try lia. exact Hnext.
Qed.

(** On the mock endpoint the walk returns the first
    min(total, max_results, 10000) records, in server order. *)
Lemma get_all_user_trades_on_mock (fuel : nat) :
  (20 <= fuel)%nat ->
  fst (get_all_user_trades (serve data) max_results rate_limit_delay fuel)
  = Returned (prefix data (Z.min (len data) (bound max_results))).
Proof.
  intro Hf. unfold get_all_user_trades.
  change (@nil A) with (prefix data 0) at 1.
  apply (trades_walk_result fuel 0); try reflexivity; try lia.
  - unfold len. lia.
  - intros m Hm E0. unfold full_pages_cover in Hcover. rewrite Hm in Hcover.
    destruct Hcover as [?|[? _]]; lia.
Qed.
End TradesOnMock.

(** [total] distinct records, numbered in server order. *)
Definition numbered_records (total : Z) : list Z :=
  map Z.of_nat (seq 0 (Z.to_nat total)).

Definition returned_count {A : Type} (o : outcome A) : option Z :=
  match o with Returned records => Some (len records) | _ => None end.

(** The count the specification states: [min(total, max_results or inf)]. *)
Definition claimed_count (total : Z) (max_results : option Z) : Z :=
  match max_results with
  | Some m => if m =? 0 then total else Z.min total m
  | None => total
  end.

(** C1, as amended: on an endpoint that serves a known list page by page,
    get_all_user_trades returns the first
    min(total, max_results or infinity, 10000) records, in server order,
    with nothing repeated or skipped, whenever max_results is absent, or not
    below the total, or reached at the end of a full page of 500. *)
Theorem trades_fetch_returns_bounded_prefix :
  forall (A : Type) (data : list A) (max_results : option Z)
         (rate_limit_delay : Q) (fuel : nat),
    full_pages_cover (len data) max_results ->
    (20 <= fuel)%nat ->
    let result :=
      fst (get_all_user_trades (serve data) max_results rate_limit_delay fuel) in
    let count :=
      Z.min (claimed_count (len data) max_results) api_offset_max in
    result = Returned (firstn (Z.to_nat count) data)
    /\ returned_count result = Some count
    /\ (forall m, max_results = Some m -> m <> 0 -> count <= m).
Proof.
  intros A data m d fuel Hcover Hfuel. cbv zeta.
  rewrite (get_all_user_trades_on_mock data m d Hcover fuel Hfuel).
  assert (E : Z.min (len data) (bound m)
              = Z.min (claimed_count (len data) m) api_offset_max).
  { unfold bound, claimed_count. destruct m as [mv|]; [|reflexivity].
    destruct (mv =? 0); lia. }
  rewrite E. fold (prefix data (Z.min (claimed_count (len data) m) api_offset_max)).
  split; [reflexivity|]. split.
  - cbn [returned_count]. rewrite len_prefix. f_equal.
    assert (0 <= len data) by (unfold len; lia).
    unfold full_pages_cover, claimed_count, api_offset_max in *.
    destruct m as [mv|]; [|lia].
    destruct (mv =? 0) eqn:E0; [lia|]. apply Z.eqb_neq in E0.
    destruct Hcover as [?|[? _]]; lia.
  - intros mv Hm E0. subst m. unfold claimed_count.
    rewrite (proj2 (Z.eqb_neq mv 0) E0). lia.
Qed.

Lemma trades_fetch_returns_bounded_prefix_witness :
  full_pages_cover (len (numbered_records 1200)) (Some 1000)
  /\ (20 <= 20)%nat
  /\ returned_count
       (fst (get_all_user_trades (serve (numbered_records 1200)) (Some 1000)
                                 (1 # 10) 20))
     = Some 1000.
Proof.
  assert (H : full_pages_cover (len (numbered_records 1200)) (Some 1000)).
  { right. split; [reflexivity|]. right. exists 2. vm_compute.
    split; discriminate. }
  split; [exact H|]. split; [apply Nat.le_refl|].
  exact (proj1 (proj2 (trades_fetch_returns_bounded_prefix
                         Z (numbered_records 1200) (Some 1000) (1 # 10) 20
                         H (Nat.le_refl 20)))).
Defined.

(** The claim as stated fails: with 10500 records and no max_results the
    walk stops at the API's limit with 10000; with 300 records and
    max_results = 100 the short first page ends the walk before the
    truncation and all 300 come back. *)
Lemma trades_fetch_claimed_count_fails :
  returned_count
    (fst (get_all_user_trades (serve (numbered_records 10500)) None (1 # 10) 21))
  = Some 10000
  /\ Some 10000 <> Some (claimed_count 10500 None)
  /\ returned_count
       (fst (get_all_user_trades (serve (numbered_records 300)) (Some 100)
                                 (1 # 10) 21))
     = Some 300
  /\ Some 300 <> Some (claimed_count 300 (Some 100)).
Proof.
  split; [vm_compute; reflexivity|]. split; [discriminate|].
  split; [vm_compute; reflexivity|]. discriminate.
Qed.

(* ================================================================== *)
(** ** How many requests a walk issues *)

Section TradeRequests.
Context {A : Type}.
Variable data : list A.
Variable max_results : option Z.
Variable rate_limit_delay : Q.
Hypothesis Habsent : truthy max_results = false.

Let walk := trades_loop (serve data) max_results rate_limit_delay.

Lemma reached_absent n : reached max_results n = false.
Proof.
  unfold reached, truthy in *. destruct max_results; [|reflexivity].
  now rewrite Habsent.
Qed.

Lemma trades_walk_requests :
  forall fuel k n offset all tr,
    offset = trades_limit * k ->
    0 <= k < 20 ->
    offset <= len data ->
    (Z.to_nat (20 - k) <= fuel)%nat ->
    request_count (snd (walk fuel n offset all tr))
    = request_count tr + (Z.min (len data / trades_limit + 1) 20 - k)
    /\ warning_count (snd (walk fuel n offset all tr))
       = warning_count tr + (if api_offset_max <=? len data then 1 else 0).
Proof.
  unfold walk.
  induction fuel as [|fuel IH]; intros k n offset all tr Ho Hk Hle Hf; [lia|].
  rewrite trades_loop_unfold, serve_page.
  assert (H500 : trades_limit = 500) by reflexivity.
  assert (H10k : api_offset_max = 10000) by reflexivity.
  rewrite len_page by lia. rewrite reached_absent.
  destruct (Z.min trades_limit (Z.max 0 (len data - offset)) <? trades_limit)
           eqn:Eshort.
  { apply Z.ltb_lt in Eshort. cbn [snd].
    rewrite request_count_app, warning_count_app.
    assert (Eq : len data / trades_limit = k).
    { symmetry. apply (Z.div_unique _ _ _ (len data - offset)); lia. }
    assert (Ecap : (api_offset_max <=? len data) = false)
      by (apply Z.leb_gt; lia).
    rewrite Eq, Ecap. cbn. lia. }
  apply Z.ltb_ge in Eshort.
  destruct (api_offset_max <=? offset + trades_limit) eqn:Ecap.
  { apply Z.leb_le in Ecap. cbn [snd].
    rewrite !request_count_app, !warning_count_app.
    assert (Eq : 20 <= len data / trades_limit).
    { apply Z.div_le_lower_bound; lia. }
    assert (Ecap' : (api_offset_max <=? len data) = true)
      by (apply Z.leb_le; lia).
    rewrite Ecap'. cbn. lia. }
  apply Z.leb_gt in Ecap.
  destruct (IH (k + 1) (S n) (offset + trades_limit)
               (all ++ page data trades_limit offset)
               ((tr ++ [Request trades_limit offset])
                ++ [Sleep rate_limit_delay])) as [H1 H2]; try lia.
  rewrite H1, H2, !request_count_app, !warning_count_app. cbn. lia.
Qed.

Lemma get_all_user_trades_requests (fuel : nat) :
  (20 <= fuel)%nat ->
  let tr := snd (get_all_user_trades (serve data) max_results
                                     rate_limit_delay fuel) in
  request_count tr = Z.min (len data / trades_limit + 1) 20
  /\ warning_count tr = if api_offset_max <=? len data then 1 else 0.
Proof.
  intro Hf. cbv zeta. unfold get_all_user_trades.
  destruct (trades_walk_requests fuel 0 0%nat 0 [] []) as [H1 H2];
    try reflexivity; try lia.
  - unfold len. lia.
  - fold walk. rewrite H1, H2. cbn. split; lia.
Qed.
End TradeRequests.

Section LeaderboardRequests.
Context {A : Type}.
Variable data : list A.

Lemma leaderboard_loop_unfold (ep : endpoint A) remaining n i all tr :
  leaderboard_loop ep (S remaining) n i all tr
  = match ep n batch_size (i * batch_size) with
    | Raise e => (Raise e, tr ++ [Request batch_size (i * batch_size)])
    | Ok users =>
      if len users <? batch_size
      then (Ok (all ++ users), tr ++ [Request batch_size (i * batch_size)])
      else leaderboard_loop ep remaining (S n) (i + 1) (all ++ users)
                            ((tr ++ [Request batch_size (i * batch_size)])
                             ++ [Sleep courtesy_pause])
    end.
Proof. reflexivity. Qed.

Lemma leaderboard_loop_requests :
  forall remaining n i all tr,
    0 <= i ->
    i * batch_size <= len data ->
    request_count (snd (leaderboard_loop (serve data) remaining n i all tr))
    = request_count tr
      + Z.min (Z.of_nat remaining) (len data / batch_size + 1 - i).
Proof.
  assert (H20 : batch_size = 20) by reflexivity.
  induction remaining as [|remaining IH]; intros n i all tr Hi Hle.
  - cbn [leaderboard_loop snd].
    assert (i <= len data / batch_size)
      by (apply Z.div_le_lower_bound; lia).
    lia.
  - rewrite leaderboard_loop_unfold, serve_page, len_page by lia.
    rewrite Nat2Z.inj_succ.
    destruct (Z.min batch_size (Z.max 0 (len data - i * batch_size))
              <? batch_size) eqn:Eshort.
    + apply Z.ltb_lt in Eshort. cbn [snd]. rewrite request_count_app.
      assert (Eq : len data / batch_size = i).
      { symmetry. apply (Z.div_unique _ _ _ (len data - i * batch_size)); lia. }
      rewrite Eq. cbn. lia.
    + apply Z.ltb_ge in Eshort.
      rewrite IH, !request_count_app by lia. cbn.
      assert (i + 1 <= len data / batch_size)
        by (apply Z.div_le_lower_bound; lia).
      lia.
Qed.

Lemma scrape_leaderboard_requests (total : Z) :
  request_count (snd (scrape_leaderboard (serve data) total))
  = Z.min (Z.max 0 (num_batches total)) (len data / batch_size + 1).
Proof.
  unfold scrape_leaderboard.
  rewrite leaderboard_loop_requests by (unfold len; lia). cbn. lia.
Qed.
End LeaderboardRequests.

Definition ceil_div (n d : Z) : Z := (n + d - 1) / d.

(** C6, as amended: on N known records, and with no max_results,
    get_all_user_trades issues N/500 rounded down plus one requests, at
    most 20.  For N below 10000 that is the ceiling of N/500 when N is not a
    multiple of 500 (the short last page ends the walk) and one more than it
    when N is a multiple (a further request returns an empty page).
    scrape_leaderboard asked for the N records the server holds issues
    exactly the ceiling of N/20 requests. *)
Theorem page_request_counts :
  forall (A : Type) (data : list A) (rate_limit_delay : Q) (fuel : nat),
    (20 <= fuel)%nat ->
    let N := len data in
    let requests :=
      request_count
        (snd (get_all_user_trades (serve data) None rate_limit_delay fuel)) in
    requests = Z.min (N / trades_limit + 1) 20
    /\ (N < api_offset_max -> N mod trades_limit = 0 ->
        requests = ceil_div N trades_limit + 1)
    /\ (N < api_offset_max -> N mod trades_limit <> 0 ->
        requests = ceil_div N trades_limit)
    /\ request_count (snd (scrape_leaderboard (serve data) N))
       = ceil_div N batch_size.
Proof.
  intros A data d fuel Hf. cbv zeta.
  destruct (get_all_user_trades_requests data None d eq_refl fuel Hf)
    as [Hreq _].
  rewrite Hreq, scrape_leaderboard_requests.
  assert (Hn : 0 <= len data) by (unfold len; lia).
  unfold ceil_div, num_batches, trades_limit, api_offset_max, batch_size.
  repeat split.
  - intros Hlt Hmod.
    pose proof (Z.div_mod (len data) 500 ltac:(lia)) as E.
    rewrite Hmod, Z.add_0_r in E.
    replace (len data + 500 - 1) with (499 + len data / 500 * 500) by lia.
    rewrite Z.div_add by lia. change (499 / 500) with 0. lia.
  - intros Hlt Hmod.
    pose proof (Z.div_mod (len data) 500 ltac:(lia)) as E.
    pose proof (Z.mod_pos_bound (len data) 500 ltac:(lia)) as B.
    replace (len data + 500 - 1)
      with ((len data mod 500 + 499) + len data / 500 * 500) by lia.
    rewrite Z.div_add by lia.
    assert ((len data mod 500 + 499) / 500 = 1).
    { symmetry. apply (Z.div_unique _ _ _ (len data mod 500 - 1)); lia. }
    lia.
  - pose proof (Z.div_mod (len data) 20 ltac:(lia)) as E.
    pose proof (Z.mod_pos_bound (len data) 20 ltac:(lia)) as B.
    assert (0 <= (len data + 20 - 1) / 20 < len data / 20 + 2).
    { split; [apply Z.div_pos; lia|].
      apply Z.div_lt_upper_bound; lia. }
    lia.
Qed.

Lemma page_request_counts_witness :
  (20 <= 20)%nat
  /\ len (numbered_records 700) < api_offset_max
  /\ len (numbered_records 700) mod trades_limit <> 0
  /\ request_count
       (snd (get_all_user_trades (serve (numbered_records 700)) None
                                 (1 # 10) 20))
     = ceil_div (len (numbered_records 700)) trades_limit.
Proof.
  assert (H1 : len (numbered_records 700) < api_offset_max)
    by (vm_compute; reflexivity).
  assert (H2 : len (numbered_records 700) mod trades_limit <> 0)
    by (vm_compute; discriminate).
  split; [apply Nat.le_refl|]. split; [exact H1|]. split; [exact H2|].
  exact (proj1 (proj2 (proj2 (page_request_counts
                                Z (numbered_records 700) (1 # 10) 20
                                (Nat.le_refl 20)))) H1 H2).
Defined.

(** The claim as stated fails: 1000 records are a multiple of the page size,
    and the walk issues three requests, not the two of the ceiling. *)
Lemma multiple_of_page_size_needs_extra_request :
  len (numbered_records 1000) mod trades_limit = 0
  /\ request_count
       (snd (get_all_user_trades (serve (numbered_records 1000)) None
                                 (1 # 10) 21))
     = 3
  /\ ceil_div (len (numbered_records 1000)) trades_limit = 2.
Proof. vm_compute. repeat split. Qed.

(* ================================================================== *)
(** ** Rate limiting and the offset limit in the position walks *)

Section PositionWalks.
Context {A : Type}.
Variable ep : endpoint A.
Variable delay : Q.

(** A 429 pauses five seconds and asks for the same page again. *)
Lemma positions_loop_429 fuel n offset all tr :
  ep n positions_limit offset = Raise (HTTPError 429) ->
  positions_loop ep delay (S fuel) n offset all tr
  = positions_loop ep delay fuel (S n) offset all
      ((tr ++ [Request positions_limit offset])
       ++ [RateLimited offset; Sleep cooldown]).
Proof. intro H. cbn [positions_loop]. now rewrite H. Qed.

(** Any other exception leaves the walk at once. *)
Lemma positions_loop_raises fuel n offset all tr e :
  ep n positions_limit offset = Raise e ->
  e <> HTTPError 429 ->
  positions_loop ep delay (S fuel) n offset all tr
  = (Raised e, tr ++ [Request positions_limit offset]).
Proof.
  intros H Hne. cbn [positions_loop]. rewrite H.
  destruct e as [status| |f t|key|]; try reflexivity.
  destruct (status =? 429) eqn:E; [|reflexivity].
  apply Z.eqb_eq in E. now subst status.
Qed.

Lemma positions_loop_page fuel n offset all tr batch :
  ep n positions_limit offset = Ok batch ->
  positions_loop ep delay (S fuel) n offset all tr
  = if len batch =? 0
    then (Returned all, tr ++ [Request positions_limit offset])
    else if len batch <? positions_limit
    then (Returned (all ++ batch), tr ++ [Request positions_limit offset])
    else positions_loop ep delay fuel (S n) (offset + positions_limit)
                        (all ++ batch)
                        ((tr ++ [Request positions_limit offset])
                         ++ [Sleep delay]).
Proof.
  intro H. cbn [positions_loop]. rewrite H. now destruct batch.
Qed.

(** The retry has no budget: while the endpoint answers 429 the walk goes
    on, whatever the fuel. *)
Lemma positions_loop_429_forever offset :
  (forall n, ep n positions_limit offset = Raise (HTTPError 429)) ->
  forall fuel n all tr,
    fst (positions_loop ep delay fuel n offset all tr) = OutOfFuel.
Proof.
  intro H. induction fuel as [|fuel IH]; intros n all tr; [reflexivity|].
  rewrite positions_loop_429 by apply H. apply IH.
Qed.

(** [k] answers of 429 in a row cost [k] requests and [k] pauses, and
    leave offset and records as they were. *)
Lemma positions_loop_429_run offset all :
  forall k fuel n tr,
    (forall j, (j < k)%nat ->
               ep (n + j)%nat positions_limit offset = Raise (HTTPError 429)) ->
    exists tr',
      positions_loop ep delay (k + fuel) n offset all tr
      = positions_loop ep delay fuel (n + k)%nat offset all (tr ++ tr')
      /\ request_count tr' = Z.of_nat k
      /\ filter (fun e => match e with Sleep _ => true | _ => false end) tr'
         = repeat (Sleep cooldown) k.
Proof.
  induction k as [|k IH]; intros fuel n tr H.
  - exists []. rewrite app_nil_r, Nat.add_0_r. repeat split.
  - cbn [Nat.add]. rewrite positions_loop_429
      by (rewrite <- (Nat.add_0_r n); apply H; lia).
    destruct (IH fuel (S n)
                 ((tr ++ [Request positions_limit offset])
                  ++ [RateLimited offset; Sleep cooldown])) as (tr' & E & C & Hs).
    { intros j Hj. replace (S n + j)%nat with (n + S j)%nat by lia.
      apply H. lia. }
    exists ([Request positions_limit offset; RateLimited offset;
             Sleep cooldown] ++ tr').
    rewrite E. replace (S n + k)%nat with (n + S k)%nat by lia.
    repeat split.
    + now rewrite <- !app_assoc.
    + rewrite request_count_app, C, Nat2Z.inj_succ.
      change (request_count [Request positions_limit offset;
                             RateLimited offset; Sleep cooldown]) with 1.
      lia.
    + rewrite filter_app, Hs. reflexivity.
Qed.
End PositionWalks.

Section ClosedWalks.
Context {A : Type}.
Variable timestamp_of : A -> Z.
Variable ep : endpoint A.
Variables start_timestamp end_timestamp : option Z.
Variable delay : Q.

Lemma closed_loop_429 fuel n offset old all tr :
  ep n closed_limit offset = Raise (HTTPError 429) ->
  closed_loop timestamp_of ep start_timestamp end_timestamp delay
              (S fuel) n offset old all tr
  = closed_loop timestamp_of ep start_timestamp end_timestamp delay
                fuel (S n) offset old all
                ((tr ++ [Request closed_limit offset])
                 ++ [RateLimited offset; Sleep cooldown]).
Proof. intro H. cbn [closed_loop]. now rewrite H. Qed.

Lemma closed_loop_raises fuel n offset old all tr e :
  ep n closed_limit offset = Raise e ->
  e <> HTTPError 429 ->
  closed_loop timestamp_of ep start_timestamp end_timestamp delay
              (S fuel) n offset old all tr
  = (Raised e, tr ++ [Request closed_limit offset]).
Proof.
  intros H Hne. cbn [closed_loop]. rewrite H.
  destruct e as [status| |f t|key|]; try reflexivity.
  destruct (status =? 429) eqn:E; [|reflexivity].
  apply Z.eqb_eq in E. now subst status.
Qed.

Lemma closed_loop_429_forever offset :
  (forall n, ep n closed_limit offset = Raise (HTTPError 429)) ->
  forall fuel n old all tr,
    fst (closed_loop timestamp_of ep start_timestamp end_timestamp delay
                     fuel n offset old all tr) = OutOfFuel.
Proof.
  intro H. induction fuel as [|fuel IH]; intros n old all tr; [reflexivity|].
  rewrite closed_loop_429 by apply H. apply IH.
Qed.
End ClosedWalks.

(** The trade walk has no handler: whatever the request raises, the walk
    raises. *)
Lemma trades_loop_raises {A : Type} (ep : endpoint A) m d fuel n offset all tr e :
  ep n trades_limit offset = Raise e ->
  trades_loop ep m d (S fuel) n offset all tr
  = (Raised e, tr ++ [Request trades_limit offset]).
Proof. intro H. rewrite trades_loop_unfold. now rewrite H. Qed.

(** An endpoint that answers the first request with 429 and serves [data]
    from then on. *)
Definition throttled_once {A : Type} (data : list A) : endpoint A :=
  fun n limit offset =>
    match n with
    | O => Raise (HTTPError 429)
    | S _ => serve data n limit offset
    end.

(** C4 on the code: after one 429 the open-position and closed-position
    walks pause five seconds, ask for offset 0 again and return the data;
    the trade walk raises the 429 to its caller after its first request. *)
Theorem trade_walk_does_not_retry_429 :
  get_all_user_positions (throttled_once [11; 12; 13]) (1 # 2) 20
  = (Returned [11; 12; 13],
     [Request 500 0; RateLimited 0; Sleep 5; Request 500 0])
  /\ get_all_closed_positions (fun t => t) (throttled_once [11; 12; 13])
                              None None (1 # 2) 20
     = (Returned [11; 12; 13],
        [Request 25 0; RateLimited 0; Sleep 5; Request 25 0])
  /\ get_all_user_trades (throttled_once [11; 12; 13]) None (1 # 10) 20
     = (Raised (HTTPError 429), [Request 500 0]).
Proof. repeat split. Qed.

Definition request_offsets (tr : list event) : list Z :=
  flat_map (fun e => match e with Request _ offset => [offset] | _ => [] end) tr.

Section PositionsOnMock.
Context {A : Type}.
Variable data : list A.
Variable delay : Q.

Lemma prefix_all a : len data <= a -> prefix data a = data.
Proof. intro H. unfold prefix, len in *. apply firstn_all2. lia. Qed.

(** The open-position walk has no offset limit: it goes on to the end of
    the data, however long, and never warns. *)
Lemma positions_walk_on_mock :
  forall fuel k n offset tr,
    offset = positions_limit * k ->
    0 <= k ->
    offset <= len data ->
    (Z.to_nat (len data / positions_limit + 1 - k) <= fuel)%nat ->
    let r := positions_loop (serve data) delay fuel n offset
                            (prefix data offset) tr in
    fst r = Returned data
    /\ request_count (snd r)
       = request_count tr + (len data / positions_limit + 1 - k)
    /\ warning_count (snd r) = warning_count tr.
Proof.
  assert (H500 : positions_limit = 500) by reflexivity.
  induction fuel as [|fuel IH]; intros k n offset tr Ho Hk Hle Hf; cbv zeta.
  - exfalso.
    assert (k <= len data / positions_limit)
      by (apply Z.div_le_lower_bound; lia).
    lia.
  - rewrite (positions_loop_page _ _ _ _ _ _ _ _ (serve_page data n _ _)).
    rewrite len_page, prefix_page by lia.
    destruct (Z.min positions_limit (Z.max 0 (len data - offset)) =? 0) eqn:E0.
    { apply Z.eqb_eq in E0. cbn [fst snd].
      rewrite request_count_app, warning_count_app, prefix_all by lia.
      assert (Eq : len data / positions_limit = k)
        by (symmetry; apply (Z.div_unique _ _ _ 0); lia).
      rewrite Eq. cbn. repeat split; lia. }
    apply Z.eqb_neq in E0.
    destruct (Z.min positions_limit (Z.max 0 (len data - offset))
              <? positions_limit) eqn:Eshort.
    { apply Z.ltb_lt in Eshort. cbn [fst snd].
      rewrite request_count_app, warning_count_app, prefix_all by lia.
      assert (Eq : len data / positions_limit = k)
        by (symmetry; apply (Z.div_unique _ _ _ (len data - offset)); lia).
      rewrite Eq. cbn. repeat split; lia. }
    apply Z.ltb_ge in Eshort.
    assert (k + 1 <= len data / positions_limit)
      by (apply Z.div_le_lower_bound; lia).
    destruct (IH (k + 1) (S n) (offset + positions_limit)
                 ((tr ++ [Request positions_limit offset]) ++ [Sleep delay]))
      as (H1 & H2 & H3); try lia.
    cbv zeta in H1, H2, H3. rewrite H1, H2, H3.
    rewrite !request_count_app, !warning_count_app. cbn.
    repeat split; lia.
Qed.

Lemma get_all_user_positions_on_mock (fuel : nat) :
  (Z.to_nat (len data / positions_limit + 1) <= fuel)%nat ->
  let r := get_all_user_positions (serve data) delay fuel in
  fst r = Returned data
  /\ request_count (snd r) = len data / positions_limit + 1
  /\ warning_count (snd r) = 0.
Proof.
  intro Hf. cbv zeta. unfold get_all_user_positions.
  change (@nil A) with (prefix data 0).
  destruct (positions_walk_on_mock fuel 0 0%nat 0 []) as (H1 & H2 & H3);
    try reflexivity; try lia.
  - unfold len. lia.
  - cbv zeta in H1, H2, H3. rewrite H1, H2, H3. cbn. repeat split; lia.
Qed.
End PositionsOnMock.

(** C5 on the code: with more than 10000 records behind the endpoint the
    trade walk stops at the limit with a warning and the first 10000, but
    the open-position and closed-position walks go past it: they ask for
    offsets 10000 and beyond, warn of nothing and return everything. *)
Theorem position_walks_pass_the_offset_limit :
  (let r := get_all_user_trades (serve (numbered_records 10600)) None
                                (1 # 10) 30 in
   returned_count (fst r) = Some 10000
   /\ warning_count (snd r) = 1
   /\ last (request_offsets (snd r)) 0 = 9500)
  /\ (let r := get_all_user_positions (serve (numbered_records 10600))
                                      (1 # 2) 30 in
      returned_count (fst r) = Some 10600
      /\ warning_count (snd r) = 0
      /\ last (request_offsets (snd r)) 0 = 10500)
  /\ (let r := get_all_closed_positions (fun t => t)
                                        (serve (numbered_records 10030))
                                        None None (1 # 2) 500 in
      returned_count (fst r) = Some 10030
      /\ warning_count (snd r) = 0
      /\ last (request_offsets (snd r)) 0 = 10025).
Proof. vm_compute. repeat split. Qed.

(* ================================================================== *)
(** * Further properties of the code *)

(* ================================================================== *)
(** ** [scrape_leaderboard]: what a call returns *)

Lemma leaderboard_loop_result {A : Type} (data : list A) :
  forall remaining n i tr,
    0 <= i ->
    i * batch_size <= len data ->
    fst (leaderboard_loop (serve data) remaining n i
                          (prefix data (i * batch_size)) tr)
    = Ok (prefix data (batch_size * (i + Z.of_nat remaining))).
Proof.
  assert (H20 : batch_size = 20) by reflexivity.
  induction remaining as [|remaining IH]; intros n i tr Hi Hle.
  - cbn [leaderboard_loop fst]. do 2 f_equal. lia.
  - rewrite leaderboard_loop_unfold, serve_page, len_page by lia.
    rewrite prefix_page by lia. rewrite Nat2Z.inj_succ.
    destruct (Z.min batch_size (Z.max 0 (len data - i * batch_size))
              <? batch_size) eqn:Eshort.
    + apply Z.ltb_lt in Eshort. cbn [fst]. f_equal. apply prefix_eq. lia.
    + apply Z.ltb_ge in Eshort.
      replace (i * batch_size + batch_size) with ((i + 1) * batch_size) by lia.
      rewrite IH by lia. do 2 f_equal. lia.
Qed.

(** X1: on a server that holds a list of users, [scrape_leaderboard] returns
    the first 20 * ceil(total / 20) of them (all of them when the list is
    shorter): the request is rounded up to whole pages of 20 and never cut
    back to [total].  For [total >= 0] at least min(available, total) and
    fewer than total + 20 users come back, and their number is a multiple
    of 20 unless the list ran out. *)
Theorem scrape_leaderboard_returns_whole_pages
        {A : Type} (data : list A) (total : Z) :
  exists users,
    fst (scrape_leaderboard (serve data) total) = Ok users
    /\ users = prefix data (20 * ((total + 19) / 20))
    /\ (0 <= total ->
        Z.min (len data) total <= len users < total + 20
        /\ (len users = len data \/ len users mod 20 = 0)).
Proof.
  exists (prefix data (20 * ((total + 19) / 20))).
  assert (H19 : total + 20 - 1 = total + 19) by lia.
  split; [|split; [reflexivity|]].
  - unfold scrape_leaderboard. change (@nil A) with (prefix data (0 * batch_size)).
    rewrite leaderboard_loop_result by (unfold len; lia).
    f_equal. apply prefix_eq. unfold num_batches, batch_size. rewrite H19. lia.
  - intro Ht. rewrite len_prefix.
    assert (H0 : 0 <= (total + 19) / 20) by (apply Z.div_pos; lia).
    pose proof (Z.mul_div_le (total + 19) 20 ltac:(lia)) as Hlo.
    pose proof (Z.mul_succ_div_gt (total + 19) 20 ltac:(lia)) as Hhi.
    split; [lia|].
    destruct (Z_le_gt_dec (len data) (20 * ((total + 19) / 20))) as [H|H].
    + left. lia.
    + right. replace (Z.min (len data) (Z.max 0 (20 * ((total + 19) / 20))))
        with (((total + 19) / 20) * 20) by lia.
      apply Z.mod_mul. lia.
Qed.

Lemma scrape_leaderboard_returns_whole_pages_witness :
  exists users,
    fst (scrape_leaderboard (serve (numbered_records 50)) 30) = Ok users
    /\ len users = 40.
Proof.
  destruct (scrape_leaderboard_returns_whole_pages (numbered_records 50) 30)
    as (users & H1 & H2 & H3).
  exists users. split; [exact H1|].
  destruct (H3 ltac:(lia)) as [_ [H|H]].
  - exfalso. rewrite H2 in H. vm_compute in H. discriminate.
  - rewrite H2. reflexivity.
Defined.

Lemma leaderboard_loop_raises {A : Type} (ep : endpoint A) (e : exn) :
  forall k remaining n i all tr,
    (forall j, (j < k)%nat ->
               exists users,
                 ep (n + j)%nat batch_size ((i + Z.of_nat j) * batch_size)
                 = Ok users
                 /\ batch_size <= len users) ->
    ep (n + k)%nat batch_size ((i + Z.of_nat k) * batch_size) = Raise e ->
    (k < remaining)%nat ->
    let r := leaderboard_loop ep remaining n i all tr in
    fst r = Raise e
    /\ request_count (snd r) = request_count tr + Z.of_nat k + 1.
Proof.
  induction k as [|k IH]; intros remaining n i all tr Hfull Hraise Hk;
    (destruct remaining as [|remaining]; [lia|]);
    cbv zeta; rewrite leaderboard_loop_unfold.
  - rewrite Nat.add_0_r, Z.add_0_r in Hraise. rewrite Hraise. cbn [fst snd].
    rewrite request_count_app. split; [reflexivity|].
    change (request_count [Request batch_size (i * batch_size)]) with 1.
    change (Z.of_nat 0) with 0. lia.
  - destruct (Hfull 0%nat ltac:(lia)) as (users & Hu & Hlen).
    rewrite Nat.add_0_r, Z.add_0_r in Hu. rewrite Hu.
    replace (len users <? batch_size) with false
      by (symmetry; apply Z.ltb_ge; exact Hlen).
    destruct (IH remaining (S n) (i + 1) (all ++ users)
                 ((tr ++ [Request batch_size (i * batch_size)])
                  ++ [Sleep courtesy_pause])) as [H1 H2].
    + intros j Hj. destruct (Hfull (S j) ltac:(lia)) as (u & Hu' & Hl).
      exists u. split; [|exact Hl].
      replace (S n + j)%nat with (n + S j)%nat by lia.
      replace (i + 1 + Z.of_nat j) with (i + Z.of_nat (S j)) by lia.
      exact Hu'.
    + replace (S n + k)%nat with (n + S k)%nat by lia.
      replace (i + 1 + Z.of_nat k) with (i + Z.of_nat (S k)) by lia.
      exact Hraise.
    + lia.
    + cbv zeta in H1, H2. split; [exact H1|].
      rewrite H2, !request_count_app.
      change (request_count [Request batch_size (i * batch_size)]) with 1.
      change (request_count [Sleep courtesy_pause]) with 0. lia.
Qed.

(** X2: when the first [k] pages come back full and the next request
    raises, with 20 * k < total, [scrape_leaderboard] raises that exception
    after k + 1 requests: the users of the pages already fetched are not
    returned. *)
Theorem scrape_leaderboard_drops_pages_on_error
        {A : Type} (ep : endpoint A) (e : exn) (total : Z) (k : nat) :
  (forall j, (j < k)%nat ->
             exists users,
               ep j 20 (Z.of_nat j * 20) = Ok users /\ 20 <= len users) ->
  ep k 20 (Z.of_nat k * 20) = Raise e ->
  20 * Z.of_nat k < total ->
  let r := scrape_leaderboard ep total in
  fst r = Raise e /\ request_count (snd r) = Z.of_nat k + 1.
Proof.
  intros Hfull Hraise Hk. unfold scrape_leaderboard.
  apply (leaderboard_loop_raises ep e k _ 0%nat 0 [] []).
  - exact Hfull.
  - exact Hraise.
  - unfold num_batches, batch_size.
    assert (Z.of_nat k + 1 <= (total + 20 - 1) / 20)
      by (apply Z.div_le_lower_bound; lia).
    lia.
Qed.

(** A server that answers the first two pages and fails on the third. *)
Definition fails_on_third_page : endpoint Z :=
  fun n limit offset =>
    if (n <? 2)%nat then serve (numbered_records 100) n limit offset
    else Raise (HTTPError 500).

Lemma scrape_leaderboard_drops_pages_on_error_witness :
  let r := scrape_leaderboard fails_on_third_page 100 in
  fst r = Raise (HTTPError 500) /\ request_count (snd r) = 3.
Proof.
  apply (scrape_leaderboard_drops_pages_on_error
           fails_on_third_page (HTTPError 500) 100 2%nat).
  - intros j Hj.
    destruct j as [|[|j]]; [| |lia]; eexists; (split; [reflexivity|]);
      vm_compute; discriminate.
  - reflexivity.
  - reflexivity.
Defined.

(* ================================================================== *)
(** ** [scrape_leaderboard_snapshot] on a healthy service *)

Lemma scrape_leaderboard_on_mock {A : Type} (data : list A) (total : Z) :
  fst (scrape_leaderboard (serve data) total)
  = Ok (prefix data (20 * ((total + 19) / 20))).
Proof.
  assert (H19 : total + 20 - 1 = total + 19) by lia.
  unfold scrape_leaderboard. change (@nil A) with (prefix data (0 * batch_size)).
  rewrite leaderboard_loop_result by (unfold len; lia).
  f_equal. apply prefix_eq. unfold num_batches, batch_size. rewrite H19. lia.
Qed.

Lemma flat_map_numbered {A B : Type} (f : A -> list B) (l : list A) (i : Z) :
  flat_map (fun ix => f (snd ix)) (number_from i l) = flat_map f l.
Proof.
  revert i. induction l as [|x l IH]; intro i; [reflexivity|].
  cbn [number_from flat_map snd]. now rewrite IH.
Qed.

Lemma flat_map_nil {A B : Type} (f : A -> list B) (l : list A) :
  (forall x, f x = []) -> flat_map f l = [].
Proof.
  intro H. induction l as [|x l IH]; [reflexivity|].
  cbn [flat_map]. now rewrite H, IH.
Qed.

Section HealthySnapshot.
(** The users of every leaderboard, served without failures. *)
Variable board : string -> string -> list user.
Variable timestamp : string.
Variables limit max_retries : Z.
Variable retry_delay : Q.
Hypothesis Hretries : 0 < max_retries.

Definition healthy_api : leaderboard_api :=
  fun _ _ timeframe category => serve (board timeframe category).

(** The rows one leaderboard contributes: whole pages of 20 up to
    [limit]. *)
Definition board_rows (pair : string * string) : list snapshot_row :=
  map (to_row timestamp (fst pair) (snd pair))
      (prefix (board (fst pair) (snd pair)) (20 * ((limit + 19) / 20))).

Lemma healthy_rows_of_pair (sp : Z * (string * string)) :
  rows_of_pair healthy_api timestamp limit max_retries sp = board_rows (snd sp).
Proof.
  destruct sp as [s [tf cat]]. unfold rows_of_pair, board_rows. cbn [fst snd].
  destruct (Z.to_nat max_retries) as [|r] eqn:E; [lia|].
  cbn [first_success]. unfold attempt_result, healthy_api.
  now rewrite scrape_leaderboard_on_mock.
Qed.

Lemma healthy_failure_of (sp : Z * (string * string)) :
  failure_of healthy_api limit max_retries sp = [].
Proof.
  destruct sp as [s [tf cat]]. unfold failure_of, exhausted.
  destruct (Z.to_nat max_retries) as [|r] eqn:E; [lia|].
  cbn [all_raise]. unfold attempt_result, healthy_api.
  rewrite scrape_leaderboard_on_mock. now rewrite andb_false_r.
Qed.
End HealthySnapshot.

(** X3: with at least one attempt allowed and a service that never fails,
    [scrape_leaderboard_snapshot] collects, for every timeframe and category
    in order, the rows of that leaderboard up to whole pages of 20, records
    no scrape as failed and leaves the daily file with its old rows followed
    by the new ones.  It returns these rows when the file is new or begins
    with the header line; on an existing file without header line it
    raises the exception of the read-back (after the append) unless a cell
    of the first row is the text [timestamp]. *)
Theorem healthy_snapshot_collects_every_board
        (board : string -> string -> list user) (timestamp : string)
        (limit max_retries : Z) (retry_delay : Q)
        (store : option (list snapshot_row)) (headed : bool)
        (timeframes : option (list string)) :
  0 < max_retries ->
  let run := scrape_leaderboard_snapshot (healthy_api board) timestamp limit
                                         max_retries retry_delay store headed
                                         timeframes in
  let rows := flat_map (board_rows board timestamp limit)
                       (pairs (default_timeframes timeframes)) in
  returned run
  = match file_error store headed rows with
    | Some e => Raise e
    | None => Ok rows
    end
  /\ (store = None \/ headed = true -> returned run = Ok rows)
  /\ failed_scrapes (final run) = []
  /\ store_after run
     = Some (match store with Some old => old ++ rows | None => rows end)
  /\ headed_after run
     = match store with Some _ => headed | None => 0 <? len rows end.
Proof.
  intro Hretries. cbv zeta.
  destruct (snapshot_run_spec (healthy_api board) timestamp limit max_retries
              retry_delay store headed timeframes)
    as (Hfailed & Hdata & _ & Htotal & _ & Hstore & Hret & Hhead).
  cbv zeta in Hfailed, Hdata, Htotal, Hstore, Hret, Hhead.
  assert (Ef : failed_scrapes
                 (final (scrape_leaderboard_snapshot
                           (healthy_api board) timestamp limit max_retries
                           retry_delay store headed timeframes)) = []).
  { rewrite Hfailed. apply flat_map_nil. intro sp.
    apply (healthy_failure_of board limit max_retries Hretries). }
  assert (Ed : all_data
                 (final (scrape_leaderboard_snapshot
                           (healthy_api board) timestamp limit max_retries
                           retry_delay store headed timeframes))
               = flat_map (board_rows board timestamp limit)
                          (pairs (default_timeframes timeframes))).
  { rewrite Hdata.
    rewrite <- (flat_map_numbered (board_rows board timestamp limit) _ 1).
    apply flat_map_ext. intro sp.
    apply (healthy_rows_of_pair board timestamp limit max_retries Hretries). }
  rewrite Hret, Hstore, Hhead, Ef, Ed, Htotal.
  assert (Eq : quality_too_low (len (@nil string))
                 (len categories * len (default_timeframes timeframes))
               = false).
  { unfold quality_too_low. apply Z.ltb_ge. unfold len. cbn [length]. lia. }
  rewrite Eq.
  split; [reflexivity|]. split; [|split; [reflexivity|split; reflexivity]].
  intros [->| ->].
  - reflexivity.
  - unfold file_error, read_back. now destruct store.
Qed.

Lemma healthy_snapshot_collects_every_board_witness :
  (let run := scrape_leaderboard_snapshot (healthy_api (fun _ _ => two_users))
                                          "2026-01-01 12:00:00" 100 3 5 None
                                          false None in
   let rows := flat_map (board_rows (fun _ _ => two_users)
                                    "2026-01-01 12:00:00" 100)
                        (pairs (default_timeframes None)) in
   returned run = Ok rows)
  /\ (let run := scrape_leaderboard_snapshot
                   (healthy_api (fun _ _ => two_users))
                   "2026-01-01 12:00:00" 100 3 5 (Some []) false None in
      returned run = Raise (KeyError "timestamp")).
Proof.
  split.
  - cbv zeta.
    destruct (healthy_snapshot_collects_every_board
                (fun _ _ => two_users) "2026-01-01 12:00:00" 100 3 5 None false
                None eq_refl) as (_ & H & _).
    apply H. now left.
  - cbv zeta.
    destruct (healthy_snapshot_collects_every_board
                (fun _ _ => two_users) "2026-01-01 12:00:00" 100 3 5 (Some [])
                false None eq_refl) as (H & _).
    cbv zeta in H. rewrite H. vm_compute. reflexivity.
Defined.

(* ================================================================== *)
(** ** [get_all_user_positions] under rate limits *)

(** A server that answers the first [k] requests with 429 and serves
    [data] afterwards. *)
Definition throttled {A : Type} (k : nat) (data : list A) : endpoint A :=
  fun n limit offset =>
    if (n <? k)%nat then Raise (HTTPError 429) else serve data n limit offset.

Definition is_rate_limited (e : event) : bool :=
  match e with RateLimited _ => true | _ => false end.

Lemma positions_loop_ext {A : Type} (ep1 ep2 : endpoint A) (delay : Q) :
  forall fuel n offset all tr,
    (forall m limit o, (n <= m)%nat -> ep1 m limit o = ep2 m limit o) ->
    positions_loop ep1 delay fuel n offset all tr
    = positions_loop ep2 delay fuel n offset all tr.
Proof.
  induction fuel as [|fuel IH]; intros n offset all tr H; [reflexivity|].
  cbn [positions_loop]. rewrite (H n _ _ (Nat.le_refl n)).
  destruct (ep2 n positions_limit offset)
    as [[|x batch]|[status| |f t|key|]];
    try reflexivity.
  - destruct (len (x :: batch) <? positions_limit); [reflexivity|].
    apply IH. intros m limit o Hm. apply H. lia.
  - destruct (status =? 429); [|reflexivity].
    apply IH. intros m limit o Hm. apply H. lia.
Qed.

(** The trace of one rate-limited request at [offset]. *)
Definition rate_limited_round (offset : Z) : list event :=
  [Request positions_limit offset; RateLimited offset; Sleep cooldown].

Lemma positions_loop_throttled {A : Type} (ep : endpoint A) (delay : Q)
      (offset : Z) (all : list A) :
  forall k fuel n tr,
    (forall j, (j < k)%nat ->
               ep (n + j)%nat positions_limit offset = Raise (HTTPError 429)) ->
    positions_loop ep delay (k + fuel) n offset all tr
    = positions_loop ep delay fuel (n + k)%nat offset all
        (tr ++ concat (repeat (rate_limited_round offset) k)).
Proof.
  induction k as [|k IH]; intros fuel n tr H.
  - cbn [repeat concat Nat.add]. now rewrite app_nil_r, Nat.add_0_r.
  - cbn [Nat.add]. rewrite positions_loop_429
      by (rewrite <- (Nat.add_0_r n); apply H; lia).
    rewrite IH.
    + replace (S n + k)%nat with (n + S k)%nat by lia.
      cbn [repeat concat]. unfold rate_limited_round at 2.
      now rewrite <- !app_assoc.
    + intros j Hj. replace (S n + j)%nat with (n + S j)%nat by lia.
      apply H. lia.
Qed.

Lemma positions_walk_never_rate_limited {A : Type} (data : list A) (delay : Q) :
  forall fuel n offset all tr,
    filter is_rate_limited
           (snd (positions_loop (serve data) delay fuel n offset all tr))
    = filter is_rate_limited tr.
Proof.
  induction fuel as [|fuel IH]; intros n offset all tr; [reflexivity|].
  rewrite (positions_loop_page _ _ _ _ _ _ _ _ (serve_page data n _ _)).
  destruct (len (page data positions_limit offset) =? 0);
    [cbn [snd]; rewrite filter_app; cbn; now rewrite app_nil_r|].
  destruct (len (page data positions_limit offset) <? positions_limit);
    [cbn [snd]; rewrite filter_app; cbn; now rewrite app_nil_r|].
  rewrite IH, !filter_app. cbn. now rewrite !app_nil_r.
Qed.

Lemma rounds_counts (offset : Z) (k : nat) :
  request_count (concat (repeat (rate_limited_round offset) k)) = Z.of_nat k
  /\ len (filter is_rate_limited
                 (concat (repeat (rate_limited_round offset) k)))
     = Z.of_nat k.
Proof.
  induction k as [|k [IH1 IH2]]; [split; reflexivity|].
  cbn [repeat concat]. rewrite request_count_app, filter_app.
  unfold len in *. rewrite length_app, Nat2Z.inj_add, IH1, IH2.
  rewrite Nat2Z.inj_succ.
  change (request_count (rate_limited_round offset)) with 1.
  change (Z.of_nat (length (filter is_rate_limited
                                   (rate_limited_round offset)))) with 1.
  lia.
Qed.

(** X4: [get_all_user_positions] on a server that answers 429 to the first
    [k] requests and serves its data afterwards returns all the data; it
    costs [k] requests more than the undisturbed walk and reports [k] rate
    limits. *)
Theorem open_positions_walk_waits_out_rate_limits
        {A : Type} (data : list A) (delay : Q) (k fuel : nat) :
  (k + Z.to_nat (len data / 500 + 1) <= fuel)%nat ->
  let r := get_all_user_positions (throttled k data) delay fuel in
  fst r = Returned data
  /\ request_count (snd r) = Z.of_nat k + (len data / 500 + 1)
  /\ len (filter is_rate_limited (snd r)) = Z.of_nat k.
Proof.
  intro Hf. cbv zeta. unfold get_all_user_positions.
  replace fuel with (k + (fuel - k))%nat by lia.
  rewrite positions_loop_throttled.
  2:{ intros j Hj. unfold throttled. cbn [Nat.add].
      now rewrite (proj2 (Nat.ltb_lt j k) Hj). }
  cbn [Nat.add app].
  rewrite (positions_loop_ext (throttled k data) (serve data) delay).
  2:{ intros m limit o Hm. unfold throttled.
      now rewrite (proj2 (Nat.ltb_ge m k) Hm). }
  destruct (rounds_counts 0 k) as [Hc Hr].
  destruct (positions_walk_on_mock data delay (fuel - k) 0 k 0
              (concat (repeat (rate_limited_round 0) k)))
    as (H1 & H2 & _); try reflexivity; try lia.
  { unfold len. lia. }
  { change positions_limit with 500. lia. }
  cbv zeta in H1, H2. change (prefix data 0) with (@nil A) in *.
  rewrite H1, H2, Hc, positions_walk_never_rate_limited, Hr.
  change positions_limit with 500.
  split; [reflexivity|]. split; lia.
Qed.

Lemma open_positions_walk_waits_out_rate_limits_witness :
  let r := get_all_user_positions (throttled 3 (numbered_records 700))
                                  (1 # 2) 5 in
  fst r = Returned (numbered_records 700)
  /\ request_count (snd r) = 3 + (len (numbered_records 700) / 500 + 1)
  /\ len (filter is_rate_limited (snd r)) = 3.
Proof.
  apply (open_positions_walk_waits_out_rate_limits
           (numbered_records 700) (1 # 2) 3%nat 5%nat).
  vm_compute. apply le_n.
Defined.

(* ================================================================== *)
(** ** [get_all_closed_positions]: the window and the early stop *)

Section ClosedPages.
Context {A : Type}.
Variable timestamp_of : A -> Z.
Variable ep : endpoint A.
Variables start_timestamp end_timestamp : option Z.
Variable delay : Q.

Let loop := closed_loop timestamp_of ep start_timestamp end_timestamp delay.
Let stopping := use_early_stopping start_timestamp end_timestamp.
Let valid := batch_has_valid timestamp_of start_timestamp end_timestamp.

Lemma closed_loop_page fuel n offset old all tr batch :
  ep n closed_limit offset = Ok batch ->
  loop (S fuel) n offset old all tr
  = if len batch =? 0
    then (Returned all, tr ++ [Request closed_limit offset])
    else
      let old' := if stopping then if valid batch then 0 else old + 1
                  else old in
      if stopping && negb (valid batch) && (5 <=? old')
      then (Returned (all ++ batch),
            (tr ++ [Request closed_limit offset]) ++ [EarlyStop])
      else if len batch <? closed_limit
      then (Returned (all ++ batch), tr ++ [Request closed_limit offset])
      else loop fuel (S n) (offset + closed_limit) old' (all ++ batch)
                ((tr ++ [Request closed_limit offset]) ++ [Sleep delay]).
Proof.
  intro H. unfold loop. cbn [closed_loop]. rewrite H. now destruct batch.
Qed.
End ClosedPages.

Definition is_early_stop (e : event) : bool :=
  match e with EarlyStop => true | _ => false end.

Section ClosedOnMock.
Context {A : Type}.
Variable timestamp_of : A -> Z.
Variable data : list A.
Variables start_timestamp end_timestamp : option Z.
Variable delay : Q.
Hypothesis Hnone : use_early_stopping start_timestamp end_timestamp = false.

Lemma closed_walk_on_mock :
  forall fuel k n offset old tr,
    offset = closed_limit * k ->
    0 <= k ->
    offset <= len data ->
    (Z.to_nat (len data / closed_limit + 1 - k) <= fuel)%nat ->
    let r := closed_loop timestamp_of (serve data) start_timestamp
                         end_timestamp delay fuel n offset old
                         (prefix data offset) tr in
    fst r = Returned data
    /\ request_count (snd r)
       = request_count tr + (len data / closed_limit + 1 - k)
    /\ filter (fun e => is_warning e || is_early_stop e) (snd r)
       = filter (fun e => is_warning e || is_early_stop e) tr.
Proof.
  assert (H25 : closed_limit = 25) by reflexivity.
  induction fuel as [|fuel IH]; intros k n offset old tr Ho Hk Hle Hf; cbv zeta.
  - exfalso.
    assert (k <= len data / closed_limit)
      by (apply Z.div_le_lower_bound; lia).
    lia.
  - rewrite (closed_loop_page _ _ _ _ _ _ _ _ _ _ _ _ (serve_page data n _ _)).
    rewrite Hnone. cbn [andb]. cbv zeta.
    rewrite len_page, prefix_page by lia.
    destruct (Z.min closed_limit (Z.max 0 (len data - offset)) =? 0) eqn:E0.
    { apply Z.eqb_eq in E0. cbn [fst snd].
      rewrite request_count_app, filter_app, prefix_all by lia.
      assert (Eq : len data / closed_limit = k)
        by (symmetry; apply (Z.div_unique _ _ _ 0); lia).
      rewrite Eq. cbn. rewrite app_nil_r. repeat split; lia. }
    apply Z.eqb_neq in E0.
    destruct (Z.min closed_limit (Z.max 0 (len data - offset))
              <? closed_limit) eqn:Eshort.
    { apply Z.ltb_lt in Eshort. cbn [fst snd].
      rewrite request_count_app, filter_app, prefix_all by lia.
      assert (Eq : len data / closed_limit = k)
        by (symmetry; apply (Z.div_unique _ _ _ (len data - offset)); lia).
      rewrite Eq. cbn. rewrite app_nil_r. repeat split; lia. }
    apply Z.ltb_ge in Eshort.
    assert (k + 1 <= len data / closed_limit)
      by (apply Z.div_le_lower_bound; lia).
    destruct (IH (k + 1) (S n) (offset + closed_limit) old
                 ((tr ++ [Request closed_limit offset]) ++ [Sleep delay]))
      as (H1 & H2 & H3); try lia.
    cbv zeta in H1, H2, H3. rewrite H1, H2, H3.
    rewrite !request_count_app, !filter_app. cbn.
    rewrite !app_nil_r. repeat split; lia.
Qed.
End ClosedOnMock.

(** X5: without a date window (both bounds [None] or 0)
    [get_all_closed_positions] returns every record the server holds, in
    server order, with floor(N / 25) + 1 requests, no warning and no early
    stop. *)
Theorem closed_walk_without_window_returns_everything
        {A : Type} (timestamp_of : A -> Z) (data : list A)
        (start_timestamp end_timestamp : option Z) (delay : Q) (fuel : nat) :
  use_early_stopping start_timestamp end_timestamp = false ->
  (Z.to_nat (len data / 25 + 1) <= fuel)%nat ->
  let r := get_all_closed_positions timestamp_of (serve data) start_timestamp
                                    end_timestamp delay fuel in
  fst r = Returned data
  /\ request_count (snd r) = len data / 25 + 1
  /\ warning_count (snd r) = 0
  /\ ~ In EarlyStop (snd r).
Proof.
  intros Hnone Hf. cbv zeta. unfold get_all_closed_positions.
  destruct (closed_walk_on_mock timestamp_of data start_timestamp end_timestamp
              delay Hnone fuel 0 0%nat 0 0 []) as (H1 & H2 & H3);
    try reflexivity; try lia.
  - unfold len. lia.
  - rewrite Z.sub_0_r. exact Hf.
  - cbv zeta in H1, H2, H3. change (prefix data 0) with (@nil A) in *.
    destruct (closed_loop _ _ _ _ _ _ _ _ _ _ _) as [o tr].
    cbn [fst snd] in *. subst o. rewrite Hnone. cbn [fst snd].
    split; [reflexivity|]. split; [rewrite H2; change (request_count []) with 0;
                                   unfold closed_limit; lia|].
    cbn [filter] in H3.
    split.
    + unfold warning_count.
      assert (E : filter is_warning tr = []).
      { destruct (filter is_warning tr) as [|w l] eqn:Ew; [reflexivity|].
        assert (Hin : In w (filter is_warning tr)) by (rewrite Ew; now left).
        apply filter_In in Hin. destruct Hin as [Hin Hw].
        assert (Hin' : In w (filter (fun e => is_warning e || is_early_stop e) tr))
          by (apply filter_In; split; [exact Hin|now rewrite Hw]).
        rewrite H3 in Hin'. destruct Hin'. }
      now rewrite E.
    + intro Hin.
      assert (Hin' : In EarlyStop
                        (filter (fun e => is_warning e || is_early_stop e) tr))
        by (apply filter_In; split; [exact Hin|reflexivity]).
      rewrite H3 in Hin'. destruct Hin'.
Qed.

Lemma closed_walk_without_window_returns_everything_witness :
  let r := get_all_closed_positions (fun t : Z => t) (serve (numbered_records 60))
                                    (Some 0) None (1 # 2) 3 in
  fst r = Returned (numbered_records 60)
  /\ request_count (snd r) = len (numbered_records 60) / 25 + 1
  /\ warning_count (snd r) = 0
  /\ ~ In EarlyStop (snd r).
Proof.
  apply (closed_walk_without_window_returns_everything
           (fun t : Z => t) (numbered_records 60) (Some 0) None (1 # 2) 3%nat).
  - reflexivity.
  - vm_compute. lia.
Defined.

(** X6: with a date window, every position [get_all_closed_positions]
    returns has its timestamp inside it: not before a non-zero start and
    not after a non-zero end, whatever the server answers. *)
Theorem closed_positions_lie_in_window
        {A : Type} (timestamp_of : A -> Z) (ep : endpoint A)
        (start_timestamp end_timestamp : option Z) (delay : Q) (fuel : nat)
        (positions : list A) :
  use_early_stopping start_timestamp end_timestamp = true ->
  fst (get_all_closed_positions timestamp_of ep start_timestamp end_timestamp
                                delay fuel) = Returned positions ->
  forall pos, In pos positions ->
    (forall s, start_timestamp = Some s -> s <> 0 -> s <= timestamp_of pos)
    /\ (forall e, end_timestamp = Some e -> e <> 0 -> timestamp_of pos <= e).
Proof.
  intros Hstop Hret pos Hin. unfold get_all_closed_positions in Hret.
  destruct (closed_loop _ _ _ _ _ _ _ _ _ _ _) as [[all|e|] tr];
    try discriminate.
  rewrite Hstop in Hret. cbn [fst] in Hret. injection Hret as <-.
  apply filter_In in Hin. destruct Hin as [_ Hr].
  unfold in_range in Hr. apply andb_true_iff in Hr. destruct Hr as [Hs He].
  split.
  - intros s -> Hne. cbn [truthy] in Hs.
    apply Z.eqb_neq in Hne. rewrite Hne in Hs. cbn in Hs. now apply Z.leb_le.
  - intros e -> Hne. cbn [truthy] in He.
    apply Z.eqb_neq in Hne. rewrite Hne in He. cbn in He. now apply Z.leb_le.
Qed.

Lemma closed_positions_lie_in_window_witness :
  (forall s, Some 10 = Some s -> s <> 0 -> s <= 50)
  /\ (forall e, Some 100 = Some e -> e <> 0 -> 50 <= e).
Proof.
  apply (closed_positions_lie_in_window
           (fun t : Z => t) (serve [500; 50; 5]) (Some 10) (Some 100) (1 # 2)
           3%nat [50]).
  - reflexivity.
  - reflexivity.
  - now left.
Defined.

Lemma prefix_incl {A : Type} (data : list A) (a b : Z) (x : A) :
  a <= b -> In x (prefix data a) -> In x (prefix data b).
Proof.
  intros Hab Hin. replace (prefix data a) with
      (firstn (Z.to_nat a) (prefix data b)) in Hin
    by (rewrite prefix_prefix; f_equal; lia).
  revert Hin. generalize (prefix data b) (Z.to_nat a). intros l n.
  revert l. induction n as [|n IH]; intros [|y l]; simpl; try tauto.
  intros [H|H]; [now left|right; now apply IH].
Qed.

Section EarlyStopOnMock.
Context {A : Type}.
Variable timestamp_of : A -> Z.
Variable data : list A.
Variables start_timestamp end_timestamp : option Z.
Variable delay : Q.
Hypothesis Hstop : use_early_stopping start_timestamp end_timestamp = true.
Hypothesis Hlen : 125 <= len data.
Hypothesis Hold :
  forall pos, In pos (prefix data 125) ->
              in_range start_timestamp end_timestamp (timestamp_of pos) = false.

Lemma page_outside_window k :
  0 <= k < 5 ->
  batch_has_valid timestamp_of start_timestamp end_timestamp
                  (page data closed_limit (closed_limit * k)) = false.
Proof.
  intro Hk. unfold batch_has_valid.
  destruct (existsb _ _) eqn:E; [|reflexivity].
  apply existsb_exists in E. destruct E as (pos & Hin & Hr).
  rewrite Hold in Hr; [discriminate|].
  apply (prefix_incl data (closed_limit * k + closed_limit)).
  - unfold closed_limit. lia.
  - rewrite <- prefix_page by (unfold closed_limit; lia).
    apply in_or_app. now right.
Qed.

Lemma early_stop_walk :
  forall fuel k n tr,
    0 <= k < 5 ->
    (Z.to_nat (5 - k) <= fuel)%nat ->
    let r := closed_loop timestamp_of (serve data) start_timestamp
                         end_timestamp delay fuel n (closed_limit * k) k
                         (prefix data (closed_limit * k)) tr in
    fst r = Returned (prefix data 125)
    /\ request_count (snd r) = request_count tr + (5 - k)
    /\ In EarlyStop (snd r).
Proof.
  assert (H25 : closed_limit = 25) by reflexivity.
  induction fuel as [|fuel IH]; intros k n tr Hk Hf; cbv zeta; [lia|].
  rewrite (closed_loop_page _ _ _ _ _ _ _ _ _ _ _ _ (serve_page data n _ _)).
  rewrite Hstop, page_outside_window by exact Hk.
  cbv zeta. cbn [negb andb].
  rewrite len_page, prefix_page by lia.
  replace (Z.min closed_limit (Z.max 0 (len data - closed_limit * k)))
    with 25 by lia.
  change (25 =? 0) with false. change (25 <? closed_limit) with false.
  cbv iota.
  destruct (5 <=? k + 1) eqn:E5.
  - apply Z.leb_le in E5. assert (k = 4) by lia. subst k.
    cbn [fst snd]. repeat split.
    + rewrite !request_count_app. cbn. lia.
    + apply in_or_app. right. now left.
  - apply Z.leb_gt in E5.
    replace (closed_limit * k + closed_limit) with (closed_limit * (k + 1))
      by lia.
    destruct (IH (k + 1) (S n)
                 ((tr ++ [Request closed_limit (closed_limit * k)])
                  ++ [Sleep delay])) as (H1 & H2 & H3); try lia.
    cbv zeta in H1, H2, H3. rewrite H1, H2.
    rewrite !request_count_app.
    change (request_count [Request closed_limit (closed_limit * k)]) with 1.
    change (request_count [Sleep delay]) with 0.
    repeat split; [lia|exact H3].
Qed.
End EarlyStopOnMock.

(** X7: with a date window, when the first 125 records of the server (five
    pages) all lie outside the window, [get_all_closed_positions] stops
    after five requests and returns nothing, whatever records follow (also
    records inside the window). *)
Theorem closed_walk_gives_up_after_five_pages_outside_window
        {A : Type} (timestamp_of : A -> Z) (data : list A)
        (start_timestamp end_timestamp : option Z) (delay : Q) (fuel : nat) :
  use_early_stopping start_timestamp end_timestamp = true ->
  125 <= len data ->
  (forall pos, In pos (prefix data 125) ->
               in_range start_timestamp end_timestamp (timestamp_of pos)
               = false) ->
  (5 <= fuel)%nat ->
  let r := get_all_closed_positions timestamp_of (serve data) start_timestamp
                                    end_timestamp delay fuel in
  fst r = Returned []
  /\ request_count (snd r) = 5
  /\ In EarlyStop (snd r).
Proof.
  intros Hstop Hlen Hold Hf. cbv zeta. unfold get_all_closed_positions.
  destruct (early_stop_walk timestamp_of data start_timestamp end_timestamp
              delay Hstop Hlen Hold fuel 0 0%nat []) as (H1 & H2 & H3);
    [lia|exact Hf|].
  cbv zeta in H1, H2, H3. change (closed_limit * 0) with 0 in *.
  change (prefix data 0) with (@nil A) in *.
  destruct (closed_loop _ _ _ _ _ _ _ _ _ _ _) as [o tr].
  cbn [fst snd] in *. subst o. rewrite Hstop. cbn [fst snd].
  split; [|split; [rewrite H2; reflexivity|exact H3]].
  f_equal.
  destruct (filter _ (prefix data 125)) as [|x l] eqn:E; [reflexivity|].
  assert (Hin : In x (filter (fun pos => in_range start_timestamp end_timestamp
                                                  (timestamp_of pos))
                             (prefix data 125))) by (rewrite E; now left).
  apply filter_In in Hin. destruct Hin as [Hin Hr].
  rewrite Hold in Hr by exact Hin. discriminate.
Qed.

(** 125 positions closed after the window, then one inside it. *)
Definition recent_then_wanted : list Z := repeat 1000 125 ++ [100].

Lemma closed_walk_gives_up_after_five_pages_outside_window_witness :
  In 100 recent_then_wanted
  /\ in_range (Some 50) (Some 500) 100 = true
  /\ let r := get_all_closed_positions (fun t : Z => t) (serve recent_then_wanted)
                                       (Some 50) (Some 500) (1 # 2) 6 in
     fst r = Returned []
     /\ request_count (snd r) = 5
     /\ In EarlyStop (snd r).
Proof.
  split; [apply in_or_app; right; now left|].
  split; [reflexivity|].
  apply (closed_walk_gives_up_after_five_pages_outside_window
           (fun t : Z => t) recent_then_wanted (Some 50) (Some 500) (1 # 2)
           6%nat).
  - reflexivity.
  - vm_compute. discriminate.
  - intros pos Hin.
    assert (Hp : pos = 1000).
    { change (prefix recent_then_wanted 125) with (repeat 1000 125) in Hin.
      now apply repeat_spec in Hin. }
    subst pos. reflexivity.
  - apply le_S, Nat.le_refl.
Defined.

(* ================================================================== *)
(** ** [get_user_trades]: the filter pair *)

(** X8: [get_user_trades] raises [ValueError], without sending a request,
    exactly when one of [filter_type] (a non-empty string) and
    [filter_amount] (any number, 0 included) is given without the other;
    otherwise it sends one query with the given limit and offset that
    carries both filter keys or neither. *)
Theorem get_user_trades_filter_pair
        {A : Type} (http : trade_query -> result (list A))
        (address : option string) (limit offset : Z) (takerOnly : bool)
        (market : option string) (event_id : option Z)
        (maker_address side filter_type : option string)
        (filter_amount : option Q) :
  let r := get_user_trades http address limit offset takerOnly market event_id
                           maker_address side filter_type filter_amount in
  let typed := is_some (given_str filter_type) in
  let amount := is_some filter_amount in
  (xorb typed amount = true ->
   r = (ValueError filter_message, []))
  /\ (xorb typed amount = false ->
      exists q, r = (Answer (http q), [q])
                /\ q_limit q = limit /\ q_offset q = offset
                /\ is_some (q_filterType q) = typed
                /\ is_some (q_filterAmount q) = amount
                /\ (typed = true -> q_filterType q = filter_type
                                    /\ q_filterAmount q = filter_amount)).
Proof.
  cbv zeta. unfold get_user_trades, trade_params.
  destruct (is_some (given_str filter_type)) eqn:Et;
    destruct (is_some filter_amount) eqn:Ea; cbn [andb orb xorb];
    (split; [intro H; try discriminate; reflexivity|]);
    intro H; try discriminate.
  - eexists. split; [reflexivity|]. cbn.
    assert (is_some filter_type = true)
      by (destruct filter_type as [[|]|]; try discriminate; reflexivity).
    repeat split; assumption.
  - eexists. split; [reflexivity|]. cbn. repeat split; discriminate.
Qed.

Lemma get_user_trades_filter_pair_witness :
  get_user_trades (fun _ => Ok [1; 2]) (Some "0xabc"%string) 500 0 false
                  None None None None (Some "CASH"%string) None
  = (ValueError filter_message, [])
  /\ get_user_trades (fun _ => Ok [1; 2]) (Some "0xabc"%string) 500 0 false
                     None None None None (Some EmptyString) (Some 0%Q)
     = (ValueError filter_message, []).
Proof.
  split.
  - apply (proj1 (get_user_trades_filter_pair
                    (fun _ => Ok [1; 2]) (Some "0xabc"%string) 500 0 false
                    None None None None (Some "CASH"%string) None)).
    reflexivity.
  - apply (proj1 (get_user_trades_filter_pair
                    (fun _ => Ok [1; 2]) (Some "0xabc"%string) 500 0 false
                    None None None None (Some EmptyString) (Some 0%Q))).
    reflexivity.
Defined.

(* ================================================================== *)
(** ** [get_all_user_trades] and [get_all_user_activity] on any server *)

Lemma trades_loop_offsets {A : Type} (ep : endpoint A) m d :
  forall fuel k n offset all tr,
    offset = trades_limit * k ->
    0 <= k < 20 ->
    (Z.to_nat (20 - k) <= fuel)%nat ->
    let r := trades_loop ep m d fuel n offset all tr in
    fst r <> OutOfFuel
    /\ request_count (snd r) <= request_count tr + (20 - k)
    /\ (forall l o, In (Request l o) (snd r) ->
                    In (Request l o) tr
                    \/ (l = trades_limit
                        /\ exists j, o = trades_limit * j /\ k <= j < 20)).
Proof.
  induction fuel as [|fuel IH]; intros k n offset all tr Ho Hk Hf; [lia|].
  cbv zeta. rewrite trades_loop_unfold.
  assert (Hreq : request_count (tr ++ [Request trades_limit offset])
                 = request_count tr + 1)
    by (rewrite request_count_app; reflexivity).
  assert (Hin : forall l o,
             In (Request l o) (tr ++ [Request trades_limit offset]) ->
             In (Request l o) tr
             \/ (l = trades_limit
                 /\ exists j, o = trades_limit * j /\ k <= j < 20)).
  { intros l o H. apply in_app_or in H. destruct H as [H|[H|[]]]; [now left|].
    injection H as <- <-. right. split; [reflexivity|]. exists k. lia. }
  assert (Hstop : forall (o : outcome A),
             o <> OutOfFuel ->
             fst (o, tr ++ [Request trades_limit offset]) <> OutOfFuel
             /\ request_count (snd (o, tr ++ [Request trades_limit offset]))
                <= request_count tr + (20 - k)
             /\ (forall l o', In (Request l o')
                                 (snd (o, tr ++ [Request trades_limit offset])) ->
                              In (Request l o') tr
                              \/ (l = trades_limit
                                  /\ exists j, o' = trades_limit * j
                                               /\ k <= j < 20))).
  { intros o Hne. cbn [fst snd]. repeat split; [exact Hne|lia|exact Hin]. }
  destruct (ep n trades_limit offset) as [batch|e];
    [|apply Hstop; discriminate].
  destruct (len batch <? trades_limit); [apply Hstop; discriminate|].
  destruct (reached m _); [apply Hstop; discriminate|].
  destruct (api_offset_max <=? offset + trades_limit) eqn:Ecap.
  { cbn [fst snd]. repeat split; [discriminate| |].
    - rewrite request_count_app, Hreq. change (request_count [Warning _]) with 0.
      lia.
    - intros l o H. apply in_app_or in H.
      destruct H as [H|[H|[]]]; [now apply Hin|discriminate]. }
  apply Z.leb_gt in Ecap. unfold api_offset_max, trades_limit in Ecap.
  assert (Hk' : 0 <= k + 1 < 20) by (unfold trades_limit in Ho; lia).
  destruct (IH (k + 1) (S n) (offset + trades_limit) (all ++ batch)
               ((tr ++ [Request trades_limit offset]) ++ [Sleep d]))
    as (H1 & H2 & H3); [unfold trades_limit in *; lia|exact Hk'|lia|].
  repeat split; [exact H1| |].
  - rewrite request_count_app, Hreq in H2.
    change (request_count [Sleep d]) with 0 in H2. lia.
  - intros l o H. apply H3 in H. destruct H as [H|[Hl [j [Hj Hjk]]]].
    + apply in_app_or in H. destruct H as [H|[H|[]]]; [now apply Hin|discriminate].
    + right. split; [exact Hl|]. exists j. lia.
Qed.

(** X9: whatever the server answers, [get_all_user_trades] ends within 20
    requests, and every request asks for 500 records at an offset that is
    a multiple of 500 between 0 and 9500. *)
Theorem trade_walk_stays_below_offset_limit
        {A : Type} (ep : endpoint A) (max_results : option Z)
        (rate_limit_delay : Q) (fuel : nat) :
  (20 <= fuel)%nat ->
  let r := get_all_user_trades ep max_results rate_limit_delay fuel in
  fst r <> OutOfFuel
  /\ request_count (snd r) <= 20
  /\ (forall l o, In (Request l o) (snd r) ->
                  l = 500 /\ 0 <= o <= 9500 /\ o mod 500 = 0).
Proof.
  intro Hf.
  destruct (trades_loop_offsets ep max_results rate_limit_delay fuel 0 0%nat 0
              [] [] eq_refl ltac:(lia) ltac:(lia)) as (H1 & H2 & H3).
  repeat split; try exact H1.
  - exact H2.
  - apply H3 in H. destruct H as [[]|[Hl _]]. exact Hl.
  - apply H3 in H. destruct H as [[]|[_ [j [Hj Hjk]]]].
    unfold trades_limit in Hj. lia.
  - apply H3 in H. destruct H as [[]|[_ [j [Hj Hjk]]]].
    unfold trades_limit in Hj. lia.
  - apply H3 in H. destruct H as [[]|[_ [j [Hj Hjk]]]].
    unfold trades_limit in Hj. subst o. rewrite Z.mul_comm. apply Z.mod_mul. lia.
Qed.

Lemma trade_walk_stays_below_offset_limit_witness :
  let r := get_all_user_trades (serve (numbered_records 700)) None (1 # 10) 20 in
  fst r <> OutOfFuel
  /\ request_count (snd r) <= 20
  /\ (forall l o, In (Request l o) (snd r) ->
                  l = 500 /\ 0 <= o <= 9500 /\ o mod 500 = 0).
Proof.
  apply (trade_walk_stays_below_offset_limit
           (serve (numbered_records 700)) None (1 # 10) 20%nat).
  apply Nat.le_refl.
Defined.

Lemma activity_loop_unfold {A : Type} (ep : endpoint A) m fuel n offset all tr :
  activity_loop ep m (S fuel) n offset all tr
  = match ep n activity_limit offset with
    | Raise e => (Raised e, tr ++ [Request activity_limit offset])
    | Ok batch =>
      if len batch <? activity_limit
      then (Returned (all ++ batch), tr ++ [Request activity_limit offset])
      else if reached m (len (all ++ batch))
      then (Returned (truncate m (all ++ batch)),
            tr ++ [Request activity_limit offset])
      else if api_offset_max <=? offset + activity_limit
      then (Returned (all ++ batch),
            (tr ++ [Request activity_limit offset])
            ++ [Warning (offset + activity_limit)])
      else activity_loop ep m fuel (S n) (offset + activity_limit) (all ++ batch)
                         (tr ++ [Request activity_limit offset])
    end.
Proof. reflexivity. Qed.

Definition is_sleep (e : event) : bool :=
  match e with Sleep _ => true | _ => false end.

(** A trace with the pauses left out. *)
Definition without_sleeps (tr : list event) : list event :=
  filter (fun e => negb (is_sleep e)) tr.

Lemma without_sleeps_app tr1 tr2 :
  without_sleeps (tr1 ++ tr2) = without_sleeps tr1 ++ without_sleeps tr2.
Proof. apply filter_app. Qed.

Lemma activity_loop_is_trades_loop {A : Type} (ep : endpoint A) m d :
  forall fuel n offset all tr tr',
    without_sleeps tr' = tr ->
    fst (activity_loop ep m fuel n offset all tr)
    = fst (trades_loop ep m d fuel n offset all tr')
    /\ snd (activity_loop ep m fuel n offset all tr)
       = without_sleeps (snd (trades_loop ep m d fuel n offset all tr')).
Proof.
  induction fuel as [|fuel IH]; intros n offset all tr tr' Htr.
  - simpl. now split.
  - rewrite activity_loop_unfold, trades_loop_unfold.
    change activity_limit with trades_limit.
    destruct (ep n trades_limit offset) as [batch|e].
    + destruct (len batch <? trades_limit).
      { cbn [fst snd]. rewrite without_sleeps_app, Htr. now split. }
      destruct (reached m _).
      { cbn [fst snd]. rewrite without_sleeps_app, Htr. now split. }
      destruct (api_offset_max <=? offset + trades_limit).
      { cbn [fst snd]. rewrite !without_sleeps_app, Htr. now split. }
      apply IH. rewrite !without_sleeps_app, Htr. simpl. now rewrite app_nil_r.
    + cbn [fst snd]. rewrite without_sleeps_app, Htr. now split.
Qed.

(** X10: [get_all_user_activity] is [get_all_user_trades] without the
    pauses: on the same endpoint and with the same [max_results] it comes
    to the same result, and its trace is the trace of the trade walk with
    the sleeps left out; it never sleeps. *)
Theorem activity_walk_is_trade_walk_without_pauses
        {A : Type} (ep : endpoint A) (max_results : option Z)
        (rate_limit_delay : Q) (fuel : nat) :
  fst (get_all_user_activity ep max_results fuel)
  = fst (get_all_user_trades ep max_results rate_limit_delay fuel)
  /\ snd (get_all_user_activity ep max_results fuel)
     = without_sleeps
         (snd (get_all_user_trades ep max_results rate_limit_delay fuel))
  /\ (forall s, ~ In (Sleep s) (snd (get_all_user_activity ep max_results fuel))).
Proof.
  destruct (activity_loop_is_trades_loop ep max_results rate_limit_delay
              fuel 0%nat 0 [] [] [] eq_refl) as [H1 H2].
  split; [exact H1|]. split; [exact H2|].
  intros s Hin. unfold get_all_user_activity in Hin. rewrite H2 in Hin.
  apply filter_In in Hin. destruct Hin as [_ Hs]. discriminate.
Qed.

Lemma request_count_without_sleeps tr :
  request_count (without_sleeps tr) = request_count tr.
Proof.
  unfold request_count, without_sleeps. f_equal. f_equal.
  induction tr as [|e tr IH]; [reflexivity|].
  destruct e; simpl; now rewrite IH.
Qed.

(** X11: whatever the server answers, [get_all_user_activity] ends within
    20 requests, each for 500 records at an offset that is a multiple of
    500 between 0 and 9500. *)
Theorem activity_walk_stays_below_offset_limit
        {A : Type} (ep : endpoint A) (max_results : option Z) (fuel : nat) :
  (20 <= fuel)%nat ->
  let r := get_all_user_activity ep max_results fuel in
  fst r <> OutOfFuel
  /\ request_count (snd r) <= 20
  /\ (forall l o, In (Request l o) (snd r) ->
                  l = 500 /\ 0 <= o <= 9500 /\ o mod 500 = 0).
Proof.
  intro Hf. cbv zeta.
  destruct (activity_loop_is_trades_loop ep max_results 0 fuel 0%nat 0 [] [] []
              eq_refl) as [E1 E2].
  destruct (trades_loop_offsets ep max_results 0 fuel 0 0%nat 0
              [] [] eq_refl ltac:(lia) ltac:(lia)) as (H1 & H2 & H3).
  unfold get_all_user_activity. rewrite E1, E2, request_count_without_sleeps.
  split; [exact H1|]. split; [exact H2|].
  intros l o Hin. apply filter_In in Hin. destruct Hin as [Hin _].
  apply H3 in Hin. destruct Hin as [[]|[Hl [j [Hj Hjk]]]].
  unfold trades_limit in Hl, Hj. subst l o. repeat split; try lia.
  rewrite Z.mul_comm. apply Z.mod_mul. lia.
Qed.

Lemma activity_walk_stays_below_offset_limit_witness :
  let r := get_all_user_activity (serve (numbered_records 700)) None 20 in
  fst r <> OutOfFuel
  /\ request_count (snd r) <= 20
  /\ (forall l o, In (Request l o) (snd r) ->
                  l = 500 /\ 0 <= o <= 9500 /\ o mod 500 = 0).
Proof.
  apply (activity_walk_stays_below_offset_limit
           (serve (numbered_records 700)) None 20%nat).
  apply Nat.le_refl.
Defined.

(* ================================================================== *)
(** ** [get_user_pnl] *)

(** The values a key has in the positions that carry it. *)
Definition present (key : pnl_position -> option Q)
           (positions : list pnl_position) : list Q :=
  flat_map (fun p => match key p with Some x => [x] | None => [] end) positions.

Lemma pnl_totals_fold (positions : list pnl_position) (a b c : Q) :
  fold_left
    (fun '(total_pnl, total_initial_value, total_current_value) position =>
       (add_if_present total_pnl (p_cashPnl position),
        add_if_present total_initial_value (p_initialValue position),
        add_if_present total_current_value (p_currentValue position)))
    positions (a, b, c)
  = (fold_left Qplus (present p_cashPnl positions) a,
     fold_left Qplus (present p_initialValue positions) b,
     fold_left Qplus (present p_currentValue positions) c).
Proof.
  revert a b c. induction positions as [|p l IH]; intros a b c; [reflexivity|].
  cbn [fold_left]. rewrite IH. unfold present. cbn [flat_map].
  rewrite !fold_left_app.
  destruct (p_cashPnl p), (p_initialValue p), (p_currentValue p); reflexivity.
Qed.

Lemma pnl_totals_sums (positions : list pnl_position) :
  pnl_totals positions
  = (Qsum (present p_cashPnl positions),
     Qsum (present p_initialValue positions),
     Qsum (present p_currentValue positions)).
Proof. apply pnl_totals_fold. Qed.

(** X12: [get_user_pnl] issues one request, for the first 500 positions;
    each total is the sum of its key over the positions of that page that
    carry the key, and [percent_pnl] is always a number, 0 unless
    [total_initial_value] is positive. *)
Theorem get_user_pnl_reads_first_page (data : list pnl_position) :
  exists p,
    get_user_pnl (serve data) = (Ok p, [Request 500 0])
    /\ total_cash_pnl p = Qsum (present p_cashPnl (prefix data 500))
    /\ total_initial_value p = Qsum (present p_initialValue (prefix data 500))
    /\ total_current_value p = Qsum (present p_currentValue (prefix data 500))
    /\ (exists q, percent_pnl p = Some q)
    /\ (Qlt_bool 0 (total_initial_value p) = false -> percent_pnl p = Some 0%Q).
Proof.
  exists (pnl_of (prefix data 500)).
  split; [reflexivity|].
  unfold pnl_of. rewrite pnl_totals_sums.
  cbn [total_cash_pnl total_initial_value total_current_value percent_pnl].
  repeat split.
  - destruct (Qlt_bool 0 _) eqn:E; [|now eexists].
    apply Qlt_bool_true in E.
    rewrite py_div_defined; [now eexists|].
    intro H. rewrite H in E. now apply Qlt_irrefl in E.
  - intro E. now rewrite E.
Qed.

Definition sample_pnl_positions : list pnl_position :=
  [ {| p_cashPnl := Some 4%Q; p_initialValue := None;
       p_currentValue := Some 9%Q |};
    {| p_cashPnl := None; p_initialValue := None;
       p_currentValue := Some 1%Q |} ].

Lemma get_user_pnl_reads_first_page_witness :
  exists p,
    get_user_pnl (serve sample_pnl_positions) = (Ok p, [Request 500 0])
    /\ total_cash_pnl p = Qsum [4%Q]
    /\ percent_pnl p = Some 0%Q.
Proof.
  destruct (get_user_pnl_reads_first_page sample_pnl_positions)
    as (p & H1 & H2 & H3 & _ & _ & H6).
  exists p. split; [exact H1|]. split; [exact H2|].
  apply H6. rewrite H3. reflexivity.
Defined.

(* ================================================================== *)
(** ** [scrape_with_retry] *)

(** The rows of the daily file ([None]: no file yet). *)
Definition stored (store : option (list snapshot_row)) : list snapshot_row :=
  match store with Some rows => rows | None => [] end.

Definition attempts_from (a : Z) (k : nat) : list Z :=
  map (fun j => a + Z.of_nat j) (seq 0 k).

Lemma attempts_from_snoc (k : nat) :
  attempts_from 0 (S k) = attempts_from 0 k ++ [Z.of_nat k].
Proof. unfold attempts_from. now rewrite seq_S, map_app. Qed.

Lemma length_attempts_from a k : length (attempts_from a k) = k.
Proof. unfold attempts_from. now rewrite length_map, length_seq. Qed.

(** The rows full attempt [a] collects, and what it comes to when there
    is no daily file to read back. *)
Definition attempt_rows (apis : Z -> leaderboard_api) (timestamps : Z -> string)
           (a : Z) : list snapshot_row :=
  all_data (final (daily_snapshot apis timestamps a None false)).

Definition attempt_result_of (apis : Z -> leaderboard_api)
           (timestamps : Z -> string) (a : Z) : result (list snapshot_row) :=
  returned (daily_snapshot apis timestamps a None false).

(** The daily file as full attempt number [j], counted from 0, finds it:
    the file of the start for the first attempt, and afterwards the rows of
    all attempts so far behind the old ones, under the header the first
    attempt found or wrote. *)
Definition file_before (rows_of_attempt : Z -> list snapshot_row)
           (store : option (list snapshot_row)) (headed : bool) (j : nat)
  : option (list snapshot_row) * bool :=
  match j with
  | O => (store, headed)
  | S _ =>
    (Some (stored store ++ flat_map rows_of_attempt (attempts_from 0 j)),
     match store with
     | Some _ => headed
     | None => 0 <? len (rows_of_attempt 0)
     end)
  end.

(** What full attempt [j] comes to: the exception of the read-back of the
    file it finds, or else its own result. *)
Definition outcome_of_attempt (rows_of_attempt : Z -> list snapshot_row)
           (fresh_result : Z -> result (list snapshot_row))
           (store : option (list snapshot_row)) (headed : bool) (j : nat)
  : result (list snapshot_row) :=
  match file_error (fst (file_before rows_of_attempt store headed j))
                   (snd (file_before rows_of_attempt store headed j))
                   (rows_of_attempt (Z.of_nat j)) with
  | Some e => Raise e
  | None => fresh_result (Z.of_nat j)
  end.

(** The rows an attempt collects do not depend on the daily file; what it
    returns depends on it through the read-back only. *)
Lemma daily_snapshot_store apis timestamps a store headed :
  store_after (daily_snapshot apis timestamps a store headed)
  = Some (stored store ++ attempt_rows apis timestamps a).
Proof.
  unfold attempt_rows, daily_snapshot.
  destruct (snapshot_run_spec (apis a) (timestamps a) 100 3 5 store headed
              (Some ["day"%string])) as (_ & Hd & _ & _ & _ & Hs & _).
  destruct (snapshot_run_spec (apis a) (timestamps a) 100 3 5 None false
              (Some ["day"%string])) as (_ & Hd' & _).
  cbv zeta in Hd, Hs, Hd'. rewrite Hs, Hd, Hd'.
  destruct store; cbn [stored app]; reflexivity.
Qed.

Lemma daily_snapshot_headed apis timestamps a store headed :
  headed_after (daily_snapshot apis timestamps a store headed)
  = match store with
    | Some _ => headed
    | None => 0 <? len (attempt_rows apis timestamps a)
    end.
Proof.
  unfold attempt_rows, daily_snapshot.
  destruct (snapshot_run_spec (apis a) (timestamps a) 100 3 5 store headed
              (Some ["day"%string])) as (_ & Hd & _ & _ & _ & _ & _ & Hh).
  destruct (snapshot_run_spec (apis a) (timestamps a) 100 3 5 None false
              (Some ["day"%string])) as (_ & Hd' & _).
  cbv zeta in Hd, Hh, Hd'. rewrite Hh, Hd, Hd'. reflexivity.
Qed.

Lemma daily_snapshot_returned apis timestamps a store headed :
  returned (daily_snapshot apis timestamps a store headed)
  = match file_error store headed (attempt_rows apis timestamps a) with
    | Some e => Raise e
    | None => attempt_result_of apis timestamps a
    end.
Proof.
  unfold attempt_result_of, attempt_rows, daily_snapshot.
  destruct (snapshot_run_spec (apis a) (timestamps a) 100 3 5 store headed
              (Some ["day"%string])) as (Hf & Hd & _ & Ht & _ & _ & Hr & _).
  destruct (snapshot_run_spec (apis a) (timestamps a) 100 3 5 None false
              (Some ["day"%string])) as (Hf' & Hd' & _ & Ht' & _ & _ & Hr' & _).
  cbv zeta in Hf, Hd, Ht, Hr, Hf', Hd', Ht', Hr'.
  rewrite Hr, Hr', Hf, Hf', Hd, Hd', Ht, Ht'.
  change (file_error None false ?x) with (@None exn). reflexivity.
Qed.

Section DailyLoop.
Variable apis : Z -> leaderboard_api.
Variable timestamps : Z -> string.
Variable max_retries : Z.
Variable delay : Q.
Variable store : option (list snapshot_row).
Variable headed : bool.

(** All the loop uses of a full attempt: the rows it appends to the file,
    the header it leaves and what it returns or raises. *)
Variable rows_of_attempt : Z -> list snapshot_row.
Variable fresh_result : Z -> result (list snapshot_row).
Hypothesis Hstore :
  forall a s h,
    store_after (daily_snapshot apis timestamps a s h)
    = Some (stored s ++ rows_of_attempt a).
Hypothesis Hheaded :
  forall a s h,
    headed_after (daily_snapshot apis timestamps a s h)
    = match s with Some _ => h | None => 0 <? len (rows_of_attempt a) end.
Hypothesis Hreturned :
  forall a s h,
    returned (daily_snapshot apis timestamps a s h)
    = match file_error s h (rows_of_attempt a) with
      | Some e => Raise e
      | None => fresh_result a
      end.

Let file := file_before rows_of_attempt store headed.
Let outcome := outcome_of_attempt rows_of_attempt fresh_result store headed.

Lemma file_step (j : nat) :
  Some (stored (fst (file j)) ++ rows_of_attempt (Z.of_nat j))
  = fst (file (S j))
  /\ match fst (file j) with
     | Some _ => snd (file j)
     | None => 0 <? len (rows_of_attempt (Z.of_nat j))
     end = snd (file (S j)).
Proof.
  unfold file. destruct j as [|j].
  - cbn [file_before fst snd]. split; [|reflexivity].
    rewrite attempts_from_snoc. cbn. now rewrite app_nil_r.
  - cbn [file_before fst snd stored]. split; [|reflexivity].
    rewrite (attempts_from_snoc (S j)), flat_map_app. cbn [flat_map].
    now rewrite app_nil_r, <- app_assoc.
Qed.

Lemma daily_loop_spec :
  forall remaining j0 log,
    (0 < remaining)%nat ->
    Z.of_nat j0 + Z.of_nat remaining = max_retries ->
    let run := daily_loop apis timestamps max_retries delay remaining
                          (Z.of_nat j0) (fst (file j0)) (snd (file j0)) log in
    exists k,
      (j0 < k <= j0 + remaining)%nat
      /\ length (filter is_start (daily_log run))
         = (length (filter is_start log) + (k - j0))%nat
      /\ filter is_wait (daily_log run)
         = filter is_wait log ++ repeat (FullRetryWait delay) (k - j0 - 1)
      /\ daily_store run = fst (file k)
      /\ daily_headed run = snd (file k)
      /\ daily_result run = Some (outcome (k - 1)%nat)
      /\ (forall j, (j0 <= j < k - 1)%nat -> raises (outcome j))
      /\ (raises (outcome (k - 1)%nat) -> k = (j0 + remaining)%nat).
Proof.
  induction remaining as [|remaining IH]; intros j0 log Hpos Hsum; [lia|].
  cbv zeta. cbn [daily_loop]. rewrite Hreturned, Hstore, Hheaded.
  destruct (file_step j0) as [Es Eh]. rewrite Es, Eh.
  assert (Eo : outcome j0
               = match file_error (fst (file j0)) (snd (file j0))
                                  (rows_of_attempt (Z.of_nat j0)) with
                 | Some e => Raise e
                 | None => fresh_result (Z.of_nat j0)
                 end) by reflexivity.
  rewrite <- Eo.
  assert (E1 : (S j0 - 1 = j0)%nat) by lia.
  destruct (outcome j0) as [snapshot_df|e] eqn:Eres.
  - exists (S j0). cbn [daily_result daily_store daily_headed daily_log].
    rewrite E1, Eres.
    split; [lia|]. split.
    { rewrite !filter_app, !length_app.
      destruct (len snapshot_df <? 800);
        cbn [filter is_start length app]; lia. }
    split.
    { rewrite !filter_app. replace (S j0 - j0 - 1)%nat with 0%nat by lia.
      destruct (len snapshot_df <? 800); cbn; now rewrite !app_nil_r. }
    split; [reflexivity|]. split; [reflexivity|]. split; [reflexivity|].
    split; [intros j Hj; lia|].
    intros [e He]. discriminate.
  - destruct (Z.of_nat j0 <? max_retries - 1) eqn:Elast.
    + apply Z.ltb_lt in Elast.
      replace (Z.of_nat j0 + 1) with (Z.of_nat (S j0)) by lia.
      destruct (IH (S j0)
                   (((log ++ [ScrapeStarting (Z.of_nat j0)])
                     ++ [ScrapeFailed (Z.of_nat j0)])
                    ++ [FullRetryWait delay]))
        as (k & Hk & Hs & Hw & Hst & Hh & Hr & Hf & Hl); [lia|lia|].
      cbv zeta in Hs, Hw, Hst, Hh, Hr, Hl.
      exists k. rewrite Hs, Hw, Hst, Hh, Hr.
      split; [lia|]. split.
      { rewrite !filter_app, !length_app.
        cbn [filter is_start length app]. lia. }
      split.
      { rewrite !filter_app. cbn. rewrite <- !app_assoc. cbn.
        replace (k - j0 - 1)%nat with (S (k - S j0 - 1)) by lia.
        reflexivity. }
      split; [reflexivity|]. split; [reflexivity|]. split; [reflexivity|].
      split.
      { intros j Hj. destruct (Nat.eq_dec j j0) as [->|Hne].
        - rewrite Eres. now exists e.
        - apply Hf. lia. }
      intro H. rewrite (Hl H). lia.
    + apply Z.ltb_ge in Elast.
      exists (S j0). cbn [daily_result daily_store daily_headed daily_log].
      rewrite E1, Eres.
      split; [lia|]. split.
      { rewrite !filter_app, !length_app.
        cbn [filter is_start length app]. lia. }
      split.
      { rewrite !filter_app. replace (S j0 - j0 - 1)%nat with 0%nat by lia.
        cbn. now rewrite !app_nil_r. }
      split; [reflexivity|]. split; [reflexivity|]. split; [reflexivity|].
      split; [intros j Hj; lia|].
      intros _. lia.
Qed.

(** After a first attempt that created the file without collecting a row,
    the file has no header line, and the read-back of every later attempt
    fails unless a cell of the first row is the text [timestamp]. *)
Lemma retry_after_empty_attempt (j : nat) :
  store = None ->
  rows_of_attempt 0 = [] ->
  (0 < j)%nat ->
  (forall r, In r (flat_map rows_of_attempt (attempts_from 0 (S j))) ->
             names_timestamp r = false) ->
  outcome j = Raise EmptyDataError
  \/ outcome j = Raise (KeyError "timestamp").
Proof.
  intros Hnone Hrows Hj Hnames. unfold outcome, outcome_of_attempt.
  destruct j as [|j]; [lia|].
  cbn [file_before fst snd]. rewrite Hnone, Hrows.
  change (0 <? len (@nil snapshot_row)) with false.
  cbn [stored app file_error read_back].
  rewrite attempts_from_snoc, flat_map_app in Hnames.
  cbn [flat_map] in Hnames. rewrite app_nil_r in Hnames.
  destruct (flat_map rows_of_attempt (attempts_from 0 (S j))
            ++ rows_of_attempt (Z.of_nat (S j))) as [|r l];
    [now left|].
  rewrite (Hnames r (or_introl eq_refl)). now right.
Qed.
End DailyLoop.

(** X13: with [max_retries > 0], [scrape_with_retry] makes between 1 and
    [max_retries] full attempts, stops at the first that does not raise and
    ends with the exception of the last one when all fail; it waits [delay]
    seconds between two attempts.  The rows of every attempt, the failed
    ones included, are left in the daily file, and an attempt comes to the
    exception of the read-back of that file where it fails.  So when the
    job starts without a file and the first attempt collects no row, every
    later attempt raises [EmptyDataError] or [KeyError], whatever it
    collects (unless a cell of the first row is the text [timestamp]). *)
Theorem daily_retry_keeps_rows_of_failed_attempts
        (apis : Z -> leaderboard_api) (timestamps : Z -> string)
        (max_retries : Z) (delay : Q) (store : option (list snapshot_row))
        (headed : bool) :
  0 < max_retries ->
  let run := scrape_with_retry apis timestamps max_retries delay store
                               headed in
  let k := length (filter is_start (daily_log run)) in
  let rows := attempt_rows apis timestamps in
  let outcome :=
    outcome_of_attempt rows (attempt_result_of apis timestamps) store
                       headed in
  1 <= Z.of_nat k <= max_retries
  /\ daily_store run = Some (stored store ++ flat_map rows (attempts_from 0 k))
  /\ daily_result run = Some (outcome (k - 1)%nat)
  /\ (forall j, (j < k - 1)%nat -> raises (outcome j))
  /\ (raises (outcome (k - 1)%nat) -> Z.of_nat k = max_retries)
  /\ filter is_wait (daily_log run) = repeat (FullRetryWait delay) (k - 1)
  /\ (store = None -> rows 0 = [] ->
      forall j, (0 < j)%nat ->
        (forall r, In r (flat_map rows (attempts_from 0 (S j))) ->
                   names_timestamp r = false) ->
        outcome j = Raise EmptyDataError
        \/ outcome j = Raise (KeyError "timestamp")).
Proof.
  intro Hpos. cbv zeta. unfold scrape_with_retry.
  destruct (daily_loop_spec apis timestamps max_retries delay store headed
              (attempt_rows apis timestamps)
              (attempt_result_of apis timestamps)
              (daily_snapshot_store apis timestamps)
              (daily_snapshot_headed apis timestamps)
              (daily_snapshot_returned apis timestamps)
              (Z.to_nat max_retries) 0%nat [])
    as (k & Hk & Hs & Hw & Hst & _ & Hr & Hf & Hl); [lia|lia|].
  cbv zeta in Hs, Hw, Hst, Hr, Hl.
  change (Z.of_nat 0) with 0 in *. cbn [file_before fst snd] in Hs, Hw, Hst, Hr.
  rewrite Hs. cbn [filter length Nat.add]. rewrite Nat.sub_0_r.
  rewrite Nat.sub_0_r in Hw.
  split; [lia|]. split.
  { rewrite Hst. destruct k as [|k]; [lia|]. reflexivity. }
  split; [exact Hr|]. split; [intros j Hj; apply Hf; lia|].
  split; [intro H; rewrite (Hl H); lia|].
  split; [exact Hw|].
  intros Hnone Hrows j Hj Hnames.
  exact (retry_after_empty_attempt store headed (attempt_rows apis timestamps)
           (attempt_result_of apis timestamps) j Hnone Hrows Hj Hnames).
Qed.

(** Four categories are down during the first full attempt, none during
    the second. *)
Definition outage_then_recovery : Z -> leaderboard_api :=
  fun attempt =>
    if attempt =? 0
    then api_down ["politics"; "sports"; "crypto"; "tech"]%string two_users
    else api_down [] two_users.

(** Every category is down during the first full attempt, none during the
    second. *)
Definition blackout_then_recovery : Z -> leaderboard_api :=
  fun attempt =>
    if attempt =? 0 then api_down categories two_users
    else api_down [] two_users.

Definition recovered_run : daily_run :=
  scrape_with_retry outage_then_recovery (fun _ => "2026-01-01 12:00:00"%string)
                    2 30 None false.

Definition run_after_blackout : daily_run :=
  scrape_with_retry blackout_then_recovery
                    (fun _ => "2026-01-01 12:00:00"%string) 2 30 None false.

Lemma daily_retry_keeps_rows_of_failed_attempts_witness :
  (let run := scrape_with_retry blackout_then_recovery
                                (fun _ => "2026-01-01 12:00:00"%string)
                                2 30 None false in
   let k := length (filter is_start (daily_log run)) in
   let rows := attempt_rows blackout_then_recovery
                            (fun _ => "2026-01-01 12:00:00"%string) in
   let outcome :=
     outcome_of_attempt rows
                        (attempt_result_of
                           blackout_then_recovery
                           (fun _ => "2026-01-01 12:00:00"%string))
                        None false in
   1 <= Z.of_nat k <= 2
   /\ daily_store run = Some (stored None ++ flat_map rows (attempts_from 0 k))
   /\ daily_result run = Some (outcome (k - 1)%nat))
  /\ daily_result run_after_blackout = Some (Raise (KeyError "timestamp"))
  /\ option_map len (daily_store run_after_blackout) = Some 20
  /\ attempt_result_of blackout_then_recovery
                       (fun _ => "2026-01-01 12:00:00"%string) 1
     = Ok (attempt_rows blackout_then_recovery
                        (fun _ => "2026-01-01 12:00:00"%string) 1)
  /\ option_map len (daily_store recovered_run) = Some 32
  /\ option_map (fun r => match r with Ok df => len df | Raise _ => -1 end)
                (daily_result recovered_run) = Some 20.
Proof.
  split.
  - cbv zeta.
    destruct (daily_retry_keeps_rows_of_failed_attempts
                blackout_then_recovery (fun _ => "2026-01-01 12:00:00"%string)
                2 30 None false eq_refl) as (H1 & H2 & H3 & _).
    split; [exact H1|]. split; [exact H2|exact H3].
  - repeat (split; [vm_compute; reflexivity|]). vm_compute. reflexivity.
Defined.

(** X14: with [max_retries <= 0], [scrape_with_retry] returns [None]
    without scraping and leaves the daily file as it was. *)
Theorem daily_retry_without_budget_returns_nothing
        (apis : Z -> leaderboard_api) (timestamps : Z -> string)
        (max_retries : Z) (delay : Q) (store : option (list snapshot_row))
        (headed : bool) :
  max_retries <= 0 ->
  scrape_with_retry apis timestamps max_retries delay store headed
  = {| daily_result := None; daily_store := store; daily_headed := headed;
       daily_log := [] |}.
Proof.
  intro H. unfold scrape_with_retry.
  replace (Z.to_nat max_retries) with 0%nat by lia. reflexivity.
Qed.

Lemma daily_retry_without_budget_returns_nothing_witness :
  scrape_with_retry outage_then_recovery (fun _ => "2026-01-01 12:00:00"%string)
                    0 30 None false
  = {| daily_result := None; daily_store := None; daily_headed := false;
       daily_log := [] |}.
Proof.
  apply (daily_retry_without_budget_returns_nothing
           outage_then_recovery (fun _ => "2026-01-01 12:00:00"%string)
           0 30 None false).
  discriminate.
Defined.

(* ================================================================== *)
(** ** [load_positions]: order and content *)

(** Newest first: no element is smaller than one that follows it. *)
Fixpoint descending (l : list Z) : Prop :=
  match l with
  | [] => True
  | x :: l' => (forall y, In y l' -> y <= x) /\ descending l'
  end.

Section SortDescFacts.
Context {A : Type}.
Variable ts : A -> Z.

Lemma insert_desc_perm (x : A) (l : list A) :
  Permutation (insert_desc ts x l) (x :: l).
Proof.
  induction l as [|y l IH]; simpl; [reflexivity|].
  destruct (ts y <=? ts x); [reflexivity|].
  rewrite IH. apply perm_swap.
Qed.

(** Rows of equal timestamp keep their input order. *)
Lemma insert_desc_keeps_ties (t : Z) (x : A) (l : list A) :
  filter (fun r => ts r =? t) (insert_desc ts x l)
  = filter (fun r => ts r =? t) (x :: l).
Proof.
  induction l as [|y l IH]; [reflexivity|].
  cbn [insert_desc]. destruct (ts y <=? ts x) eqn:E; [reflexivity|].
  apply Z.leb_gt in E. cbn [filter] in *. rewrite IH.
  destruct (ts x =? t) eqn:Ex; [|reflexivity].
  apply Z.eqb_eq in Ex.
  replace (ts y =? t) with false by (symmetry; apply Z.eqb_neq; lia).
  reflexivity.
Qed.

Lemma sort_desc_keeps_ties (t : Z) (l : list A) :
  filter (fun r => ts r =? t) (sort_desc ts l) = filter (fun r => ts r =? t) l.
Proof.
  induction l as [|x l IH]; [reflexivity|].
  cbn [sort_desc fold_right]. fold (sort_desc ts l).
  rewrite insert_desc_keeps_ties. cbn [filter]. now rewrite IH.
Qed.

Lemma sort_desc_perm (l : list A) : Permutation (sort_desc ts l) l.
Proof.
  induction l as [|x l IH]; simpl; [reflexivity|].
  rewrite insert_desc_perm. now constructor.
Qed.

Lemma insert_desc_descending (x : A) (l : list A) :
  descending (map ts l) -> descending (map ts (insert_desc ts x l)).
Proof.
  induction l as [|y l IH]; simpl; intro H.
  - split; [intros ? []|exact I].
  - destruct H as [Hy Hl]. destruct (ts y <=? ts x) eqn:E.
    + apply Z.leb_le in E. simpl. repeat split; try assumption.
      intros z [Hz|Hz]; [lia|]. specialize (Hy z Hz). lia.
    + apply Z.leb_gt in E. simpl. split; [|now apply IH].
      intros z Hz. apply in_map_iff in Hz. destruct Hz as (a & <- & Ha).
      apply (Permutation_in _ (insert_desc_perm x l)) in Ha.
      destruct Ha as [<-|Ha]; [lia|].
      apply Hy. now apply in_map.
Qed.

Lemma sort_desc_descending (l : list A) : descending (map ts (sort_desc ts l)).
Proof.
  induction l as [|x l IH]; simpl; [exact I|].
  now apply insert_desc_descending.
Qed.

Lemma filter_descending (f : A -> bool) (l : list A) :
  descending (map ts l) -> descending (map ts (filter f l)).
Proof.
  induction l as [|x l IH]; simpl; [trivial|].
  intros [Hx Hl]. destruct (f x); [|now apply IH].
  simpl. split; [|now apply IH].
  intros y Hy. apply Hx. apply in_map_iff in Hy.
  destruct Hy as (a & <- & Ha). apply filter_In in Ha.
  apply in_map. tauto.
Qed.

Lemma filter_window_descending s e (l : list A) :
  descending (map ts l) -> descending (map ts (filter_window ts s e l)).
Proof.
  intro H. unfold filter_window.
  destruct s, e; repeat apply filter_descending; exact H.
Qed.

Lemma filter_perm (f : A -> bool) (l l' : list A) :
  Permutation l l' -> Permutation (filter f l) (filter f l').
Proof.
  induction 1 as [|x l l' _ IH|x y l|l l' l'' _ IH1 _ IH2]; simpl.
  - constructor.
  - destruct (f x); [now constructor|exact IH].
  - destruct (f x), (f y); try reflexivity. apply perm_swap.
  - now transitivity (filter f l').
Qed.

Lemma filter_window_perm s e (l l' : list A) :
  Permutation l l' ->
  Permutation (filter_window ts s e l) (filter_window ts s e l').
Proof.
  intro H. unfold filter_window.
  destruct s, e; repeat apply filter_perm; exact H.
Qed.
End SortDescFacts.

(** The [len(self.df) > 0] test of [load_positions] changes nothing. *)
Lemma window_positions_filter s e (df : list position) :
  window_positions s e df = filter_window timestamp s e df.
Proof.
  unfold window_positions.
  destruct (is_some s || is_some e) eqn:Ew; cbn [andb].
  - destruct (0 <? len df) eqn:El; [reflexivity|].
    apply len_nil_iff in El. subst df. unfold filter_window.
    now destruct s, e.
  - apply orb_false_iff in Ew. destruct Ew as [Es Ee].
    destruct s, e; try discriminate. reflexivity.
Qed.

(** X15: [load_positions] raises [KeyError] when both fetches are empty
    (the sort of the column-less table); otherwise it returns a table that
    is sorted by timestamp, newest first, and holds exactly the closed and
    open rows whose timestamp lies in the window, each as often as it was
    fetched; without a window it holds all of them. *)
Theorem load_positions_newest_first
        (start_date end_date : option Z)
        (closed_positions open_positions : list api_position) :
  (closed_positions = [] -> open_positions = [] ->
   load_positions start_date end_date closed_positions open_positions
   = Raise (KeyError "timestamp"))
  /\ (closed_positions <> [] \/ open_positions <> [] ->
      exists df,
        load_positions start_date end_date closed_positions open_positions
        = Ok df
        /\ descending (map timestamp df)
        /\ Permutation df
             (filter_window timestamp start_date end_date
                (map closed_row closed_positions
                 ++ map open_row open_positions))
        /\ (start_date = None -> end_date = None ->
            len df = len closed_positions + len open_positions)).
Proof.
  split; [intros -> ->; reflexivity|].
  intro Hne. rewrite load_positions_returns by exact Hne.
  eexists. split; [reflexivity|].
  unfold merged_positions. rewrite !window_positions_filter.
  assert (Hp : Permutation
                 (sort_desc timestamp
                    (sort_desc timestamp (map closed_row closed_positions)
                     ++ sort_desc timestamp (map open_row open_positions)))
                 (map closed_row closed_positions
                  ++ map open_row open_positions)).
  { rewrite sort_desc_perm. apply Permutation_app; apply sort_desc_perm. }
  split; [|split].
  - apply filter_window_descending, sort_desc_descending.
  - now apply filter_window_perm.
  - intros -> ->. unfold filter_window, len.
    rewrite (Permutation_length Hp), length_app, !length_map. lia.
Qed.

Lemma load_positions_newest_first_witness :
  load_positions None (Some 1700000000) [] [] = Raise (KeyError "timestamp")
  /\ exists df,
       load_positions None None [sample_open_position] [sample_open_position]
       = Ok df
       /\ descending (map timestamp df)
       /\ len df = 2.
Proof.
  split.
  - exact (proj1 (load_positions_newest_first None (Some 1700000000) [] [])
                 eq_refl eq_refl).
  - destruct (proj2 (load_positions_newest_first
                       None None [sample_open_position]
                       [sample_open_position]))
      as (df & Hdf & Hsorted & _ & Hlen); [left; discriminate|].
    exists df. split; [exact Hdf|]. split; [exact Hsorted|].
    exact (Hlen eq_refl eq_refl).
Defined.

(* ================================================================== *)
(** ** [fetch_event_ids] and the fetch of [load_trades] *)

Section UniqueFacts.
Context {K : Type}.
Variable eqb : K -> K -> bool.
Hypothesis eqb_spec : forall x y, eqb x y = true <-> x = y.

Lemma unique_In (l : list K) (x : K) : In x (unique eqb l) <-> In x l.
Proof.
  induction l as [|y l IH]; simpl; [tauto|].
  rewrite filter_In, IH. split.
  - tauto.
  - intros [H|H]; [now left|].
    destruct (eqb y x) eqn:E.
    + left. now apply eqb_spec.
    + right. now split.
Qed.

Lemma unique_NoDup (l : list K) : NoDup (unique eqb l).
Proof.
  induction l as [|y l IH]; simpl; constructor.
  - intro H. apply filter_In in H. destruct H as [_ H].
    rewrite (proj2 (eqb_spec y y) eq_refl) in H. discriminate.
  - now apply NoDup_filter.
Qed.
End UniqueFacts.

Definition is_lookup (e : lookup_event) : bool :=
  match e with EventLookup _ => true | LookupPause => false end.

(** The [eventId] of a slug: the id of the event, or a null when the
    lookup failed. *)
Definition id_of (get_event_id : string -> result Z) (slug : string)
  : option Z :=
  match get_event_id slug with Ok id => Some id | Raise _ => None end.

Lemma dict_get_app {V : Type} (k : string) (d1 d2 : list (string * V)) :
  dict_get k (d1 ++ d2)
  = match dict_get k d2 with Some v => Some v | None => dict_get k d1 end.
Proof.
  induction d1 as [|[k' v] d1 IH]; simpl.
  - now destruct (dict_get k d2).
  - rewrite IH. now destruct (dict_get k d2).
Qed.

Lemma dict_get_map {V : Type} (f : string -> V) (k : string)
      (slugs : list string) :
  (In k slugs -> dict_get k (map (fun s => (s, f s)) slugs) = Some (f k))
  /\ (~ In k slugs -> dict_get k (map (fun s => (s, f s)) slugs) = None).
Proof.
  induction slugs as [|s slugs [IHin IHout]]; simpl; [tauto|].
  destruct (in_dec string_dec k slugs) as [Hin|Hn].
  - rewrite (IHin Hin). tauto.
  - rewrite (IHout Hn). destruct (String.eqb s k) eqn:E.
    + apply String.eqb_eq in E. subst s. tauto.
    + apply String.eqb_neq in E. split; [|reflexivity].
      intros [H|H]; contradiction.
Qed.

Section EventIdFacts.
Variable get_event_id : string -> result Z.

Lemma slug_loop_spec :
  forall slugs i slug_to_id tr,
    fst (slug_loop get_event_id i slugs slug_to_id tr)
    = slug_to_id ++ map (fun s => (s, id_of get_event_id s)) slugs
    /\ filter is_lookup (snd (slug_loop get_event_id i slugs slug_to_id tr))
       = filter is_lookup tr ++ map EventLookup slugs.
Proof.
  induction slugs as [|slug rest IH]; intros i slug_to_id tr.
  - cbn. now rewrite !app_nil_r.
  - cbn [slug_loop map]. unfold id_of at 1.
    destruct (get_event_id slug) as [id|e].
    + destruct (IH (i + 1) (slug_to_id ++ [(slug, Some id)])
                   ((tr ++ [EventLookup slug])
                    ++ (if i mod 10 =? 0 then [LookupPause] else [])))
        as [H1 H2].
      rewrite H1, H2, <- !app_assoc, !filter_app. split; [reflexivity|].
      rewrite <- app_assoc. f_equal. cbn.
      now destruct (i mod 10 =? 0).
    + destruct (IH (i + 1) (slug_to_id ++ [(slug, None)])
                   (tr ++ [EventLookup slug])) as [H1 H2].
      rewrite H1, H2, <- !app_assoc, !filter_app. split; [reflexivity|].
      now rewrite <- app_assoc.
Qed.
End EventIdFacts.

Lemma unique_slugs_In (df : list position) (slug : string) :
  In slug (unique String.eqb (map eventSlug df))
  <-> In slug (map eventSlug df).
Proof. apply unique_In. apply String.eqb_eq. Qed.

Lemma fetch_event_ids_column (get_event_id : string -> result Z)
      (df : list position) :
  fst (fetch_event_ids get_event_id df)
  = map (fun p => id_of get_event_id (eventSlug p)) df.
Proof.
  unfold fetch_event_ids. destruct df as [|p0 df']; [reflexivity|].
  set (df := p0 :: df') in *.
  destruct (slug_loop_spec get_event_id
              (unique String.eqb (map eventSlug df)) 1 [] []) as [H1 _].
  destruct (slug_loop _ _ _ _ _) as [slug_to_id tr]. cbn [fst] in *.
  subst slug_to_id. cbn [app]. apply map_ext_in. intros p Hp.
  rewrite (proj1 (dict_get_map (id_of get_event_id) (eventSlug p) _)).
  - now destruct (id_of get_event_id (eventSlug p)).
  - apply unique_slugs_In. now apply in_map.
Qed.

Lemma fetch_event_ids_lookups (get_event_id : string -> result Z)
      (df : list position) :
  filter is_lookup (snd (fetch_event_ids get_event_id df))
  = map EventLookup (unique String.eqb (map eventSlug df)).
Proof.
  unfold fetch_event_ids. destruct df as [|p0 df']; [reflexivity|].
  set (df := p0 :: df') in *.
  destruct (slug_loop_spec get_event_id
              (unique String.eqb (map eventSlug df)) 1 [] []) as [_ H2].
  destruct (slug_loop _ _ _ _ _) as [slug_to_id tr]. cbn [snd] in *.
  exact H2.
Qed.

(** X16: [fetch_event_ids] gives every row the id of the event of its
    slug, or a null where the lookup failed, and looks every distinct slug
    up exactly once, in order of first appearance. *)
Theorem fetch_event_ids_looks_each_slug_up_once
        (get_event_id : string -> result Z) (df : list position) :
  fst (fetch_event_ids get_event_id df)
  = map (fun p => id_of get_event_id (eventSlug p)) df
  /\ filter is_lookup (snd (fetch_event_ids get_event_id df))
     = map EventLookup (unique String.eqb (map eventSlug df))
  /\ NoDup (unique String.eqb (map eventSlug df))
  /\ (forall slug, In slug (unique String.eqb (map eventSlug df))
                   <-> exists p, In p df /\ eventSlug p = slug).
Proof.
  split; [apply fetch_event_ids_column|].
  split; [apply fetch_event_ids_lookups|].
  split.
  - apply unique_NoDup. intros x y. apply String.eqb_eq.
  - intro slug. rewrite unique_slugs_In, in_map_iff.
    split; intros (p & H1 & H2); exists p; tauto.
Qed.

Lemma unique_event_ids_In (get_event_id : string -> result Z)
      (df : list position) (id : Z) :
  In id (unique_event_ids (fst (fetch_event_ids get_event_id df)))
  <-> exists p, In p df /\ get_event_id (eventSlug p) = Ok id.
Proof.
  unfold unique_event_ids.
  rewrite (unique_In Z.eqb Z.eqb_eq), fetch_event_ids_column, in_flat_map.
  split.
  - intros (o & Ho & Hid). apply in_map_iff in Ho.
    destruct Ho as (p & <- & Hp). exists p. split; [exact Hp|].
    unfold id_of in Hid. destruct (get_event_id (eventSlug p)) as [i|e];
      [|destruct Hid].
    destruct Hid as [->|[]]. reflexivity.
  - intros (p & Hp & Hg). exists (Some id). split; [|now left].
    apply in_map_iff. exists p. split; [|exact Hp].
    unfold id_of. now rewrite Hg.
Qed.

(** X17: a trade is collected by the fetch loop of [load_trades] exactly
    when it belongs to an event whose id was resolved for some position and
    whose trade fetch did not raise. *)
Theorem collected_trades_belong_to_resolved_events
        {T : Type} (get_event_id : string -> result Z)
        (event_trades : Z -> result (list T)) (df : list position) (t : T) :
  In t (collect_trades event_trades
          (unique_event_ids (fst (fetch_event_ids get_event_id df))))
  <-> exists p id trades,
        In p df
        /\ get_event_id (eventSlug p) = Ok id
        /\ event_trades id = Ok trades
        /\ In t trades.
Proof.
  pose proof (unique_event_ids_In get_event_id df) as Hids.
  unfold collect_trades. rewrite in_flat_map. split.
  - intros (id & Hid & Ht). apply Hids in Hid.
    destruct Hid as (p & Hp & Hg).
    destruct (event_trades id) as [trades|e] eqn:E; [|destruct Ht].
    now exists p, id, trades.
  - intros (p & id & trades & Hp & Hg & He & Ht).
    exists id. split; [apply Hids; now exists p|]. now rewrite He.
Qed.

(* ================================================================== *)
(** ** [load_trades]: the columns taken from the positions *)

Lemma lookup_last_none {B : Type} (col : position -> B) (a : string)
      (df : list position) :
  lookup_last col a df = None <-> ~ In a (map asset df).
Proof.
  induction df as [|p df IH]; simpl; [tauto|].
  destruct (lookup_last col a df) as [b|].
  - split; [discriminate|]. intro H. exfalso.
    assert (Hn : ~ In a (map asset df)) by tauto.
    apply IH in Hn. discriminate.
  - destruct (String.eqb (asset p) a) eqn:E.
    + apply String.eqb_eq in E. split; [discriminate|]. intro H.
      exfalso. apply H. now left.
    + apply String.eqb_neq in E. split; [|reflexivity].
      intros _ [H|H]; [contradiction|]. now apply IH in H.
Qed.

Lemma lookup_last_app {B : Type} (col : position -> B) (a : string)
      (df1 df2 : list position) (p : position) :
  asset p = a -> ~ In a (map asset df2) ->
  lookup_last col a (df1 ++ p :: df2) = Some (col p).
Proof.
  intros Ha Hn. induction df1 as [|q df1 IH]; simpl.
  - apply (lookup_last_none col) in Hn. rewrite Hn.
    apply String.eqb_eq in Ha. now rewrite Ha.
  - now rewrite IH.
Qed.

(** X18: a trade whose asset has no position gets null [closed],
    [curPrice], [current_value] and [trade_pnl]; otherwise these columns
    come from the last position row of its asset, with
    trade_pnl = curPrice * size - size * price. *)
Theorem trade_columns_come_from_last_position
        (df : list position) (t : api_trade) :
  (~ In (api_t_asset t) (map asset df) ->
   t_closed (trade_row df t) = None
   /\ t_curPrice (trade_row df t) = None
   /\ t_current_value (trade_row df t) = None
   /\ t_trade_pnl (trade_row df t) = None)
  /\ (forall df1 p df2,
        df = df1 ++ p :: df2 ->
        asset p = api_t_asset t ->
        ~ In (api_t_asset t) (map asset df2) ->
        t_closed (trade_row df t) = Some (closed p)
        /\ t_curPrice (trade_row df t) = Some (curPrice p)
        /\ t_trade_pnl (trade_row df t)
           = Some (curPrice p * api_t_size t
                   - api_t_size t * api_t_price t)%Q).
Proof.
  split.
  - intro Hn. unfold trade_row. cbn.
    rewrite (proj2 (lookup_last_none closed _ _) Hn).
    rewrite (proj2 (lookup_last_none curPrice _ _) Hn).
    repeat split.
  - intros df1 p df2 -> Ha Hn. unfold trade_row. cbn.
    rewrite (lookup_last_app closed _ _ _ _ Ha Hn).
    rewrite (lookup_last_app curPrice _ _ _ _ Ha Hn).
    repeat split.
Qed.

Definition sample_trade : api_trade :=
  {| api_t_asset := "A"; api_t_side := BUY; api_t_size := 10;
     api_t_price := 1 # 2; api_t_timestamp := 50;
     api_t_title := "T"; api_t_eventSlug := "s" |}%string.

Definition sample_holding (a : string) (price : Q) (is_closed : bool)
  : position :=
  {| asset := a; title := "T"; eventSlug := "s"; avgPrice := 1 # 2;
     totalBought := 10; value := 5; realizedPnl := 1; curPrice := price;
     closed := is_closed; timestamp := 60; endDate := None |}%string.

Lemma trade_columns_come_from_last_position_witness :
  t_closed (trade_row [sample_holding "B" 1 true] sample_trade) = None
  /\ t_curPrice (trade_row [sample_holding "A" (1 # 4) true;
                            sample_holding "A" (3 # 4) false] sample_trade)
     = Some (3 # 4).
Proof.
  split.
  - apply (proj1 (trade_columns_come_from_last_position
                    [sample_holding "B" 1 true] sample_trade)).
    intros [H|[]]. discriminate.
  - apply (proj2 (trade_columns_come_from_last_position
                    [sample_holding "A" (1 # 4) true;
                     sample_holding "A" (3 # 4) false] sample_trade)
                 [sample_holding "A" (1 # 4) true]
                 (sample_holding "A" (3 # 4) false) []).
    + reflexivity.
    + reflexivity.
    + intros [].
Defined.

(** X19: the table [load_trades] builds is sorted newest first and is
    empty when there are no positions; otherwise it holds exactly the
    trade rows inside the window, and every row it holds lies inside the
    window. *)
Theorem load_trades_newest_first_in_window
        (start_date end_date : option Z) (df : list position)
        (all_trades : list api_trade) :
  descending (map t_timestamp (load_trades start_date end_date df all_trades))
  /\ load_trades start_date end_date [] all_trades = []
  /\ (df <> [] ->
      Permutation (load_trades start_date end_date df all_trades)
                  (filter_window t_timestamp start_date end_date
                                 (map (trade_row df) all_trades)))
  /\ (forall t, In t (load_trades start_date end_date df all_trades) ->
                in_window start_date end_date (t_timestamp t)).
Proof.
  assert (Hw : forall l, window_trades start_date end_date l
                         = filter_window t_timestamp start_date end_date l).
  { intro l. unfold window_trades.
    destruct start_date, end_date; reflexivity. }
  assert (Hnil : filter_window t_timestamp start_date end_date [] = [])
    by (unfold filter_window; now destruct start_date, end_date).
  split; [|split; [reflexivity|split]].
  - unfold load_trades. destruct df; [exact I|].
    destruct all_trades; [exact I|]. apply sort_desc_descending.
  - intro Hne. unfold load_trades. destruct df as [|p df]; [contradiction|].
    destruct all_trades as [|t l]; [cbn [map]; now rewrite Hnil|].
    rewrite Hw. apply sort_desc_perm.
  - intros t Hin. unfold load_trades in Hin. destruct df as [|p df]; [easy|].
    destruct all_trades as [|t' l]; [easy|].
    apply sort_desc_In in Hin. rewrite Hw in Hin.
    apply filter_window_In in Hin. tauto.
Qed.

Lemma load_trades_newest_first_in_window_witness :
  Permutation
    (load_trades (Some 10) None [sample_holding "A" 1 true] [sample_trade])
    (filter_window t_timestamp (Some 10) None
                   (map (trade_row [sample_holding "A" 1 true])
                        [sample_trade])).
Proof.
  apply (proj1 (proj2 (proj2 (load_trades_newest_first_in_window
                                (Some 10) None [sample_holding "A" 1 true]
                                [sample_trade])))).
  discriminate.
Defined.

(* ================================================================== *)
(** ** [process_trades]: the entries of [trade_dfs] *)

(** The asset of the trade is one of [keys]. *)
Definition asset_among (keys : list string) (t : trade) : bool :=
  existsb (fun k => String.eqb (t_asset t) k) keys.

Lemma filter_none {A : Type} (f : A -> bool) (l : list A) :
  (forall x, In x l -> f x = false) -> filter f l = [].
Proof.
  induction l as [|x l IH]; intro H; simpl; [reflexivity|].
  rewrite (H x (or_introl eq_refl)). apply IH. intros y Hy. apply H. now right.
Qed.

Lemma trades_split (k : string) (keys : list string) (trades : list trade) :
  ~ In k keys ->
  Permutation (filter (asset_among (k :: keys)) trades)
              (trades_of k trades ++ filter (asset_among keys) trades).
Proof.
  intro Hn. unfold trades_of.
  induction trades as [|t trades IH]; simpl; [reflexivity|].
  destruct (String.eqb (t_asset t) k) eqn:E; simpl.
  - apply String.eqb_eq in E.
    assert (Hf : asset_among keys t = false).
    { unfold asset_among. destruct (existsb _ keys) eqn:Ex; [|reflexivity].
      apply existsb_exists in Ex. destruct Ex as (k' & Hin & Hk').
      apply String.eqb_eq in Hk'. congruence. }
    rewrite Hf. now constructor.
  - destruct (asset_among keys t); [|exact IH].
    rewrite IH. apply Permutation_middle.
Qed.

Lemma trades_by_key (keys : list string) (trades : list trade) :
  NoDup keys ->
  Permutation (flat_map (fun k => trades_of k trades) keys)
              (filter (asset_among keys) trades).
Proof.
  induction 1 as [|k keys Hn _ IH]; simpl.
  - rewrite filter_none; [reflexivity|]. reflexivity.
  - rewrite trades_split by exact Hn. now apply Permutation_app_head.
Qed.

Definition entry_of (all_trades_df : list trade) (ir : Z * aggregated)
  : list (Z * list trade) :=
  match trades_of (agg_asset (snd ir)) all_trades_df with
  | [] => []
  | position_trades => [(fst ir, position_trades)]
  end.

Lemma process_trades_entries (df : list position) (all_trades_df : list trade) :
  process_trades df all_trades_df
  = flat_map (entry_of all_trades_df) (number_from 1 (aggregate df)).
Proof.
  unfold process_trades. destruct df as [|p df]; [reflexivity|].
  destruct all_trades_df as [|t l]; [|reflexivity].
  generalize (aggregate (p :: df)) 1.
  induction l as [|r l IH]; intro i; [reflexivity|]. simpl. apply IH.
Qed.

Lemma entries_concat (all_trades_df : list trade) (rows : list aggregated) (i : Z) :
  concat (map snd (flat_map (entry_of all_trades_df) (number_from i rows)))
  = flat_map (fun k => trades_of k all_trades_df) (map agg_asset rows).
Proof.
  revert i. induction rows as [|r rows IH]; intro i; [reflexivity|].
  cbn [number_from flat_map map]. rewrite map_app, concat_app, IH.
  f_equal. unfold entry_of. cbn [fst snd].
  destruct (trades_of (agg_asset r) all_trades_df); [reflexivity|].
  cbn. now rewrite app_nil_r.
Qed.

Lemma aggregate_assets (df : list position) :
  NoDup (map agg_asset (aggregate df))
  /\ (forall k, In k (map agg_asset (aggregate df)) <-> In k (map asset df)).
Proof.
  destruct (groupby_asset_spec df) as (Hnd & Hrows & Hkeys).
  unfold aggregate. rewrite (aggregate_keys df) by exact Hrows.
  split; assumption.
Qed.

Lemma number_from_In_snd {A : Type} (l : list A) (i j : Z) (x : A) :
  In (j, x) (number_from i l) -> In x l.
Proof.
  revert i. induction l as [|y l IH]; intros i H; [destruct H|].
  destruct H as [H|H].
  - injection H as _ ->. now left.
  - right. exact (IH _ H).
Qed.

Lemma process_trades_groups (df : list position) (all_trades_df : list trade) :
  Forall (fun entry =>
            snd entry <> []
            /\ exists k, In k (map asset df)
                         /\ snd entry = trades_of k all_trades_df)
         (process_trades df all_trades_df).
Proof.
  destruct (aggregate_assets df) as [_ Hkeys].
  rewrite process_trades_entries.
  apply Forall_forall. intros [i ts] Hin.
  apply in_flat_map in Hin. destruct Hin as ([j row] & Hrow & Hin).
  unfold entry_of in Hin. cbn [fst snd] in Hin.
  destruct (trades_of (agg_asset row) all_trades_df) as [|t l] eqn:E;
    [destruct Hin|].
  destruct Hin as [Heq|[]]. injection Heq as <- <-.
  cbn [snd]. split; [discriminate|].
  exists (agg_asset row). split; [|now rewrite E].
  apply Hkeys. apply in_map. exact (number_from_In_snd _ _ _ _ Hrow).
Qed.

(** X20: [process_trades] partitions the trades whose asset has a
    position: together the entries of [trade_dfs] hold each such trade
    once, and each entry is the non-empty list of all trades of one asset
    of the position table. *)
Theorem process_trades_partitions_trades
        (df : list position) (all_trades_df : list trade) :
  Permutation (concat (map snd (process_trades df all_trades_df)))
              (filter (asset_among (map asset df)) all_trades_df)
  /\ Forall (fun entry =>
               snd entry <> []
               /\ exists k, In k (map asset df)
                            /\ snd entry = trades_of k all_trades_df)
            (process_trades df all_trades_df).
Proof.
  split; [|apply process_trades_groups].
  destruct (aggregate_assets df) as [Hnd Hkeys].
  rewrite process_trades_entries.
  rewrite entries_concat, trades_by_key by exact Hnd.
  erewrite filter_ext; [reflexivity|].
  intro t. unfold asset_among.
  apply eq_true_iff_eq. rewrite !existsb_exists.
  split; intros (k & Hin & Hk); exists k; (split; [|exact Hk]);
    now apply Hkeys.
Qed.

Lemma number_from_In {A : Type} (l : list A) (s i : Z) (x : A) :
  In (i, x) (number_from s l)
  <-> s <= i /\ nth_error l (Z.to_nat (i - s)) = Some x.
Proof.
  revert s. induction l as [|y l IH]; intro s.
  - cbn [number_from In]. split; [tauto|]. intros [_ H].
    destruct (Z.to_nat (i - s)); discriminate.
  - cbn [number_from In]. rewrite IH. split.
    + intros [H|[Hle Hn]].
      * injection H as -> ->. split; [lia|].
        replace (Z.to_nat (i - i)) with 0%nat by lia. reflexivity.
      * split; [lia|].
        replace (Z.to_nat (i - s)) with (S (Z.to_nat (i - (s + 1)))) by lia.
        exact Hn.
    + intros [Hle Hn]. destruct (Z.eq_dec s i) as [->|Hne].
      * left. replace (Z.to_nat (i - i)) with 0%nat in Hn by lia.
        cbn in Hn. congruence.
      * right. split; [lia|].
        replace (Z.to_nat (i - s)) with (S (Z.to_nat (i - (s + 1)))) in Hn
          by lia.
        exact Hn.
Qed.

(** X21: the key [trade{i}] of an entry of [trade_dfs] is the place,
    counted from 1, of its asset in the aggregated table: (i, trades) is
    an entry exactly when row i of the aggregated table exists and
    [trades] is the non-empty list of the trades of its asset. *)
Theorem process_trades_keys_number_the_aggregated_rows
        (df : list position) (all_trades_df : list trade)
        (i : Z) (position_trades : list trade) :
  In (i, position_trades) (process_trades df all_trades_df)
  <-> 1 <= i
      /\ position_trades <> []
      /\ exists row,
           nth_error (aggregate df) (Z.to_nat (i - 1)) = Some row
           /\ position_trades = trades_of (agg_asset row) all_trades_df.
Proof.
  rewrite process_trades_entries, in_flat_map. split.
  - intros ([j row] & Hrow & Hin). unfold entry_of in Hin.
    cbn [fst snd] in Hin.
    destruct (trades_of (agg_asset row) all_trades_df) as [|t l] eqn:E;
      [destruct Hin|].
    destruct Hin as [Heq|[]]. injection Heq as <- <-.
    apply number_from_In in Hrow. destruct Hrow as [Hle Hn].
    split; [exact Hle|]. split; [discriminate|].
    exists row. split; [exact Hn|now rewrite E].
  - intros (Hle & Hne & row & Hn & Hts).
    exists (i, row). split; [apply number_from_In; now split|].
    unfold entry_of. cbn [fst snd]. rewrite <- Hts.
    destruct position_trades; [contradiction|]. now left.
Qed.

(* ================================================================== *)
(** ** [create_summary] *)

Lemma rows_of_asset (df : list position) (a : string) :
  In a (map asset df)
  <-> filter (fun p => String.eqb (asset p) a) df <> [].
Proof.
  induction df as [|p df IH]; simpl; [tauto|].
  destruct (String.eqb (asset p) a) eqn:E.
  - apply String.eqb_eq in E. split; [discriminate|]. intros _. now left.
  - apply String.eqb_neq in E. rewrite <- IH. tauto.
Qed.

Lemma summarize_defined (df : list position) (key : Z) (t0 : trade)
      (rest : list trade) :
  In (t_asset t0) (map asset df) ->
  exists row,
    summarize df key (t0 :: rest) = Some [row]
    /\ s_position row = key
    /\ s_asset row = t_asset t0
    /\ s_num_trades row = len (t0 :: rest).
Proof.
  intro Hin. apply rows_of_asset in Hin. unfold summarize.
  destruct (filter _ df) as [|position_data l]; [contradiction|].
  eexists. split; [reflexivity|]. repeat split.
Qed.

Lemma summarize_index_error (df : list position) (key : Z) (t0 : trade)
      (rest : list trade) :
  ~ In (t_asset t0) (map asset df) ->
  summarize df key (t0 :: rest) = None.
Proof.
  intro Hn. unfold summarize.
  destruct (filter _ df) as [|position_data l] eqn:E; [reflexivity|].
  exfalso. apply Hn. apply rows_of_asset. rewrite E. discriminate.
Qed.

Lemma summarize_all_defined (df : list position)
      (trade_dfs : list (Z * list trade)) :
  Forall (fun entry =>
            snd entry <> []
            /\ exists k, In k (map asset df)
                         /\ snd entry = trades_of k (snd entry))
         trade_dfs ->
  exists rows,
    summarize_all df trade_dfs = Some rows
    /\ map s_position rows = map fst trade_dfs
    /\ map s_num_trades rows = map (fun entry => len (snd entry)) trade_dfs
    /\ Forall (fun r => In (s_asset r) (map asset df)) rows.
Proof.
  induction 1 as [|[key trades] l [Hne (k & Hk & Hts)] _ IH].
  - exists []. repeat split. constructor.
  - destruct IH as (rows & Hrows & Hpos & Hnum & Hassets).
    cbn [snd] in Hne, Hts. destruct trades as [|t0 rest]; [contradiction|].
    assert (Ht0 : t_asset t0 = k).
    { assert (Hin : In t0 (trades_of k (t0 :: rest)))
        by (rewrite <- Hts; now left).
      apply filter_In in Hin. destruct Hin as [_ Hin].
      now apply String.eqb_eq in Hin. }
    destruct (summarize_defined df key t0 rest) as (row & Hrow & H1 & H2 & H3);
      [now rewrite Ht0|].
    exists (row :: rows). cbn [summarize_all]. rewrite Hrow, Hrows.
    repeat split.
    + cbn. now rewrite H1, Hpos.
    + cbn [map snd]. now rewrite H3, Hnum.
    + constructor; [|exact Hassets]. now rewrite H2, Ht0.
Qed.

Lemma trades_of_idem (k : string) (l : list trade) :
  trades_of k l = trades_of k (trades_of k l).
Proof.
  unfold trades_of. symmetry. apply filter_all_true.
  apply Forall_forall. intros t Hin. apply filter_In in Hin. tauto.
Qed.

(** X22: [create_summary] on the [trade_dfs] that [process_trades] built
    never fails: it returns one row per entry, in order, with the key and
    the number of trades of the entry, for an asset of the position
    table. *)
Theorem summary_has_a_row_for_every_traded_position
        (df : list position) (all_trades_df : list trade) :
  exists summary_df,
    create_summary df (process_trades df all_trades_df) = Some summary_df
    /\ map s_position summary_df
       = map fst (process_trades df all_trades_df)
    /\ map s_num_trades summary_df
       = map (fun entry => len (snd entry))
             (process_trades df all_trades_df)
    /\ Forall (fun r => In (s_asset r) (map asset df)) summary_df.
Proof.
  destruct df as [|p df].
  { exists []. repeat split. constructor. }
  unfold create_summary. apply summarize_all_defined.
  eapply Forall_impl; [|apply process_trades_groups].
  intros [key trades] (Hne & k & Hk & Hts). cbn [snd] in *.
  split; [exact Hne|]. exists k. split; [exact Hk|].
  rewrite Hts at 1. rewrite Hts. apply trades_of_idem.
Qed.

(** X23: [create_summary] fails (the [IndexError] of [.iloc[0]]) when the
    position table is not empty and an entry of [trade_dfs] starts with a
    trade whose asset has no position. *)
Theorem create_summary_fails_on_unknown_asset
        (df : list position) (trade_dfs : list (Z * list trade))
        (key : Z) (t0 : trade) (rest : list trade) :
  df <> [] ->
  In (key, t0 :: rest) trade_dfs ->
  ~ In (t_asset t0) (map asset df) ->
  create_summary df trade_dfs = None.
Proof.
  intros Hdf Hin Hn. unfold create_summary.
  destruct df as [|p df]; [contradiction|].
  induction trade_dfs as [|[key' trades] l IH]; [destruct Hin|].
  cbn [summarize_all]. destruct Hin as [Heq|Hin].
  - injection Heq as -> ->. now rewrite summarize_index_error.
  - rewrite (IH Hin). now destruct (summarize _ _ _).
Qed.

Lemma create_summary_fails_on_unknown_asset_witness :
  create_summary [sample_holding "B" 1 true]
                 [(1, [trade_row [sample_holding "B" 1 true] sample_trade])]
  = None.
Proof.
  apply (create_summary_fails_on_unknown_asset
           [sample_holding "B" 1 true]
           [(1, [trade_row [sample_holding "B" 1 true] sample_trade])]
           1 (trade_row [sample_holding "B" 1 true] sample_trade) []).
  - discriminate.
  - now left.
  - intros [H|[]]. discriminate.
Defined.

Lemma Qsum_acc (l : list Q) (a : Q) : (fold_left Qplus l a == a + Qsum l)%Q.
Proof.
  unfold Qsum. revert a. induction l as [|x l IH]; intro a; simpl.
  - ring.
  - rewrite (IH (a + x)%Q), (IH (0 + x)%Q). ring.
Qed.

Lemma Qsum_cons (x : Q) (l : list Q) : (Qsum (x :: l) == x + Qsum l)%Q.
Proof. unfold Qsum at 1. simpl. rewrite Qsum_acc. ring. Qed.

Lemma Qsum_split {A : Type} (f : A -> Q) (p : A -> bool) (l : list A) :
  (Qsum (map f l)
   == Qsum (map f (filter p l))
      + Qsum (map f (filter (fun x => negb (p x)) l)))%Q.
Proof.
  induction l as [|x l IH]; simpl.
  - reflexivity.
  - destruct (p x); simpl; rewrite !Qsum_cons, IH; ring.
Qed.

(** X24: in a summary row [total_invested + total_sells] is the value of
    all trades of the position; without sells [total_sells] is 0 and
    [net_invested] equals [total_invested]; the row counts at least one
    trade; [realizedPnl] and [closed] are those of the first row of the
    asset in the position table. *)
Theorem summary_splits_cost_by_side
        (df : list position) (key : Z) (trades : list trade)
        (row : summary_row) :
  summarize df key trades = Some [row] ->
  (s_total_invested row + s_total_sells row == Qsum (map t_value trades))%Q
  /\ (s_has_sells row = false ->
      s_total_sells row = 0%Q
      /\ (s_net_invested row == s_total_invested row)%Q)
  /\ 1 <= s_num_trades row
  /\ exists position_data rest,
       filter (fun p => String.eqb (asset p) (s_asset row)) df
       = position_data :: rest
       /\ s_realizedPnl row = realizedPnl position_data
       /\ s_closed row = closed position_data.
Proof.
  unfold summarize. destruct trades as [|t0 rest]; [discriminate|].
  destruct (filter _ df) as [|position_data others] eqn:Edf; [discriminate|].
  intro H. injection H as <-.
  cbn [s_total_invested s_total_sells s_has_sells s_net_invested
       s_num_trades s_asset s_realizedPnl s_closed].
  split; [|split; [|split]].
  - unfold side_value.
    rewrite (Qsum_split t_value (fun t => side_eqb (t_side t) BUY) (t0 :: rest)).
    rewrite (filter_ext (fun t => side_eqb (t_side t) SELL)
                        (fun t => negb (side_eqb (t_side t) BUY)));
      [reflexivity|].
    intro t. now destruct (t_side t).
  - intro Hs. unfold side_value.
    assert (E : filter (fun t => side_eqb (t_side t) SELL) (t0 :: rest) = []).
    { destruct (filter _ (t0 :: rest)) as [|t l] eqn:E; [reflexivity|].
      assert (Hin : In t (filter (fun t => side_eqb (t_side t) SELL)
                                 (t0 :: rest))) by (rewrite E; now left).
      apply filter_In in Hin. destruct Hin as [Hin Ht].
      assert (Hex : existsb (fun t => side_eqb (t_side t) SELL) (t0 :: rest)
                    = true) by (apply existsb_exists; now exists t).
      cbn [existsb] in Hex. rewrite Hex in Hs. discriminate. }
    rewrite E. split; [reflexivity|]. cbn. ring.
  - unfold len. cbn [length]. lia.
  - exists position_data, others. repeat split. exact Edf.
Qed.


Definition sample_trades : list trade :=
  map (trade_row [sample_holding "A" 1 true]) [sample_trade; sample_trade].

Lemma summary_splits_cost_by_side_witness :
  exists row,
    summarize [sample_holding "A" 1 true] 1 sample_trades = Some [row]
    /\ (s_total_invested row + s_total_sells row
        == Qsum (map t_value sample_trades))%Q
    /\ s_total_sells row = 0%Q.
Proof.
  eexists. split; [reflexivity|].
  destruct (summary_splits_cost_by_side
              [sample_holding "A" 1 true] 1 sample_trades _ eq_refl)
    as (H1 & H2 & _).
  split; [exact H1|]. apply H2. reflexivity.
Defined.

(* ================================================================== *)
(** ** [portfolio_summary]: sums and signs *)

(** X25: in [portfolio_summary], [total_pnl] equals
    [realized_pnl + unrealized_pnl] as a rational; it is the sum of
    [realizedPnl] over all positions, and [total_invested] the sum of
    [total_invested] over the summary. *)
Theorem total_pnl_is_realized_plus_unrealized
        (df : list position) (summary_df : list summary_row) (p : portfolio) :
  portfolio_summary df summary_df = Some p ->
  (total_pnl p == realized_pnl p + unrealized_pnl p)%Q
  /\ total_pnl p = Qsum (map realizedPnl df)
  /\ total_invested p = Qsum (map s_total_invested summary_df).
Proof.
  unfold portfolio_summary. destruct df as [|r df]; [discriminate|].
  destruct summary_df as [|s summary_df]; [discriminate|].
  cbv zeta. intro H. injection H as <-.
  cbn [total_pnl realized_pnl unrealized_pnl total_invested].
  split; [|split; reflexivity].
  exact (Qsum_split realizedPnl closed (r :: df)).
Qed.

Definition sample_summary (pnl : Q) (is_closed : bool) : summary_row :=
  {| s_position := 1; s_title := "T"; s_eventSlug := "s";
     s_first_timestamp := 50; s_totalBought := 10; s_realizedPnl := pnl;
     s_total_invested := 5; s_total_sells := 0; s_net_invested := 5;
     s_roi_pct := Some 0%Q; s_num_trades := 1; s_has_sells := false;
     s_closed := is_closed; s_asset := "A" |}%string.

Definition sample_book : list summary_row :=
  [sample_summary 3 true; sample_summary (-2) true; sample_summary 7 false].

Lemma total_pnl_is_realized_plus_unrealized_witness :
  exists p,
    portfolio_summary [sample_holding "A" 1 true; sample_holding "B" 1 false]
                      sample_book = Some p
    /\ (total_pnl p == realized_pnl p + unrealized_pnl p)%Q.
Proof.
  eexists. split; [reflexivity|].
  apply (total_pnl_is_realized_plus_unrealized
           [sample_holding "A" 1 true; sample_holding "B" 1 false]
           sample_book _ eq_refl).
Defined.

Lemma Qsum_sign (l : list Q) :
  l <> [] ->
  (Forall (fun x => 0 < x)%Q l -> (0 < Qsum l)%Q)
  /\ (Forall (fun x => x < 0)%Q l -> (Qsum l < 0)%Q).
Proof.
  induction l as [|x l IH]; intro Hne; [contradiction|].
  destruct l as [|y l].
  - split; intro H; inversion H; subst; rewrite Qsum_cons;
      change (Qsum []) with 0%Q; rewrite Qplus_0_r; assumption.
  - destruct IH as [IHp IHn]; [discriminate|].
    split; intro H; inversion H as [|? ? Hx Hl]; subst;
      rewrite Qsum_cons.
    + apply IHp in Hl. rewrite <- (Qplus_0_r 0).
      apply Qplus_lt_le_compat; [exact Hx|now apply Qlt_le_weak].
    + apply IHn in Hl. rewrite <- (Qplus_0_r 0).
      apply Qplus_lt_le_compat; [exact Hx|now apply Qlt_le_weak].
Qed.

Lemma Qlen_pos {A : Type} (l : list A) : l <> [] -> (0 < Qlen l)%Q.
Proof.
  intro H. unfold Qlen, len. destruct l; [contradiction|].
  unfold Qlt. cbn. lia.
Qed.

Lemma len_pos_iff {A : Type} (l : list A) : (0 <? len l) = true <-> l <> [].
Proof.
  unfold len. destruct l; cbn; split; easy.
Qed.

Lemma mean_or_zero_sign (l : list Q) :
  exists m,
    mean_or_zero l = Some m
    /\ (l = [] -> m = 0%Q)
    /\ (l <> [] -> Forall (fun x => 0 < x)%Q l -> (0 < m)%Q)
    /\ (l <> [] -> Forall (fun x => x < 0)%Q l -> (m < 0)%Q).
Proof.
  unfold mean_or_zero. destruct (0 <? len l) eqn:E.
  - pose proof (proj1 (len_pos_iff l) E) as Hne.
    pose proof (Qlen_pos l Hne) as Hpos.
    rewrite py_div_defined by now apply Qlen_nonzero.
    eexists. split; [reflexivity|]. split; [contradiction|].
    destruct (Qsum_sign l Hne) as [Hp Hn].
    split; intros _ H.
    + apply Qlt_shift_div_l; [exact Hpos|]. rewrite Qmult_0_l. now apply Hp.
    + apply Qlt_shift_div_r; [exact Hpos|]. rewrite Qmult_0_l. now apply Hn.
  - exists 0%Q. split; [reflexivity|]. split; [reflexivity|].
    assert (l = []) by (destruct l; [reflexivity|discriminate]).
    split; intro; contradiction.
Qed.

Lemma Qabs_nonneg (a : Q) : (0 <= Qabs a)%Q.
Proof.
  unfold Qabs. destruct (Qle_bool 0 a) eqn:E.
  - now apply Qle_bool_iff.
  - assert (H : ~ (0 <= a)%Q) by (intro H; apply Qle_bool_iff in H; congruence).
    apply Qnot_le_lt in H. apply Qlt_le_weak.
    apply (Qopp_lt_compat a 0) in H. exact H.
Qed.

Lemma winning_all_positive (rows : list summary_row) :
  Forall (fun x => 0 < x)%Q (map s_realizedPnl (winning_rows rows)).
Proof.
  apply Forall_forall. intros x Hin. apply in_map_iff in Hin.
  destruct Hin as (r & <- & Hr). apply filter_In in Hr.
  apply Qlt_bool_true. tauto.
Qed.

Lemma losing_all_negative (rows : list summary_row) :
  Forall (fun x => x < 0)%Q (map s_realizedPnl (losing_rows rows)).
Proof.
  apply Forall_forall. intros x Hin. apply in_map_iff in Hin.
  destruct Hin as (r & <- & Hr). apply filter_In in Hr.
  apply Qlt_bool_true. tauto.
Qed.

Lemma filter_len_le {A : Type} (f : A -> bool) (l : list A) :
  len (filter f l) <= len l.
Proof.
  unfold len. induction l as [|x l IH]; simpl; [lia|].
  destruct (f x); simpl; lia.
Qed.

Lemma portfolio_summary_fields
      (df : list position) (summary_df : list summary_row) (p : portfolio) :
  portfolio_summary df summary_df = Some p ->
  let winning := winning_rows (closed_rows summary_df) in
  let losing := losing_rows (closed_rows summary_df) in
  win_rate p = win_rate_of winning (closed_rows summary_df)
  /\ avg_win p = mean_or_zero (map s_realizedPnl winning)
  /\ avg_loss p = mean_or_zero (map s_realizedPnl losing)
  /\ profit_factor p
     = match avg_win p, avg_loss p with
       | Some w, Some l => profit_factor_of w l winning losing
       | _, _ => None
       end.
Proof.
  unfold portfolio_summary. destruct df as [|r df]; [discriminate|].
  destruct summary_df as [|s summary_df]; [discriminate|].
  intro H. injection H as <-. repeat split.
Qed.

(** X26: [win_rate] is a number between 0 and 100. *)
Theorem win_rate_is_a_percentage
        (df : list position) (summary_df : list summary_row) (p : portfolio) :
  portfolio_summary df summary_df = Some p ->
  exists q, win_rate p = Some q /\ (0 <= q <= 100)%Q.
Proof.
  intro H. destruct (portfolio_summary_fields df summary_df p H) as [-> _].
  set (closed_positions := closed_rows summary_df).
  unfold win_rate_of. destruct (0 <? len closed_positions) eqn:E.
  - rewrite py_div_defined by now apply Qlen_nonzero.
    eexists. split; [reflexivity|].
    apply len_pos_iff in E. pose proof (Qlen_pos _ E) as Hpos.
    assert (Hw : (0 <= Qlen (winning_rows closed_positions))%Q).
    { unfold Qlen, len. change 0%Q with (inject_Z 0).
      rewrite <- Zle_Qle. lia. }
    assert (Hle : (Qlen (winning_rows closed_positions)
                   <= Qlen closed_positions)%Q).
    { unfold Qlen. rewrite <- Zle_Qle. apply filter_len_le. }
    split.
    + apply Qmult_le_0_compat; [|discriminate].
      apply Qle_shift_div_l; [exact Hpos|]. now rewrite Qmult_0_l.
    + setoid_replace 100%Q with (1 * 100)%Q at 2 by ring.
      apply Qmult_le_compat_r; [|discriminate].
      apply Qle_shift_div_r; [exact Hpos|]. now rewrite Qmult_1_l.
  - exists 0%Q. split; [reflexivity|]. split; discriminate.
Qed.

(** X27: [avg_win], [avg_loss] and [profit_factor] are always numbers;
    [avg_win] is positive when a closed position wins and 0 otherwise,
    [avg_loss] is negative when one loses and 0 otherwise (so the
    [avg_loss != 0] test holds whenever there are losing positions), and
    [profit_factor] is never negative, 0 without losing positions. *)
Theorem average_win_and_loss_have_their_sign
        (df : list position) (summary_df : list summary_row) (p : portfolio) :
  portfolio_summary df summary_df = Some p ->
  let winning := winning_rows (closed_rows summary_df) in
  let losing := losing_rows (closed_rows summary_df) in
  exists w l f,
    avg_win p = Some w /\ avg_loss p = Some l /\ profit_factor p = Some f
    /\ (0 <= f)%Q
    /\ (winning = [] -> w = 0%Q)
    /\ (winning <> [] -> (0 < w)%Q)
    /\ (losing = [] -> l = 0%Q /\ f = 0%Q)
    /\ (losing <> [] ->
        (l < 0)%Q
        /\ f = Qabs ((w * Qlen winning) / (l * Qlen losing))).
Proof.
  intro H. cbv zeta.
  destruct (portfolio_summary_fields df summary_df p H)
    as (_ & Haw & Hal & Hpf).
  cbv zeta in Haw, Hal, Hpf. rewrite Hpf, Haw, Hal. clear Hpf Haw Hal.
  set (winning := winning_rows (closed_rows summary_df)).
  set (losing := losing_rows (closed_rows summary_df)).
  destruct (mean_or_zero_sign (map s_realizedPnl winning))
    as (w & Ew & Hw0 & Hwp & _).
  destruct (mean_or_zero_sign (map s_realizedPnl losing))
    as (l & El & Hl0 & _ & Hln).
  rewrite Ew, El, profit_factor_of_value.
  assert (Hmap : forall rows : list summary_row,
             map s_realizedPnl rows = [] <-> rows = []).
  { intros [|x rows]; split; try easy. }
  assert (Hf : exists f,
             (if (0 <? len losing) && negb (Qeq_bool l 0)
              then Some (Qabs (w * Qlen winning / (l * Qlen losing)))
              else Some 0%Q) = Some f
             /\ (0 <= f)%Q
             /\ (losing = [] -> l = 0%Q /\ f = 0%Q)
             /\ (losing <> [] ->
                 (l < 0)%Q
                 /\ f = Qabs ((w * Qlen winning) / (l * Qlen losing)))).
  { destruct (0 <? len losing) eqn:Elen.
    - apply len_pos_iff in Elen.
      assert (Hneg : (l < 0)%Q).
      { apply Hln; [now rewrite Hmap|apply losing_all_negative]. }
      assert (Eq0 : Qeq_bool l 0 = false).
      { destruct (Qeq_bool l 0) eqn:E0; [|reflexivity].
        apply Qeq_bool_iff in E0. rewrite E0 in Hneg.
        now apply Qlt_irrefl in Hneg. }
      rewrite Eq0. cbn [andb negb]. eexists. split; [reflexivity|].
      split; [apply Qabs_nonneg|]. split; [contradiction|].
      intros _. now split.
    - assert (Enil : losing = [])
        by (destruct losing; [reflexivity|discriminate]).
      cbn [andb]. exists 0%Q. split; [reflexivity|].
      split; [discriminate|]. split; [|contradiction].
      intros _. split; [|reflexivity]. apply Hl0. now apply Hmap. }
  destruct Hf as (f & Ef & Hf0 & Hfnil & Hfne).
  exists w, l, f. split; [reflexivity|]. split; [reflexivity|].
  split; [exact Ef|]. split; [exact Hf0|].
  split; [intro Hnil; apply Hw0; now apply Hmap|].
  split; [intro Hne; apply Hwp; [now rewrite Hmap|apply winning_all_positive]|].
  split; assumption.
Qed.

Lemma win_rate_is_a_percentage_witness :
  exists q,
    option_map win_rate
               (portfolio_summary [sample_holding "A" 1 true] sample_book)
    = Some (Some q)
    /\ (0 <= q <= 100)%Q.
Proof.
  destruct (win_rate_is_a_percentage [sample_holding "A" 1 true] sample_book
              _ eq_refl) as (q & Hq & Hb).
  exists q. split; [|exact Hb]. cbn [option_map portfolio_summary sample_book].
  cbv zeta. f_equal. exact Hq.
Defined.

Lemma average_win_and_loss_have_their_sign_witness :
  exists w l f,
    option_map avg_win
               (portfolio_summary [sample_holding "A" 1 true] sample_book)
    = Some (Some w)
    /\ option_map avg_loss
                  (portfolio_summary [sample_holding "A" 1 true] sample_book)
       = Some (Some l)
    /\ option_map profit_factor
                  (portfolio_summary [sample_holding "A" 1 true] sample_book)
       = Some (Some f)
    /\ (0 < w)%Q /\ (l < 0)%Q /\ (0 <= f)%Q.
Proof.
  destruct (average_win_and_loss_have_their_sign
              [sample_holding "A" 1 true] sample_book _ eq_refl)
    as (w & l & f & Hw & Hl & Hf & Hf0 & _ & Hwp & _ & Hln).
  exists w, l, f.
  split; [cbn [option_map portfolio_summary sample_book]; cbv zeta;
          f_equal; exact Hw|].
  split; [cbn [option_map portfolio_summary sample_book]; cbv zeta;
          f_equal; exact Hl|].
  split; [cbn [option_map portfolio_summary sample_book]; cbv zeta;
          f_equal; exact Hf|].
  split; [apply Hwp; discriminate|].
  split; [apply Hln; discriminate|exact Hf0].
Defined.
